(** * notebook_utils: autosaved plots and table previews

    A shallow embedding of [notebook_utils.py] (and of the index computation of
    its checkpoint copy), together with the properties of its two public
    operations, [enable_autosave_plots] and [save_dataframe_preview].

    The module is glue around three libraries (pathlib, matplotlib, pandas);
    the part of each library that the module calls is modelled here:
    pure paths, a directory tree, a figure that can be written as a PNG, a
    table whose first rows can be written as CSV.  Python exceptions are values
    of [exn], those that derive from [Exception] and those that do not; every
    operation runs in a state-and-exception monad over the [world] (file
    system, clock, current figure, standard output, the installed
    [plt.show]).  *)

From Stdlib Require Import Ascii Decimal DecimalString DecimalNat DecimalZ.
From stdpp Require Import gmap strings list fin_maps.

Local Open Scope string_scope.

(** ** Python values, exceptions *)

Inductive exn :=
| FileNotFoundError
| FileExistsError
| NotADirectoryError
| IsADirectoryError
| TypeError
| RuntimeError (msg : string)
| KeyboardInterrupt
| SystemExit (code : string).

Definition exn_str (e : exn) : string :=
  match e with
  | FileNotFoundError => "No such file or directory"
  | FileExistsError => "File exists"
  | NotADirectoryError => "Not a directory"
  | IsADirectoryError => "Is a directory"
  | TypeError => "expected str, bytes or os.PathLike object"
  | RuntimeError msg => msg
  | KeyboardInterrupt => ""
  | SystemExit code => code
  end.

(** Whether the exception is an instance of [Exception]: [KeyboardInterrupt]
    and [SystemExit] derive from [BaseException] only, and a clause
    [except Exception] lets them pass. *)
Definition is_Exception (e : exn) : bool :=
  match e with
  | KeyboardInterrupt | SystemExit _ => false
  | _ => true
  end.

Inductive result (A : Type) :=
| Ok (a : A)
| Raise (e : exn).
Arguments Ok {A} a.
Arguments Raise {A} e.

(** ** Strings *)

(** Python strings are modelled as strings of 8-bit characters; [lower]
    changes the ASCII capitals, which is all that matters for a comparison with
    [.png]. *)
Module Str.

Fixpoint ends_with (suffix s : string) : bool :=
  String.eqb suffix s ||
  match s with
  | EmptyString => false
  | String _ s' => ends_with suffix s'
  end.

Definition lower_char (c : ascii) : ascii :=
  let n := Ascii.nat_of_ascii c in
  if (65 <=? n)%nat && (n <=? 90)%nat then Ascii.ascii_of_nat (n + 32) else c.

Fixpoint lower (s : string) : string :=
  match s with
  | EmptyString => EmptyString
  | String c s' => String (lower_char c) (lower s')
  end.

Fixpoint contains (c : ascii) (s : string) : bool :=
  match s with
  | EmptyString => false
  | String c' s' => Ascii.eqb c c' || contains c s'
  end.

(** [split_on c s] is Python's [s.split(c)] for a one-character
    separator: the pieces between the separators, empty ones included. *)
Fixpoint split_on (c : ascii) (s : string) : list string :=
  match s with
  | EmptyString => [EmptyString]
  | String c' s' =>
      if Ascii.eqb c c' then EmptyString :: split_on c s'
      else match split_on c s' with
           | [] => [String c' EmptyString]
           | w :: ws => String c' w :: ws
           end
  end.

Fixpoint join (sep : string) (l : list string) : string :=
  match l with
  | [] => EmptyString
  | [x] => x
  | x :: l' => x +:+ sep +:+ join sep l'
  end.

Fixpoint starts_with (p s : string) : bool :=
  match p, s with
  | EmptyString, _ => true
  | String a p', String b s' => Ascii.eqb a b && starts_with p' s'
  | String _ _, EmptyString => false
  end.

End Str.

(** ** Number formatting *)

(** [str(n)] for a non-negative integer. *)
Definition dec (n : nat) : string := NilEmpty.string_of_uint (Nat.to_uint n).

(** The format specification [02d]: decimal digits, padded with zeros on the
    left to a width of two. *)
Definition fmt_02d (n : nat) : string :=
  let s := dec n in
  if (String.length s <? 2)%nat then "0" +:+ s else s.

Definition dec_Z (z : Z) : string := NilEmpty.string_of_int (Z.to_int z).

(** ** pathlib *)

(** A path is its anchor (whether it starts at the root) and its
    components.  The components are kept innermost first, so that the parent
    of a path is the tail of its components. *)
Record Path := MkPath { anchored : bool; rparts : list string }.

Global Instance Path_eq_dec : EqDecision Path.
Proof. solve_decision. Defined.

Global Instance Path_countable : Countable Path :=
  inj_countable' (fun p => (anchored p, rparts p))
                 (fun '(a, l) => MkPath a l)
                 (fun p => match p with MkPath _ _ => eq_refl end).

Module PurePath.

(** [Path(s)]: split at the separators; empty components and [.] are
    dropped, [..] is kept. *)
Definition keep (c : string) : bool :=
  negb (String.eqb c "") && negb (String.eqb c ".").

Definition parse (s : string) : Path :=
  MkPath (Str.starts_with "/" s)
         (rev (filter (fun c => keep c = true) (Str.split_on "/"%char s))).

(** [p / s] *)
Definition joinpath (p : Path) (s : string) : Path :=
  let q := parse s in
  if anchored q then q else MkPath (anchored p) (rparts q ++ rparts p).

(** [str(p)] *)
Definition str (p : Path) : string :=
  match anchored p, rparts p with
  | false, [] => "."
  | false, l => Str.join "/" (rev l)
  | true, l => "/" +:+ Str.join "/" (rev l)
  end.

(** [p.parent] *)
Definition parent (p : Path) : Path := MkPath (anchored p) (tail (rparts p)).

End PurePath.

Notation "p // s" := (PurePath.joinpath p s) (at level 40, left associativity).

Inductive pyval :=
| VNone
| VBool (b : bool)
| VInt (z : Z)
| VStr (s : string)
| VPath (p : Path).

(** [str(v)], which is also what an f-string field [{v}] produces. *)
Definition py_str (v : pyval) : string :=
  match v with
  | VNone => "None"
  | VBool true => "True"
  | VBool false => "False"
  | VInt z => dec_Z z
  | VStr s => s
  | VPath p => PurePath.str p
  end.

(** Truth value of an object: [None], [False], [0] and the empty string are
    false; a [Path] defines no [__bool__] and is always true. *)
Definition truthy (v : pyval) : bool :=
  match v with
  | VNone => false
  | VBool b => b
  | VInt z => negb (z =? 0)%Z
  | VStr s => negb (String.eqb s "")
  | VPath _ => true
  end.

(** [a or b] *)
Definition py_or (a b : pyval) : pyval := if truthy a then a else b.

(** ** The file system *)

Inductive content :=
| PNG (figure : string) (dpi : nat) (bbox_inches : string)
| CSV (table : list (list string)).

Inductive node :=
| Dir
| File (c : content).

Abbreviation FS := (gmap Path node).

Module Fs.

(** The tree maps the path of every entry to what is there.  Components
    are taken as the names of entries: [..] and symbolic links are not
    resolved, and neither access rights nor the limits on the length of a
    name are modelled; [plain_path] below says for which paths this is how
    the system reads them.  The root of either anchor ([/] and the working
    directory) is a directory that is always there. *)
Definition is_root (p : Path) : bool :=
  match rparts p with [] => true | _ => false end.

Definition exists_ (fs : FS) (p : Path) : bool :=
  is_root p || match fs !! p with Some _ => true | None => false end.

Definition is_dir (fs : FS) (p : Path) : bool :=
  is_root p || match fs !! p with Some Dir => true | _ => false end.

(** Whether the path [rp] (under the anchor [a]) or one of the paths above
    it is there without being a directory: the system then fails to walk
    down to anything below [rp]. *)
Fixpoint under_file (fs : FS) (a : bool) (rp : list string) : bool :=
  match rp with
  | [] => false
  | _ :: rp' =>
      (exists_ fs (MkPath a rp) && negb (is_dir fs (MkPath a rp))) || under_file fs a rp'
  end.

(** What the system answers when it is to reach into [d] and [d] is no
    directory. *)
Definition no_dir_error (fs : FS) (d : Path) : exn :=
  if under_file fs (anchored d) (rparts d) then NotADirectoryError
  else FileNotFoundError.

(** What a system call that creates the entry [p] checks about the
    directory that is to hold it. *)
Definition check_parent (fs : FS) (p : Path) : result unit :=
  let d := PurePath.parent p in
  if is_dir fs d then Ok tt else Raise (no_dir_error fs d).

(** [os.mkdir(p)] *)
Definition os_mkdir (fs : FS) (p : Path) : result FS :=
  if exists_ fs p then Raise FileExistsError
  else match check_parent fs p with
       | Ok _ => Ok (<[p := Dir]> fs)
       | Raise e => Raise e
       end.

(** [open(p, "w")] followed by writing [c] and closing. *)
Definition write_file (fs : FS) (p : Path) (c : content) : result FS :=
  if is_dir fs p then Raise IsADirectoryError
  else match check_parent fs p with
       | Ok _ => Ok (<[p := File c]> fs)
       | Raise e => Raise e
       end.

(** The names of the entries of the directory [d], in the order in which
    the system lists them. *)
Definition entry_in (d : Path) (e : Path * node) : option string :=
  match rparts e.1 with
  | name :: rest =>
      if decide (anchored e.1 = anchored d ∧ rest = rparts d) then Some name else None
  | [] => None
  end.

Definition scandir (fs : FS) (d : Path) : list string :=
  omap (entry_in d) (map_to_list fs).

(** [os.listdir(d)] *)
Definition listdir (fs : FS) (d : Path) : result (list string) :=
  if is_dir fs d then Ok (scandir fs d) else Raise (no_dir_error fs d).

(** Every entry lies in a directory. *)
Definition wf (fs : FS) : Prop :=
  ∀ p, is_Some (fs !! p) → is_root p = false ∧ is_dir fs (PurePath.parent p) = true.

(** The names for which a component of a path stands for the entry of that
    name, as the tree has it: not [..], which the system resolves, not longer
    than the 255 bytes a name may have, and without the null byte, which
    Python refuses. *)
Definition plain_name (c : string) : bool :=
  negb (String.eqb c "..") && (String.length c <=? 255)%nat
  && negb (Str.contains "000"%char c).

(** A path of plain names that is shorter than the system's limit for a
    path (4096 bytes). *)
Definition plain_path (p : Path) : bool :=
  forallb plain_name (rparts p) && (String.length (PurePath.str p) <? 4096)%nat.

End Fs.

(** ** fnmatch *)

(** Shell-style matching of one path component, for patterns made of
    literal characters, [*] and [?]. *)
Fixpoint fnmatch_from (pat : string) : string → bool :=
  match pat with
  | EmptyString => fun s => match s with EmptyString => true | _ => false end
  | String c pat' =>
      if Ascii.eqb c "*" then
        fix star (s : string) : bool :=
          fnmatch_from pat' s ||
          match s with EmptyString => false | String _ s' => star s' end
      else if Ascii.eqb c "?" then
        fun s => match s with String _ s' => fnmatch_from pat' s' | EmptyString => false end
      else
        fun s => match s with
                 | String c' s' => Ascii.eqb c c' && fnmatch_from pat' s'
                 | EmptyString => false
                 end
  end.

(** pathlib compiles the pattern with [re.IGNORECASE] on Windows and
    without it elsewhere. *)
Definition fnmatch (case_sensitive : bool) (pat name : string) : bool :=
  if case_sensitive then fnmatch_from pat name
  else fnmatch_from (Str.lower pat) (Str.lower name).

(** ** The world *)

(** matplotlib's current figure.  Rendering it to a file can fail for
    reasons of its own ([savefig_fault]), apart from the file system. *)
Record Figure := MkFigure { fig_label : string; savefig_fault : option exn }.

(** A pandas table: column labels, and rows made of an index label and the
    cells.  Serialising it can fail for reasons of its own. *)
Record DataFrame := MkDataFrame {
  columns : list string;
  records : list (string * list string);
  to_csv_fault : option exn
}.

(** The function bound to [plt.show]: the library's own, or a closure
    made by [enable_autosave_plots] with its captured variables. *)
Inductive show_fn :=
| pyplot_show
| show_and_save (prefix : string) (vis_dir : Path) (orig_show : show_fn).

Record world := MkWorld {
  os_name : string;                     (* "posix" or "nt" *)
  environ : gmap string string;         (* os.environ *)
  fs : FS;
  clock : string;                       (* time.strftime("%Y%m%d-%H%M%S") *)
  gcf : Figure;                         (* plt.gcf() *)
  stdout : list string;                 (* lines printed so far *)
  displayed : list (list pyval * gmap string pyval);
                                        (* calls received by the library's show *)
  plt_show : show_fn                    (* plt.show *)
}.

Definition set_fs (f : FS) (w : world) : world :=
  MkWorld (os_name w) (environ w) f (clock w) (gcf w) (stdout w) (displayed w) (plt_show w).
Definition set_stdout (l : list string) (w : world) : world :=
  MkWorld (os_name w) (environ w) (fs w) (clock w) (gcf w) l (displayed w) (plt_show w).
Definition set_displayed (l : list (list pyval * gmap string pyval)) (w : world) : world :=
  MkWorld (os_name w) (environ w) (fs w) (clock w) (gcf w) (stdout w) l (plt_show w).
Definition set_plt_show (f : show_fn) (w : world) : world :=
  MkWorld (os_name w) (environ w) (fs w) (clock w) (gcf w) (stdout w) (displayed w) f.
Definition set_environ (e : gmap string string) (w : world) : world :=
  MkWorld (os_name w) e (fs w) (clock w) (gcf w) (stdout w) (displayed w) (plt_show w).
Definition set_clock (t : string) (w : world) : world :=
  MkWorld (os_name w) (environ w) (fs w) t (gcf w) (stdout w) (displayed w) (plt_show w).
Definition set_gcf (g : Figure) (w : world) : world :=
  MkWorld (os_name w) (environ w) (fs w) (clock w) g (stdout w) (displayed w) (plt_show w).

(** ** Computations that change the world and may raise *)

Definition M (A : Type) : Type := world → result A * world.

Definition ret {A} (a : A) : M A := fun w => (Ok a, w).

Definition raise {A} (e : exn) : M A := fun w => (Raise e, w).

Definition bind {A B} (c : M A) (k : A → M B) : M B :=
  fun w => match c w with
           | (Ok a, w') => k a w'
           | (Raise e, w') => (Raise e, w')
           end.

(** [try: body / except Exception as e: handler(e)]: an exception that is
    no [Exception] is not caught. *)
Definition try_except {A} (body : M A) (handler : exn → M A) : M A :=
  fun w => match body w with
           | (Ok a, w') => (Ok a, w')
           | (Raise e, w') => if is_Exception e then handler e w' else (Raise e, w')
           end.

(** [try: body / except FileNotFoundError: handler] *)
Definition try_except_FileNotFoundError {A} (body : M A) (handler : M A) : M A :=
  fun w => match body w with
           | (Raise FileNotFoundError, w') => handler w'
           | r => r
           end.

Declare Scope py_scope.
Delimit Scope py_scope with py.
Notation "x <- c ;; k" := (bind c (fun x => k))
  (at level 100, c at next level, right associativity) : py_scope.
Notation "c ;;; k" := (bind c (fun _ => k))
  (at level 100, right associativity) : py_scope.
Local Open Scope py_scope.

Definition get {A} (f : world → A) : M A := fun w => (Ok (f w), w).

Definition update (f : world → world) : M unit := fun w => (Ok tt, f w).

Definition lift_fs (f : FS → result FS) : M unit :=
  fun w => match f (fs w) with
           | Ok fs' => (Ok tt, set_fs fs' w)
           | Raise e => (Raise e, w)
           end.

Definition of_result {A} (r : result A) : M A := fun w => (r, w).

(** [print(line)] *)
Definition print (line : string) : M unit :=
  update (fun w => set_stdout (stdout w ++ [line]) w).

(** ** The library calls the module makes *)

Module Pathlib.

(** [Path(v)]: a string is parsed, a path is taken as it is, anything else
    is refused. *)
Definition Path_ (v : pyval) : M Path :=
  match v with
  | VStr s => ret (PurePath.parse s)
  | VPath p => ret p
  | _ => raise TypeError
  end.

(** [Path.mkdir(parents=False, exist_ok=exist_ok)] on the file system:
    [os.mkdir], whose [FileNotFoundError] is passed on and whose other
    errors are forgiven when the directory is there and [exist_ok].  The
    answer comes with the file system as the call leaves it. *)
Definition mkdir_once (exist_ok : bool) (p : Path) (f : FS) : result unit * FS :=
  match Fs.os_mkdir f p with
  | Ok f' => (Ok tt, f')
  | Raise FileNotFoundError => (Raise FileNotFoundError, f)
  | Raise e => if exist_ok && Fs.is_dir f p then (Ok tt, f) else (Raise e, f)
  end.

(** [Path.mkdir(parents=True, exist_ok=exist_ok)]: on [FileNotFoundError]
    the parent is made first (with [parents=True, exist_ok=True]) and the
    directory itself is then made without [parents]; a path that is its
    own parent re-raises.  What was made stays made when a later step
    raises. *)
Fixpoint mkdir_parents (exist_ok : bool) (a : bool) (rp : list string) (f : FS)
  : result unit * FS :=
  let p := MkPath a rp in
  match Fs.os_mkdir f p with
  | Ok f' => (Ok tt, f')
  | Raise FileNotFoundError =>
      match rp with
      | [] => (Raise FileNotFoundError, f)
      | _ :: rp' =>
          match mkdir_parents true a rp' f with
          | (Ok _, f1) => mkdir_once exist_ok p f1
          | (Raise e, f1) => (Raise e, f1)
          end
      end
  | Raise e => if exist_ok && Fs.is_dir f p then (Ok tt, f) else (Raise e, f)
  end.

(** [p.mkdir(parents=parents, exist_ok=exist_ok)] *)
Definition mkdir (p : Path) (parents exist_ok : bool) : M unit :=
  fun w =>
    let '(r, f') := (if parents then mkdir_parents exist_ok (anchored p) (rparts p)
                     else mkdir_once exist_ok p) (fs w) in
    (r, set_fs f' w).

(** [p.glob(pattern)] for a pattern of one component: the entries of [p]
    whose name matches; nothing, and no error, when [p] is not a
    directory. *)
Definition glob (p : Path) (pattern : string) : M (list Path) :=
  fun w =>
    let case_sensitive := negb (String.eqb (os_name w) "nt") in
    if Fs.is_dir (fs w) p then
      (Ok (map (fun name => MkPath (anchored p) (name :: rparts p))
               (filter (fun name => fnmatch case_sensitive pattern name = true)
                       (Fs.scandir (fs w) p))), w)
    else (Ok [], w).

End Pathlib.

Module Os.

Definition listdir (d : string) : M (list string) :=
  fun w => (Fs.listdir (fs w) (PurePath.parse d), w).

End Os.

Module Plt.

Definition gcf_ : M Figure := get gcf.

(** [fig.savefig(path, dpi=dpi, bbox_inches=bbox_inches)] *)
Definition savefig (fig : Figure) (path : Path) (dpi : nat) (bbox_inches : string)
  : M unit :=
  match savefig_fault fig with
  | Some e => raise e
  | None => lift_fs (fun f => Fs.write_file f path (PNG (fig_label fig) dpi bbox_inches))
  end.

End Plt.

Module Time.

Definition strftime : M string := get clock.

End Time.

Module Pandas.

(** [df.head(n)]: the first [n] rows, or all but the last [-n] when [n]
    is negative. *)
Definition head (n : Z) (df : DataFrame) : DataFrame :=
  let k := if (0 <=? n)%Z then Z.to_nat n
           else (length (records df) - Z.to_nat (- n))%nat in
  MkDataFrame (columns df) (take k (records df)) (to_csv_fault df).

(** The table [to_csv] writes: a header row, then a row per record, with
    the index labels as first column when [index] is set. *)
Definition csv_table (df : DataFrame) (index : bool) : list (list string) :=
  if index then ("" :: columns df) :: map (fun r => r.1 :: r.2) (records df)
  else columns df :: map snd (records df).

(** [df.to_csv(path, index=index)] *)
Definition to_csv (df : DataFrame) (path : Path) (index : bool) : M unit :=
  match to_csv_fault df with
  | Some e => raise e
  | None => lift_fs (fun f => Fs.write_file f path (CSV (csv_table df index)))
  end.

End Pandas.

(** ** notebook_utils.py *)

(** The module's globals, bound when the module is imported. *)
Record globals := MkGlobals {
  DEFAULT_VIS_DIR : Path;
  DEFAULT_ARTIFACTS_DIR : Path
}.

(** [os.environ.get(key, fallback)] *)
Definition environ_get (env : gmap string string) (key fallback : string) : string :=
  default fallback (env !! key).

(** Executing the module body (lines 22-23). *)
Definition import_module (w : world) : globals :=
  {| DEFAULT_VIS_DIR :=
       PurePath.parse (environ_get (environ w) "NBX_VIS_DIR" "results/visualizations");
     DEFAULT_ARTIFACTS_DIR :=
       PurePath.parse (environ_get (environ w) "NBX_ARTIFACTS_DIR" "results/artifacts") |}.

Definition _ensure_dir (p : pyval) : M Path :=
  p <- Pathlib.Path_ p ;;
  Pathlib.mkdir p true true ;;;
  ret p.

(** The f-string of line 56. *)
Definition plot_name (idx : nat) (prefix : string) (name_hint : pyval) (ts : string)
  : string :=
  fmt_02d idx +:+ "_" +:+ prefix +:+ "_" +:+ py_str name_hint +:+ "_" +:+ ts +:+ ".png".

(** [kwargs.pop(key, fallback)]: the value and the remaining dictionary. *)
Definition kwargs_pop (kwargs : gmap string pyval) (key : string) (fallback : pyval)
  : pyval * gmap string pyval :=
  (default fallback (kwargs !! key), delete key kwargs).

(** Lines 51-54: the number of entries matching [*.png], and 0 should the
    listing raise. *)
Definition next_index (vis_dir : Path) : M nat :=
  try_except (l <- Pathlib.glob vis_dir "*.png" ;; ret (length l))
             (fun _ => ret 0%nat).

Section Show.

(** What the library's own [plt.show] answers to a call. *)
Variable pyplot_show_result : list pyval → gmap string pyval → result pyval.

(** Calling a function that is or was bound to [plt.show].  The second
    case is the body of the closure [show_and_save] (lines 48-62). *)
Fixpoint call_show (f : show_fn) (args : list pyval) (kwargs : gmap string pyval)
  : M pyval :=
  match f with
  | pyplot_show =>
      update (fun w => set_displayed (displayed w ++ [(args, kwargs)]) w) ;;;
      of_result (pyplot_show_result args kwargs)
  | show_and_save prefix vis_dir orig_show =>
      fig <- Plt.gcf_ ;;
      ts <- Time.strftime ;;
      idx <- next_index vis_dir ;;
      let '(name_hint, kwargs) := kwargs_pop kwargs "name_hint" (VStr "plot") in
      let path := vis_dir // plot_name idx prefix name_hint ts in
      try_except (Plt.savefig fig path 200 "tight" ;;;
                  print ("[saved plot] " +:+ PurePath.str path))
                 (fun e => print ("[warn] could not save plot: " +:+ exn_str e)) ;;;
      call_show orig_show args kwargs
  end.

(** A call of [plt.show] by user code: whatever is bound to it now. *)
Definition show (args : list pyval) (kwargs : gmap string pyval) : M pyval :=
  f <- get plt_show ;;
  call_show f args kwargs.

End Show.

(** The two public operations.  The defaults of their parameters
    ([prefix = "fig"], [n = 20], [output_dir = None]) are the caller's to
    supply here. *)
Definition enable_autosave_plots (m : globals) (prefix : string) (output_dir : pyval)
  : M unit :=
  vis_dir <- _ensure_dir (py_or output_dir (VPath (DEFAULT_VIS_DIR m))) ;;
  orig_show <- get plt_show ;;
  update (set_plt_show (show_and_save prefix vis_dir orig_show)) ;;;
  print ("[autosave] matplotlib.pyplot.show patched -> " +:+ PurePath.str vis_dir).

Definition save_dataframe_preview (m : globals) (df : DataFrame) (name : string) (n : Z)
    (output_dir : pyval) : M string :=
  art_dir <- _ensure_dir (py_or output_dir (VPath (DEFAULT_ARTIFACTS_DIR m))) ;;
  let out_csv := art_dir // (name +:+ "_preview.csv") in
  try_except (Pandas.to_csv (Pandas.head n df) out_csv false ;;;
              print ("[saved table] " +:+ PurePath.str out_csv))
             (fun e => print ("[warn] could not save table preview: " +:+ exn_str e)) ;;;
  ret (PurePath.str out_csv).

(** ** The checkpoint copy: how it numbers the plots (lines 53-56) *)

Module Checkpoint.

Definition is_png (f : string) : bool := Str.ends_with ".png" (Str.lower f).

Definition next_index : M nat :=
  try_except_FileNotFoundError
    (l <- Os.listdir "visualizations" ;;
     ret (length (filter (fun f => is_png f = true) l)))
    (ret 0%nat).

End Checkpoint.

(** ** A notebook session *)

(** One call of [plt.show] by the notebook: its arguments, and the time and
    the current figure at that moment. *)
Record call := MkCall {
  call_args : list pyval;
  call_kwargs : gmap string pyval;
  call_time : string;
  call_figure : Figure
}.

Section Session.

Variable pyplot_show_result : list pyval → gmap string pyval → result pyval.

Definition invoke (c : call) : M pyval :=
  update (fun w => set_gcf (call_figure c) (set_clock (call_time c) w)) ;;;
  show pyplot_show_result (call_args c) (call_kwargs c).

(** The calls one after the other; an exception of one call ends that
    call only, as in a notebook. *)
Fixpoint session (cs : list call) (w : world) : world :=
  match cs with
  | [] => w
  | c :: cs' => session cs' (invoke c w).2
  end.

End Session.

(** ** Reading a plot name back *)

Definition is_digit (c : ascii) : bool :=
  match uint_of_char c (Some Nil) with Some _ => true | None => false end.

(** The number written by the leading digits of a string. *)
Fixpoint leading_uint (s : string) : uint :=
  match s with
  | EmptyString => Nil
  | String c s' =>
      match uint_of_char c (Some (leading_uint s')) with
      | Some d => d
      | None => Nil
      end
  end.

Definition index_of_name (name : string) : nat := Nat.of_uint (leading_uint name).

(** ** Vocabulary of the statements *)

(** The entry [name] of the directory [d]. *)
Definition child (d : Path) (name : string) : Path :=
  MkPath (anchored d) (name :: rparts d).

(** What [next_index] is to compute: the entries of [d] whose name ends in
    [.png], where the platform decides whether letter case matters; 0 when
    [d] is not a directory. *)
Definition png_count (w : world) (d : Path) : nat :=
  if Fs.is_dir (fs w) d then
    length (filter (fun name =>
                      Str.ends_with ".png"
                        (if String.eqb (os_name w) "nt" then Str.lower name else name) = true)
                   (Fs.scandir (fs w) d))
  else 0.

(** The same count with letter case ignored on every platform. *)
Definition png_count_nocase (w : world) (d : Path) : nat :=
  if Fs.is_dir (fs w) d then
    length (filter (fun name => Str.ends_with ".png" (Str.lower name) = true)
                   (Fs.scandir (fs w) d))
  else 0.

Definition saved_line (path : Path) : string := "[saved plot] " +:+ PurePath.str path.

Definition warn_line (e : exn) : string := "[warn] could not save plot: " +:+ exn_str e.

(** The path under which a call of the closure saves the figure. *)
Definition plot_path (prefix : string) (vis_dir : Path) (kwargs : gmap string pyval)
    (w : world) : Path :=
  vis_dir // plot_name (png_count w vis_dir) prefix
                       (default (VStr "plot") (kwargs !! "name_hint")) (clock w).

(** The exception of a library call that the clause [except Exception]
    around it does not catch, when the call fails with [fault]. *)
Definition escapes (fault : option exn) : option exn :=
  match fault with
  | Some e => if is_Exception e then None else Some e
  | None => None
  end.

(** The world after the closure has tried to save the figure and has
    reported the outcome, before it calls [orig_show]; an exception that
    escapes leaves no report. *)
Definition after_save (prefix : string) (vis_dir : Path) (kwargs : gmap string pyval)
    (w : world) : world :=
  let path := plot_path prefix vis_dir kwargs w in
  match Plt.savefig (gcf w) path 200 "tight" w with
  | (Ok _, w') => set_stdout (stdout w' ++ [saved_line path]) w'
  | (Raise e, w') =>
      if is_Exception e then set_stdout (stdout w' ++ [warn_line e]) w' else w'
  end.

(** The line with which a closure reports a save attempt: where it called
    [savefig], and what [savefig] answered. *)
Definition report_line (attempt : Path * result unit) : string :=
  match attempt.2 with
  | Ok _ => saved_line attempt.1
  | Raise e => warn_line e
  end.

(** The save attempts of one call that runs through the stack of
    closures [f], the outermost first: the path each closure passes to
    [savefig] and the answer it gets there, and the world that the last of
    them leaves. *)
Fixpoint save_attempts (f : show_fn) (kwargs : gmap string pyval) (w : world)
  : list (Path * result unit) * world :=
  match f with
  | pyplot_show => ([], w)
  | show_and_save prefix vis_dir orig =>
      let path := plot_path prefix vis_dir kwargs w in
      let answer := (Plt.savefig (gcf w) path 200 "tight" w).1 in
      let '(rest, w') := save_attempts orig (delete "name_hint" kwargs)
                                       (after_save prefix vis_dir kwargs w) in
      ((path, answer) :: rest, w')
  end.

(** The closures stacked on the library's show, the outermost first: the
    prefix and the directory each has captured. *)
Fixpoint layers (f : show_fn) : list (string * Path) :=
  match f with
  | pyplot_show => []
  | show_and_save prefix vis_dir orig => (prefix, vis_dir) :: layers orig
  end.

(** The keyword arguments that reach the library's show through [f]. *)
Definition forwarded_kwargs (f : show_fn) (kwargs : gmap string pyval)
  : gmap string pyval :=
  match f with
  | pyplot_show => kwargs
  | show_and_save _ _ _ => delete "name_hint" kwargs
  end.

(** A notebook that has just started on a POSIX machine, in an empty
    working directory. *)
Definition fresh_world : world :=
  MkWorld "posix" ∅ ∅ "20240101-120000" (MkFigure "Figure 1" None) [] [] pyplot_show.

(** The directory of the checkpoint copy, holding one file whose extension
    is written in capitals. *)
Definition vis : Path := PurePath.parse "visualizations".

Definition capitals_world : world :=
  set_fs {[ vis := Dir; child vis "X.PNG" := File (PNG "Figure 1" 200 "tight") ]}
         fresh_world.

(** The world in which a call of [plt.show] runs: the notebook has made
    the figure and the clock has moved. *)
Definition at_call (c : call) (w : world) : world :=
  set_gcf (call_figure c) (set_clock (call_time c) w).

(** The name hint a call passes, or the default. *)
Definition name_hint_of (c : call) : pyval :=
  default (VStr "plot") (call_kwargs c !! "name_hint").

(** The file names the spec promises for the calls [cs], numbered from
    [start] in call order. *)
Fixpoint expected_names (prefix : string) (start : nat) (cs : list call) : list string :=
  match cs with
  | [] => []
  | c :: cs' =>
      plot_name start prefix (name_hint_of c) (call_time c)
      :: expected_names prefix (S start) cs'
  end.

(** How many closures are stacked on the library's show. *)
Fixpoint depth (f : show_fn) : nat :=
  match f with
  | pyplot_show => 0
  | show_and_save _ _ orig => S (depth orig)
  end.

(** A line that reports a save attempt, successful or not. *)
Definition is_saved_line (line : string) : bool := Str.starts_with "[saved plot] " line.

Definition is_report_line (line : string) : bool :=
  is_saved_line line || Str.starts_with "[warn] could not save plot: " line.

(** What holds of the output directory while only the closure writes to
    it: it is a directory of a well-formed tree, it has no subdirectory, and
    its entries are [k] plot names with indices below [k]. *)
Record plots_dir (vis_dir : Path) (k : nat) (names : list string) (w : world) : Prop := {
  pd_wf : Fs.wf (fs w);
  pd_dir : Fs.is_dir (fs w) vis_dir = true;
  pd_flat : ∀ name, fs w !! child vis_dir name ≠ Some Dir;
  pd_names : Fs.scandir (fs w) vis_dir ≡ₚ names;
  pd_count : length names = k;
  pd_index : Forall (λ n, index_of_name n < k ∧ ∃ u, n = u +:+ ".png") names
}.

(** The library's show of a notebook: it displays and returns [None]. *)
Definition show_returns_None : list pyval → gmap string pyval → result pyval :=
  fun _ _ => Ok VNone.

(** The scenario of the spec: autosave enabled with prefix [eda] in a fresh
    notebook, then three plots shown with the hints [a], [b] and [c]. *)
Definition eda_world : world :=
  (enable_autosave_plots (import_module fresh_world) "eda" VNone fresh_world).2.

Definition abc_calls : list call :=
  [ MkCall [] {[ "name_hint" := VStr "a" ]} "20240101-120001" (MkFigure "A" None);
    MkCall [] {[ "name_hint" := VStr "b" ]} "20240101-120002" (MkFigure "B" None);
    MkCall [] {[ "name_hint" := VStr "c" ]} "20240101-120003" (MkFigure "C" None) ].


Definition saved_table_line (path : Path) : string :=
  "[saved table] " +:+ PurePath.str path.

Definition warn_table_line (e : exn) : string :=
  "[warn] could not save table preview: " +:+ exn_str e.

(** The table of the spec's scenario: five rows, previewed with [n = 20]. *)
Definition sample_df : DataFrame :=
  MkDataFrame ["id"; "label"]
              [ ("0", ["11"; "real"]); ("1", ["12"; "fake"]); ("2", ["13"; "real"]);
                ("3", ["14"; "fake"]); ("4", ["15"; "real"]) ]
              None.

(** A working directory in which [out] is a regular file. *)
Definition blocked_world : world :=
  set_fs {[ PurePath.parse "out" := File (CSV []) ]} fresh_world.

(** A session in which the second figure cannot be rendered and the third
    hint contains a path separator. *)
Definition mixed_calls : list call :=
  [ MkCall [] {[ "name_hint" := VStr "a" ]} "20240101-120001" (MkFigure "A" None);
    MkCall [] {[ "name_hint" := VStr "b"; "block" := VBool true ]} "20240101-120002"
           (MkFigure "B" (Some (RuntimeError "renderer failed")));
    MkCall [] {[ "name_hint" := VStr "c/d" ]} "20240101-120003" (MkFigure "C" None);
    MkCall [VInt 3] ∅ "20240101-120004" (MkFigure "D" None) ].

(** ** The rest of the checkpoint copy *)

Module Makedirs.

(** [os.makedirs(name, exist_ok=exist_ok)] on the parsed path: when the
    parent is not there it is made first, a [FileExistsError] of that step
    being ignored; then [os.mkdir], whose error is forgiven when the
    directory is there and [exist_ok].  What was made stays made when a later
    step raises. *)
Fixpoint makedirs_from (exist_ok a : bool) (rp : list string) (f : FS)
  : result unit * FS :=
  let p := MkPath a rp in
  let head :=
    match rp with
    | [] => (Ok tt, f)
    | _ :: rp' =>
        if negb (Fs.exists_ f (MkPath a rp')) then
          match makedirs_from exist_ok a rp' f with
          | (Raise FileExistsError, f1) => (Ok tt, f1)
          | r => r
          end
        else (Ok tt, f)
    end in
  match head with
  | (Raise e, f1) => (Raise e, f1)
  | (Ok _, f1) =>
      match Fs.os_mkdir f1 p with
      | Ok f2 => (Ok tt, f2)
      | Raise e => if exist_ok && Fs.is_dir f1 p then (Ok tt, f1) else (Raise e, f1)
      end
  end.

(** The empty name is no path at all: [os.mkdir("")] finds nothing. *)
Definition makedirs (name : string) (exist_ok : bool) : M unit :=
  fun w =>
    if String.eqb name "" then (Raise FileNotFoundError, w)
    else
      let p := PurePath.parse name in
      let '(r, f') := makedirs_from exist_ok (anchored p) (rparts p) (fs w) in
      (r, set_fs f' w).

End Makedirs.

Module CheckpointCopy.

Definition _ensure_dir (d : string) : M unit := Makedirs.makedirs d true.

(** The body of the closure [show_and_save] of the checkpoint copy (lines
    48-69); [orig_show] is the function it captured. *)
Definition show_and_save (prefix : string)
    (orig_show : list pyval → gmap string pyval → M pyval)
    (args : list pyval) (kwargs : gmap string pyval) : M pyval :=
  fig <- Plt.gcf_ ;;
  ts <- Time.strftime ;;
  idx <- Checkpoint.next_index ;;
  let '(name_hint, kwargs) := kwargs_pop kwargs "name_hint" (VStr "plot") in
  let path := "visualizations/" +:+ plot_name idx prefix name_hint ts in
  try_except (Plt.savefig fig (PurePath.parse path) 200 "tight" ;;;
              print ("[saved plot] " +:+ path))
             (fun e => print ("[warn] could not save plot: " +:+ exn_str e)) ;;;
  orig_show args kwargs.

Definition save_dataframe_preview (df : DataFrame) (name : string) (n : Z) : M string :=
  _ensure_dir "artifacts" ;;;
  let out_csv := "artifacts/" +:+ name +:+ "_preview.csv" in
  try_except (Pandas.to_csv (Pandas.head n df) (PurePath.parse out_csv) false ;;;
              print ("[saved table] " +:+ out_csv))
             (fun e => print ("[warn] could not save table preview: " +:+ exn_str e)) ;;;
  ret out_csv.

End CheckpointCopy.

(** A working directory in which [visualizations] is a regular file. *)
Definition vis_file_world : world :=
  set_fs {[ vis := File (CSV []) ]} fresh_world.

(** Whether the formatted indices below [bound] have one width and are in
    the order of strings, checked by running through them. *)
Definition fmt_02d_ordered_below (bound : nat) : bool :=
  forallb (λ j, forallb (λ i, (String.length (fmt_02d i) =? String.length (fmt_02d j))%nat
                              && match String.compare (fmt_02d i) (fmt_02d j) with
                                 | Lt => true
                                 | _ => false
                                 end)
                        (seq 0 j))
          (seq 0 bound).


(** Whether the save of a call lets the call go on to the captured
    function. *)
Definition reaches_show (c : call) : bool :=
  match escapes (savefig_fault (call_figure c)) with
  | None => true
  | Some _ => false
  end.

(** A figure whose rendering is interrupted from the keyboard, and a table
    whose serialisation is. *)
Definition interrupted_figure : Figure := MkFigure "Figure 1" (Some KeyboardInterrupt).

Definition interrupted_df : DataFrame :=
  MkDataFrame ["id"; "label"] [ ("0", ["11"; "real"]) ] (Some KeyboardInterrupt).


(** A second, smaller table. *)
Definition second_df : DataFrame :=
  MkDataFrame ["id"; "label"] [ ("0", ["21"; "fake"]) ] None.

(** Autosave enabled, and the output directory removed afterwards. *)
Definition removed_world : world := set_fs ∅ eda_world.

Local Close Scope string_scope.

(** ** Examples *)

Example parse_ex1 :
  PurePath.parse "results/visualizations" = MkPath false ["visualizations"; "results"].
Proof. reflexivity. Qed.

Example parse_ex2 : PurePath.parse "/tmp//out/./x/" = MkPath true ["x"; "out"; "tmp"].
Proof. reflexivity. Qed.

Example str_ex1 : PurePath.str (PurePath.parse "a/b" // "00_fig_plot_t.png") = "a/b/00_fig_plot_t.png".
Proof. reflexivity. Qed.

Example fmt_ex : map fmt_02d [0; 7; 10; 99; 100]%nat = ["00"; "07"; "10"; "99"; "100"].
Proof. reflexivity. Qed.

Example dec_Z_ex : map dec_Z [0; 12; -3]%Z = ["0"; "12"; "-3"].
Proof. reflexivity. Qed.

Example ends_ex : map (Str.ends_with ".png") ["a.png"; "x.PNG"; ".png"; "png"; "a.png.txt"]
                  = [true; false; true; false; false].
Proof. reflexivity. Qed.

Example lower_ex : Str.lower "X.PnG_[Z]@" = "x.png_[z]@".
Proof. reflexivity. Qed.

Example fnmatch_ex :
  map (fnmatch_from "*.png") ["a.png"; ".png"; "a.PNG"; "a.png.bak"; "png"; "a.pngx.png"]
  = [true; true; false; false; false; true].
Proof. reflexivity. Qed.

Example enable_ex :
  stdout eda_world = ["[autosave] matplotlib.pyplot.show patched -> results/visualizations"]
  ∧ plt_show eda_world
    = show_and_save "eda" (MkPath false ["visualizations"; "results"]) pyplot_show.
Proof. vm_compute. split; reflexivity. Qed.

Example mixed_session_ex :
  let w := session show_returns_None mixed_calls eda_world in
  stdout w
  = [ "[autosave] matplotlib.pyplot.show patched -> results/visualizations";
      "[saved plot] results/visualizations/00_eda_a_20240101-120001.png";
      "[warn] could not save plot: renderer failed";
      "[warn] could not save plot: No such file or directory";
      "[saved plot] results/visualizations/01_eda_plot_20240101-120004.png" ]
  ∧ map (λ '(args, kwargs), (args, map_to_list kwargs)) (displayed w)
    = [ ([], []); ([], [("block", VBool true)]); ([], []); ([VInt 3], []) ].
Proof. vm_compute. split; reflexivity. Qed.

Example enable_blocked_ex :
  (enable_autosave_plots (import_module blocked_world) "fig" (VStr "out/plots")
                         blocked_world).1 = Raise NotADirectoryError
  ∧ plt_show (enable_autosave_plots (import_module blocked_world) "fig" (VStr "out/plots")
                                    blocked_world).2 = pyplot_show.
Proof. vm_compute. split; reflexivity. Qed.

Example preview_ex :
  let r := save_dataframe_preview (import_module fresh_world) sample_df "sample" 2 VNone
                                  fresh_world in
  r.1 = Ok "results/artifacts/sample_preview.csv"
  ∧ fs r.2 !! MkPath false ["sample_preview.csv"; "artifacts"; "results"]
    = Some (File (CSV [ ["id"; "label"]; ["11"; "real"]; ["12"; "fake"] ]))
  ∧ stdout r.2 = ["[saved table] results/artifacts/sample_preview.csv"].
Proof. vm_compute. split_and!; reflexivity. Qed.

Example head_ex :
  map (λ n, length (records (Pandas.head n sample_df))) [0; 2; 5; 20; -1; -7]%Z
  = [0; 2; 5; 5; 4; 0].
Proof. reflexivity. Qed.

(** ** Facts about strings *)

Local Arguments Ascii.eqb : simpl never.

Lemma app_String (c : ascii) (s t : string) : String c s +:+ t = String c (s +:+ t).
Proof. reflexivity. Qed.

Lemma app_Empty (t : string) : "" +:+ t = t.
Proof. reflexivity. Qed.

Lemma app_assoc_str (s t u : string) : (s +:+ t) +:+ u = s +:+ (t +:+ u).
Proof. induction s as [|c s IH]; [done|]. by rewrite !app_String, IH. Qed.

Lemma ends_with_refl (s : string) : Str.ends_with s s = true.
Proof. destruct s; simpl; [done|]. by rewrite Ascii.eqb_refl, String.eqb_refl. Qed.

Lemma ends_with_app (suffix x : string) : Str.ends_with suffix (x +:+ suffix) = true.
Proof.
  induction x as [|c x IH].
  - apply ends_with_refl.
  - rewrite app_String. simpl. rewrite IH. apply orb_true_r.
Qed.

Lemma lower_app (s t : string) : Str.lower (s +:+ t) = Str.lower s +:+ Str.lower t.
Proof. induction s as [|c s IH]; [done|]. rewrite !app_String. simpl. by rewrite IH, app_String. Qed.

(** The pattern [*.png] matches exactly the names that end in [.png]. *)
Lemma fnmatch_png (s : string) : fnmatch_from "*.png" s = Str.ends_with ".png" s.
Proof.
  assert (Hlit : ∀ t, fnmatch_from ".png" t = String.eqb ".png" t).
  { intros t. destruct t as [|a [|b [|c [|d [|e t]]]]]; simpl; try done;
      repeat (destruct (Ascii.eqb _ _); simpl; try done). }
  induction s as [|c s IH].
  - reflexivity.
  - change (fnmatch_from "*.png" (String c s))
      with (fnmatch_from ".png" (String c s) || fnmatch_from "*.png" s).
    rewrite IH, Hlit. reflexivity.
Qed.

Lemma fnmatch_png_case (cs : bool) (s : string) :
  fnmatch cs "*.png" s = Str.ends_with ".png" (if cs then s else Str.lower s).
Proof. destruct cs; unfold fnmatch; [apply fnmatch_png|]. apply (fnmatch_png (Str.lower s)). Qed.

(** *** Splitting at a separator *)

Lemma split_on_nonempty (c : ascii) (s : string) : Str.split_on c s ≠ [].
Proof.
  destruct s as [|c' s]; simpl; [done|].
  destruct (Ascii.eqb c c'); [done|]. by destruct (Str.split_on c s).
Qed.

Lemma split_on_single (c : ascii) (s w : string) : Str.split_on c s = [w] → w = s.
Proof.
  revert w. induction s as [|c' s IH]; intros w; simpl.
  - by intros [= <-].
  - destruct (Ascii.eqb c c').
    + intros [= <- Hs]. by apply split_on_nonempty in Hs.
    + destruct (Str.split_on c s) as [|w' ws] eqn:E; [by intros [= <-]; apply split_on_nonempty in E|].
      intros [= <- ->]. by rewrite (IH w').
Qed.

Lemma split_on_no_sep (c : ascii) (s : string) :
  Str.contains c s = false → Str.split_on c s = [s].
Proof.
  induction s as [|c' s IH]; simpl; [done|].
  intros [Hc Hs]%orb_false_iff. rewrite Hc, (IH Hs). done.
Qed.

(** The last piece of a string that ends in a separator-free [y] ends in [y]. *)
Lemma split_on_last (c : ascii) (x y : string) :
  Str.contains c y = false →
  ∃ u, last (Str.split_on c (x +:+ y)) = Some (u +:+ y).
Proof.
  intros Hy. induction x as [|c' x [u IH]].
  - exists "". by rewrite app_Empty, (split_on_no_sep _ _ Hy).
  - rewrite app_String. simpl. destruct (Ascii.eqb c c').
    + exists u. destruct (Str.split_on c (x +:+ y)) eqn:E; [by apply split_on_nonempty in E|].
      by rewrite last_cons, IH.
    + destruct (Str.split_on c (x +:+ y)) as [|w ws] eqn:E; [by apply split_on_nonempty in E|].
      destruct ws as [|w' ws].
      * simpl in IH. injection IH as ->. by exists (String c' u).
      * exists u. by rewrite last_cons_cons in IH |- *.
Qed.

Lemma split_on_first (c c' : ascii) (s : string) :
  Ascii.eqb c c' = false →
  ∃ w ws, Str.split_on c (String c' s) = String c' w :: ws.
Proof.
  intros Hc. simpl. rewrite Hc.
  destruct (Str.split_on c s) as [|w ws] eqn:E; [by apply split_on_nonempty in E|]. eauto.
Qed.

(** ** Facts about plot names *)

Lemma is_digit_not_slash (c : ascii) : is_digit c = true → Ascii.eqb "/" c = false.
Proof. destruct (Ascii.eqb_spec "/" c) as [<-|]; [discriminate|done]. Qed.

Lemma is_digit_not_dot (c : ascii) : is_digit c = true → Ascii.eqb c "." = false.
Proof. destruct (Ascii.eqb_spec c ".") as [->|]; [discriminate|done]. Qed.

Lemma string_of_uint_first (d : uint) :
  d ≠ Nil → ∃ c s, NilEmpty.string_of_uint d = String c s ∧ is_digit c = true.
Proof. destruct d; [done|..]; intros _; simpl; eauto. Qed.

Lemma to_uint_not_Nil (n : nat) : Nat.to_uint n ≠ Nil.
Proof.
  intros E. pose proof (Unsigned.of_to n) as H. rewrite E in H.
  subst n. discriminate E.
Qed.

Lemma fmt_02d_first (n : nat) : ∃ c s, fmt_02d n = String c s ∧ is_digit c = true.
Proof.
  unfold fmt_02d, dec.
  destruct (string_of_uint_first (Nat.to_uint n) (to_uint_not_Nil n)) as (c & s & -> & Hc).
  destruct (String.length (String c s) <? 2)%nat; [|by eauto].
  exists "0"%char, (String c s). done.
Qed.

Lemma leading_uint_dec (d : uint) (r : string) :
  leading_uint (NilEmpty.string_of_uint d +:+ String "_" r) = d.
Proof. induction d; simpl; rewrite ?app_String; simpl; rewrite ?IHd; done. Qed.

(** The index can be read back from the name: names made for different
    indices differ. *)
Lemma index_of_fmt_02d (n : nat) (r : string) :
  index_of_name (fmt_02d n +:+ String "_" r) = n.
Proof.
  unfold index_of_name, fmt_02d, dec.
  destruct (String.length _ <? 2)%nat.
  - rewrite app_String, app_Empty. simpl. rewrite leading_uint_dec.
    change (Nat.of_uint (D0 (Nat.to_uint n))) with (Nat.of_uint (Nat.to_uint n)).
    apply Unsigned.of_to.
  - rewrite leading_uint_dec. apply Unsigned.of_to.
Qed.

Lemma index_of_plot_name (i : nat) (prefix : string) (hint : pyval) (ts : string) :
  index_of_name (plot_name i prefix hint ts) = i.
Proof. unfold plot_name. apply (index_of_fmt_02d i). Qed.

Lemma plot_name_png (i : nat) (prefix : string) (hint : pyval) (ts : string) :
  ∃ u, plot_name i prefix hint ts = u +:+ ".png".
Proof.
  exists (fmt_02d i +:+ "_" +:+ prefix +:+ "_" +:+ py_str hint +:+ "_" +:+ ts).
  unfold plot_name. by rewrite !app_assoc_str.
Qed.

Lemma plot_name_first (i : nat) (prefix : string) (hint : pyval) (ts : string) :
  ∃ c s, plot_name i prefix hint ts = String c s ∧ is_digit c = true.
Proof.
  unfold plot_name. destruct (fmt_02d_first i) as (c & s & -> & Hc).
  rewrite app_String. eauto.
Qed.

Lemma keep_png (u : string) : PurePath.keep (u +:+ ".png") = true.
Proof.
  unfold PurePath.keep. destruct u as [|a u]; [done|].
  rewrite app_String. simpl. destruct (Ascii.eqb a "."); [|done].
  by destruct u.
Qed.

(** A string that starts with a digit and ends in [.png] is a relative
    path; its outermost component is kept, and if that is the only one, the
    string has no separator and is that component. *)
Lemma parse_digit_png (s u s0 : string) (c : ascii) :
  s = String c s0 → is_digit c = true → s = u +:+ ".png" →
  ∃ c1 l, PurePath.parse s = MkPath false (l ++ [c1]) ∧ (l = [] → c1 = s).
Proof.
  intros Hs Hc Hu. unfold PurePath.parse.
  assert (Str.starts_with "/" s = false) as ->.
  { rewrite Hs. simpl. by rewrite (is_digit_not_slash c Hc). }
  destruct (split_on_first "/" c s0 (is_digit_not_slash c Hc)) as (w & ws & Hsplit).
  rewrite <- Hs in Hsplit.
  assert (Hk : PurePath.keep (String c w) = true).
  { unfold PurePath.keep. simpl. rewrite (is_digit_not_dot c Hc). done. }
  rewrite Hsplit, filter_cons_True by done. simpl.
  exists (String c w), (rev (filter (λ c0, PurePath.keep c0 = true) ws)).
  split; [done|]. intros Hl.
  assert (Hnil : filter (λ c0, PurePath.keep c0 = true) ws = []).
  { apply (f_equal (@rev string)) in Hl. by rewrite rev_involutive in Hl. }
  destruct ws as [|w' ws].
  - by apply split_on_single in Hsplit.
  - exfalso. destruct (split_on_last "/" u ".png" eq_refl) as [u' Hlast].
    rewrite <- Hu, Hsplit, last_cons_cons in Hlast.
    apply last_Some_elem_of in Hlast.
    eapply filter_nil_not_elem_of; [exact Hnil| |exact Hlast]. apply keep_png.
Qed.

Lemma parse_plot_name (i : nat) (prefix : string) (hint : pyval) (ts : string) :
  ∃ c1 l, PurePath.parse (plot_name i prefix hint ts) = MkPath false (l ++ [c1])
          ∧ (l = [] → c1 = plot_name i prefix hint ts).
Proof.
  destruct (plot_name_first i prefix hint ts) as (c & s0 & Hs & Hc).
  destruct (plot_name_png i prefix hint ts) as [u Hu].
  by eapply parse_digit_png.
Qed.

(** ** Facts about the file system *)

Local Arguments Fs.os_mkdir : simpl never.
Local Arguments Fs.write_file : simpl never.
Local Arguments Fs.is_dir : simpl never.
Local Arguments Fs.exists_ : simpl never.
Local Arguments Pathlib.mkdir_once : simpl never.

Lemma is_dir_exists (f : FS) (p : Path) : Fs.is_dir f p = true → Fs.exists_ f p = true.
Proof.
  unfold Fs.is_dir, Fs.exists_. destruct (Fs.is_root p); [done|]. simpl.
  by destruct (f !! p) as [[]|].
Qed.

Lemma is_dir_lookup (f : FS) (p : Path) :
  Fs.is_root p = false → Fs.is_dir f p = true ↔ f !! p = Some Dir.
Proof.
  unfold Fs.is_dir. intros ->. simpl. destruct (f !! p) as [[]|]; naive_solver.
Qed.

Lemma entry_in_child (d : Path) (name : string) (x : node) :
  Fs.entry_in d (child d name, x) = Some name.
Proof. unfold Fs.entry_in, child. simpl. by rewrite decide_True. Qed.

Lemma entry_in_Some (d : Path) (e : Path * node) (name : string) :
  Fs.entry_in d e = Some name ↔ e.1 = child d name.
Proof.
  destruct e as [[a rp] x]. unfold Fs.entry_in, child. simpl.
  destruct rp as [|c rest]; [naive_solver|].
  destruct d as [a' rp']. simpl. case_decide as Hd.
  - destruct Hd as [-> ->]. split; congruence.
  - split; [done|]. intros [= -> -> ->]. by destruct Hd.
Qed.

Lemma elem_of_scandir (f : FS) (d : Path) (name : string) :
  name ∈ Fs.scandir f d ↔ is_Some (f !! child d name).
Proof.
  unfold Fs.scandir. rewrite list_elem_of_omap. split.
  - intros ([p x] & Hin & He). apply entry_in_Some in He. simpl in He. subst p.
    apply elem_of_map_to_list in Hin. eauto.
  - intros [x Hx]. exists (child d name, x). split.
    + by apply elem_of_map_to_list.
    + apply entry_in_child.
Qed.

Lemma scandir_insert_fresh (f : FS) (d : Path) (name : string) (x : node) :
  f !! child d name = None →
  Fs.scandir (<[child d name := x]> f) d ≡ₚ name :: Fs.scandir f d.
Proof.
  intros Hfresh. unfold Fs.scandir.
  rewrite (map_to_list_insert f _ x Hfresh). simpl. by rewrite entry_in_child.
Qed.

(** *** Well-formed trees *)

Lemma wf_empty : Fs.wf ∅.
Proof. intros p [x Hx]. by rewrite lookup_empty in Hx. Qed.

Lemma parent_ne (p : Path) : Fs.is_root p = false → PurePath.parent p ≠ p.
Proof.
  destruct p as [a [|c rp]]; [done|]. intros _ [= E].
  apply (f_equal length) in E. simpl in E. lia.
Qed.

Lemma is_dir_insert_ne (f : FS) (p q : Path) (x : node) :
  p ≠ q → Fs.is_dir (<[p := x]> f) q = Fs.is_dir f q.
Proof. intros Hne. unfold Fs.is_dir. by rewrite lookup_insert_ne. Qed.

Lemma is_dir_insert_Dir (f : FS) (p : Path) : Fs.is_dir (<[p := Dir]> f) p = true.
Proof. unfold Fs.is_dir. rewrite lookup_insert_eq. apply orb_true_r. Qed.

(** Adding an entry to a directory keeps the tree well-formed, provided a
    directory is not replaced by a file. *)
Lemma wf_insert (f : FS) (p : Path) (x : node) :
  Fs.wf f → Fs.is_root p = false → Fs.is_dir f (PurePath.parent p) = true →
  Fs.is_dir f p = false ∨ x = Dir →
  Fs.wf (<[p := x]> f).
Proof.
  intros Hwf Hroot Hpar Hx q [y Hq].
  destruct (decide (p = q)) as [<-|Hne].
  - split; [done|]. rewrite is_dir_insert_ne; [done|]. intros E. by apply (parent_ne p).
  - rewrite lookup_insert_ne in Hq by done.
    destruct (Hwf q (mk_is_Some _ _ Hq)) as [Hrq Hdq]. split; [done|].
    destruct (decide (p = PurePath.parent q)) as [E|Hne'].
    + rewrite <- E in *. destruct Hx as [Hx| ->]; [congruence|]. apply is_dir_insert_Dir.
    + by rewrite is_dir_insert_ne.
Qed.

(** In a well-formed tree the ancestors of a directory are directories. *)
Lemma wf_ancestor (f : FS) (a : bool) (l r : list string) :
  Fs.wf f → Fs.is_dir f (MkPath a (l ++ r)) = true → Fs.is_dir f (MkPath a r) = true.
Proof.
  intros Hwf. induction l as [|c l IH]; [done|]. intros Hd.
  apply IH. apply is_dir_lookup in Hd; [|done].
  by destruct (Hwf _ (mk_is_Some _ _ Hd)) as [_ Hp].
Qed.

(** *** Paths that lead through a regular file *)

Lemma under_file_app (f : FS) (a : bool) (l r : list string) :
  Fs.exists_ f (MkPath a r) = true → Fs.is_dir f (MkPath a r) = false →
  Fs.under_file f a (l ++ r) = true.
Proof.
  intros Hex Hd. induction l as [|c l IH]; simpl.
  - destruct r as [|c r]; [done|]. simpl. by rewrite Hex, Hd.
  - rewrite IH. apply orb_true_r.
Qed.

Lemma under_file_free (f : FS) (a : bool) (rp : list string) :
  (∀ l r, rp = l ++ r → Fs.exists_ f (MkPath a r) = true → Fs.is_dir f (MkPath a r) = true) →
  Fs.under_file f a rp = false.
Proof.
  induction rp as [|c rp IH]; intros Hfree; [done|]. simpl.
  rewrite IH by (intros l r -> Hr; by apply (Hfree (c :: l) r)).
  destruct (Fs.exists_ f (MkPath a (c :: rp))) eqn:Hex; [|done].
  by rewrite (Hfree [] (c :: rp) eq_refl Hex).
Qed.

Lemma no_dir_error_cases (f : FS) (d : Path) :
  Fs.no_dir_error f d = NotADirectoryError ∨ Fs.no_dir_error f d = FileNotFoundError.
Proof. unfold Fs.no_dir_error. destruct (Fs.under_file _ _ _); auto. Qed.

Lemma no_dir_error_file (f : FS) (d : Path) :
  Fs.exists_ f d = true → Fs.is_dir f d = false → Fs.no_dir_error f d = NotADirectoryError.
Proof.
  intros Hex Hd. unfold Fs.no_dir_error.
  destruct d as [a rp]. simpl. apply (under_file_app f a [] rp Hex) in Hd.
  simpl in Hd. by rewrite Hd.
Qed.

(** The errors of the file system are instances of [Exception]. *)
Lemma write_file_Exception (f : FS) (p : Path) (c : content) (e : exn) :
  Fs.write_file f p c = Raise e → is_Exception e = true.
Proof.
  unfold Fs.write_file, Fs.check_parent. destruct (Fs.is_dir f p); [by intros [= <-]|].
  destruct (Fs.is_dir f (PurePath.parent p)); [done|]. intros [= <-].
  by destruct (no_dir_error_cases f (PurePath.parent p)) as [-> | ->].
Qed.

Lemma wf_os_mkdir (f f' : FS) (p : Path) :
  Fs.wf f → Fs.os_mkdir f p = Ok f' →
  f' = <[p := Dir]> f ∧ f !! p = None ∧ Fs.wf f' ∧ Fs.is_dir f' p = true.
Proof.
  intros Hwf. unfold Fs.os_mkdir, Fs.check_parent.
  destruct (Fs.exists_ f p) eqn:Hex; [done|].
  destruct (Fs.is_dir f (PurePath.parent p)) eqn:Hpar; [|done].
  intros [= <-]. unfold Fs.exists_ in Hex. apply orb_false_iff in Hex as [Hroot Hlk].
  split_and!; [done| |apply wf_insert; auto|apply is_dir_insert_Dir].
  by destruct (f !! p).
Qed.

Lemma wf_write_file (f f' : FS) (p : Path) (c : content) :
  Fs.wf f → Fs.write_file f p c = Ok f' →
  f' = <[p := File c]> f ∧ Fs.is_dir f (PurePath.parent p) = true ∧
  Fs.is_dir f p = false ∧ Fs.wf f'.
Proof.
  intros Hwf. unfold Fs.write_file, Fs.check_parent.
  destruct (Fs.is_dir f p) eqn:Hd; [done|].
  destruct (Fs.is_dir f (PurePath.parent p)) eqn:Hpar; [|done].
  intros [= <-]. split_and!; try done. apply wf_insert; auto.
  unfold Fs.is_dir in Hd. by apply orb_false_iff in Hd as [? _].
Qed.
(** ** Making directories *)

Lemma set_fs_id (w : world) : set_fs (fs w) w = w.
Proof. by destruct w. Qed.

Lemma mkdir_once_spec (eo : bool) (p : Path) (f f' : FS) :
  Fs.wf f → Pathlib.mkdir_once eo p f = (Ok tt, f') →
  Fs.wf f' ∧ Fs.is_dir f' p = true ∧ f ⊆ f' ∧ (∀ q, q ≠ p → f' !! q = f !! q).
Proof.
  intros Hwf. unfold Pathlib.mkdir_once.
  destruct (Fs.os_mkdir f p) as [f1|e] eqn:E.
  - intros [= <-]. destruct (wf_os_mkdir _ _ _ Hwf E) as (-> & Hnone & Hwf' & Hd).
    split_and!; try done.
    + by apply insert_subseteq.
    + intros q Hq. by rewrite lookup_insert_ne.
  - destruct (eo && Fs.is_dir f p) eqn:Hd; [|by destruct e].
    apply andb_true_iff in Hd as [_ Hd]. by destruct e; intros [= <-].
Qed.

Lemma mkdir_once_Raise (eo : bool) (p : Path) (f f' : FS) (e : exn) :
  Pathlib.mkdir_once eo p f = (Raise e, f') → f' = f.
Proof.
  unfold Pathlib.mkdir_once. destruct (Fs.os_mkdir f p) as [f1|e1]; [done|].
  destruct e1; destruct (eo && Fs.is_dir f p); by intros [= <-].
Qed.

Lemma mkdir_parents_spec (eo a : bool) (rp : list string) (f f' : FS) :
  Fs.wf f → Pathlib.mkdir_parents eo a rp f = (Ok tt, f') →
  Fs.wf f' ∧ Fs.is_dir f' (MkPath a rp) = true ∧ f ⊆ f' ∧
  (∀ q, length rp < length (rparts q) → f' !! q = f !! q).
Proof.
  revert eo f f'. induction rp as [|c rp IH]; intros eo f f' Hwf; simpl.
  - destruct (Fs.os_mkdir f (MkPath a [])) as [f1|e] eqn:E.
    + unfold Fs.os_mkdir in E. done.
    + destruct e; try done; destruct eo; simpl; try done; by intros [= <-].
  - destruct (Fs.os_mkdir f (MkPath a (c :: rp))) as [f1|e] eqn:E.
    + intros [= <-]. destruct (wf_os_mkdir _ _ _ Hwf E) as (-> & Hnone & Hwf' & Hd).
      split_and!; try done; [by apply insert_subseteq|].
      intros q Hq. rewrite lookup_insert_ne; [done|]. intros <-. simpl in Hq. lia.
    + assert (Hother :
        (if eo && Fs.is_dir f (MkPath a (c :: rp)) then (Ok tt, f) else (Raise e, f))
        = (Ok tt, f') →
        Fs.wf f' ∧ Fs.is_dir f' (MkPath a (c :: rp)) = true ∧ f ⊆ f' ∧
        (∀ q, S (length rp) < length (rparts q) → f' !! q = f !! q)).
      { destruct (eo && Fs.is_dir f _) eqn:Hd; [|done]. intros [= <-].
        by apply andb_true_iff in Hd as [_ Hd]. }
      destruct e; try exact Hother. clear Hother.
      destruct (Pathlib.mkdir_parents true a rp f) as [[[]|e1] f1] eqn:E1; [|done].
      destruct (IH true f f1 Hwf E1) as (Hwf1 & Hd1 & Hsub1 & Hsame1).
      intros Honce. destruct (mkdir_once_spec _ _ _ _ Hwf1 Honce) as (Hwf' & Hd' & Hsub' & Hsame').
      split_and!; try done; [by etrans|].
      intros q Hq. rewrite Hsame'; [apply Hsame1; lia|]. intros ->. simpl in Hq. lia.
Qed.

(** Once the parent is there, the last step goes through. *)
Lemma mkdir_once_after_parent (eo a : bool) (c : string) (rp : list string) (f f1 : FS) :
  Fs.exists_ f (MkPath a (c :: rp)) = false →
  Fs.is_dir f1 (MkPath a rp) = true →
  (∀ q, length rp < length (rparts q) → f1 !! q = f !! q) →
  Pathlib.mkdir_once eo (MkPath a (c :: rp)) f1
  = (Ok tt, <[MkPath a (c :: rp) := Dir]> f1).
Proof.
  intros Hex Hd Hsame. unfold Pathlib.mkdir_once, Fs.os_mkdir, Fs.check_parent.
  change (PurePath.parent (MkPath a (c :: rp))) with (MkPath a rp).
  assert (Fs.exists_ f1 (MkPath a (c :: rp)) = false) as ->.
  { unfold Fs.exists_ in *. rewrite Hsame; [done|simpl; lia]. }
  by rewrite Hd.
Qed.

(** In a well-formed tree nothing is made before a step that raises: the
    only step that can fail is the first. *)
Lemma mkdir_parents_Raise (eo a : bool) (rp : list string) (f f' : FS) (e : exn) :
  Fs.wf f → Pathlib.mkdir_parents eo a rp f = (Raise e, f') → f' = f.
Proof.
  revert eo f' e. induction rp as [|c rp IH]; intros eo f' e Hwf; simpl.
  - destruct (Fs.os_mkdir f (MkPath a [])) as [f1|e1] eqn:E.
    + unfold Fs.os_mkdir in E. done.
    + destruct e1; destruct (eo && Fs.is_dir f _); by intros [= <-].
  - destruct (Fs.os_mkdir f (MkPath a (c :: rp))) as [f1|e1] eqn:E; [done|].
    assert (Hother :
      (if eo && Fs.is_dir f (MkPath a (c :: rp)) then (Ok tt, f) else (Raise e1, f))
      = (Raise e, f') → f' = f).
    { destruct (eo && Fs.is_dir f _); by intros [= <-]. }
    destruct e1; try exact Hother. clear Hother.
    destruct (Pathlib.mkdir_parents true a rp f) as [[[]|e1] f1] eqn:E1.
    + destruct (mkdir_parents_spec _ _ _ _ _ Hwf E1) as (Hwf1 & Hd1 & Hsub1 & Hsame1).
      rewrite (mkdir_once_after_parent eo a c rp f f1); [done| |done..].
      unfold Fs.os_mkdir in E. by destruct (Fs.exists_ f (MkPath a (c :: rp))).
    + intros [= <- <-]. by apply (IH true f1 e1).
Qed.

Lemma mkdir_parents_is_dir (a : bool) (rp : list string) (f : FS) :
  Fs.is_dir f (MkPath a rp) = true → Pathlib.mkdir_parents true a rp f = (Ok tt, f).
Proof.
  intros Hd.
  assert (E : Fs.os_mkdir f (MkPath a rp) = Raise FileExistsError).
  { unfold Fs.os_mkdir. by rewrite (is_dir_exists _ _ Hd). }
  destruct rp; simpl; by rewrite ?E, ?Hd.
Qed.

(** The directories are made unless the path, or one of its ancestors, is
    there and is not a directory. *)
Lemma mkdir_parents_returns (a : bool) (rp : list string) (f : FS) :
  Fs.wf f →
  (∀ l r, rp = l ++ r → Fs.exists_ f (MkPath a r) = true → Fs.is_dir f (MkPath a r) = true) →
  ∃ f', Pathlib.mkdir_parents true a rp f = (Ok tt, f').
Proof.
  revert f. induction rp as [|c rp IH]; intros f Hwf Hfree.
  - exists f. by apply mkdir_parents_is_dir.
  - destruct (Fs.exists_ f (MkPath a (c :: rp))) eqn:Hex.
    { exists f. apply mkdir_parents_is_dir. by apply (Hfree []). }
    simpl. unfold Fs.os_mkdir at 1. rewrite Hex. unfold Fs.check_parent.
    change (PurePath.parent (MkPath a (c :: rp))) with (MkPath a rp).
    destruct (Fs.is_dir f (MkPath a rp)) eqn:Hpar; [by eauto|].
    unfold Fs.no_dir_error. simpl.
    rewrite under_file_free by (intros l r -> Hr; by apply (Hfree (c :: l) r)).
    destruct (IH f Hwf) as [f1 E1].
    { intros l r -> Hr. by apply (Hfree (c :: l) r). }
    rewrite E1. destruct (mkdir_parents_spec _ _ _ _ _ Hwf E1) as (Hwf1 & Hd1 & Hsub1 & Hsame1).
    rewrite (mkdir_once_after_parent true a c rp f f1) by done. eauto.
Qed.

Lemma ensure_dir_unfold (v : pyval) (p : Path) (w : world) :
  Pathlib.Path_ v w = (Ok p, w) →
  _ensure_dir v w =
    match Pathlib.mkdir_parents true (anchored p) (rparts p) (fs w) with
    | (Ok _, f') => (Ok p, set_fs f' w)
    | (Raise e, f') => (Raise e, set_fs f' w)
    end.
Proof.
  intros Hp. unfold _ensure_dir, bind. rewrite Hp.
  unfold Pathlib.mkdir. by destruct (Pathlib.mkdir_parents _ _ _ _) as [[[]|e] f'].
Qed.

Lemma Path_pure (v : pyval) (w w' : world) (r : result Path) :
  Pathlib.Path_ v w = (r, w') → w' = w ∧ ∀ w0, Pathlib.Path_ v w0 = (r, w0).
Proof. destruct v; unfold Pathlib.Path_, ret, raise; intros [= <- <-]; done. Qed.

(** C6. [_ensure_dir], for a path of any depth: when it returns, the path
    is a directory and so are all its ancestors, and what was there before
    is still there; it returns, changing nothing, when the directory is
    already there, so a second call changes and raises nothing; and for a
    path of plain names (none of them [..], none longer than the system
    allows) it does return whenever neither the path nor an ancestor is there
    as something other than a directory. *)
Theorem C6_ensure_dir (v : pyval) (p : Path) (w : world) :
  Fs.wf (fs w) →
  Pathlib.Path_ v w = (Ok p, w) →
  (∀ q w', _ensure_dir v w = (Ok q, w') →
     q = p ∧ Fs.is_dir (fs w') p = true ∧
     (∀ l r, rparts p = l ++ r → Fs.is_dir (fs w') (MkPath (anchored p) r) = true) ∧
     fs w ⊆ fs w' ∧ Fs.wf (fs w') ∧
     _ensure_dir v w' = (Ok q, w'))
  ∧ (Fs.is_dir (fs w) p = true → _ensure_dir v w = (Ok p, w))
  ∧ (Fs.plain_path p = true →
     (∀ l r, rparts p = l ++ r →
        Fs.exists_ (fs w) (MkPath (anchored p) r) = true →
        Fs.is_dir (fs w) (MkPath (anchored p) r) = true) →
     ∃ w', _ensure_dir v w = (Ok p, w')).
Proof.
  intros Hwf Hp. destruct (Path_pure _ _ _ _ Hp) as [_ Hpure].
  rewrite (ensure_dir_unfold v p w Hp). split_and!.
  - intros q w'.
    destruct (Pathlib.mkdir_parents true _ _ (fs w)) as [[[]|e] f'] eqn:E; [|done].
    intros [= <- <-].
    destruct (mkdir_parents_spec _ _ _ _ _ Hwf E) as (Hwf' & Hd & Hsub & _).
    assert (Hp' : MkPath (anchored p) (rparts p) = p) by by destruct p.
    rewrite Hp' in Hd. split_and!; try done.
    + intros l r Hlr. apply (wf_ancestor _ _ l r Hwf'). by rewrite <- Hlr, Hp'.
    + rewrite (ensure_dir_unfold v p _ (Hpure _)). simpl.
      rewrite mkdir_parents_is_dir by by rewrite Hp'. by destruct w.
  - intros Hd. rewrite mkdir_parents_is_dir by by destruct p. by rewrite set_fs_id.
  - intros _ Hfree. destruct (mkdir_parents_returns _ _ _ Hwf Hfree) as [f' ->]. eauto.
Qed.

(** ** The closure [show_and_save] *)

Lemma glob_png (d : Path) (w : world) :
  ∃ l, Pathlib.glob d "*.png" w = (Ok l, w) ∧ length l = png_count w d.
Proof.
  unfold Pathlib.glob, png_count. destruct (Fs.is_dir (fs w) d); [|by eexists].
  eexists. split; [done|]. rewrite length_map. f_equal.
  apply list_filter_iff. intros name. rewrite fnmatch_png_case.
  by destruct (String.eqb (os_name w) "nt").
Qed.

Lemma next_index_eq (d : Path) (w : world) : next_index d w = (Ok (png_count w d), w).
Proof.
  unfold next_index, try_except, bind, ret.
  destruct (glob_png d w) as (l & -> & <-). done.
Qed.

Lemma savefig_world (fig : Figure) (path : Path) (w w' : world) (r : result unit) :
  Plt.savefig fig path 200 "tight" w = (r, w') →
  (∃ e, r = Raise e ∧ w' = w ∧ escapes (Some e) = escapes (savefig_fault fig)) ∨
  (r = Ok tt ∧ savefig_fault fig = None ∧
   ∃ f', Fs.write_file (fs w) path (PNG (fig_label fig) 200 "tight") = Ok f' ∧
         w' = set_fs f' w).
Proof.
  unfold Plt.savefig, raise, lift_fs.
  destruct (savefig_fault fig) as [e|]; [intros [= <- <-]; eauto|].
  destruct (Fs.write_file _ _ _) as [f'|e] eqn:E; intros [= <- <-]; [right|left]; eauto.
  exists e. split_and!; try done. simpl. by rewrite (write_file_Exception _ _ _ _ E).
Qed.

Lemma escapes_Some (fault : option exn) (b : exn) :
  escapes fault = Some b → fault = Some b ∧ is_Exception b = false.
Proof.
  destruct fault as [e|]; [|done]. simpl.
  destruct (is_Exception e) eqn:He; [done|]. by intros [= <-].
Qed.

Section ShowFacts.

Variable R : list pyval → gmap string pyval → result pyval.

Lemma call_pyplot_show (args : list pyval) (kwargs : gmap string pyval) (w : world) :
  call_show R pyplot_show args kwargs w =
    (R args kwargs, set_displayed (displayed w ++ [(args, kwargs)]) w).
Proof. reflexivity. Qed.

(** The closure saves (or fails to), reports, and then calls the function
    it captured with the remaining arguments; an exception of the save that
    is no [Exception] ends the call there. *)
Lemma call_show_and_save (prefix : string) (vis_dir : Path) (orig : show_fn)
    (args : list pyval) (kwargs : gmap string pyval) (w : world) :
  call_show R (show_and_save prefix vis_dir orig) args kwargs w =
    match escapes (savefig_fault (gcf w)) with
    | Some b => (Raise b, w)
    | None =>
        call_show R orig args (delete "name_hint" kwargs) (after_save prefix vis_dir kwargs w)
    end.
Proof.
  simpl. unfold bind at 1. unfold Plt.gcf_, get. unfold bind at 1. unfold Time.strftime, get.
  unfold bind at 1. rewrite next_index_eq. unfold kwargs_pop.
  unfold bind at 1. unfold try_except, after_save, plot_path.
  unfold bind at 1.
  destruct (Plt.savefig _ _ _ _ w) as [r w'] eqn:E.
  apply savefig_world in E as [(e & -> & -> & He)|(-> & -> & f' & _ & ->)]; [|reflexivity].
  rewrite <- He. simpl. by destruct (is_Exception e).
Qed.

Lemma after_save_escape (prefix : string) (vis_dir : Path) (kwargs : gmap string pyval)
    (w : world) (b : exn) :
  escapes (savefig_fault (gcf w)) = Some b → after_save prefix vis_dir kwargs w = w.
Proof.
  intros Hb. unfold after_save.
  destruct (Plt.savefig _ _ _ _ w) as [r w'] eqn:E.
  apply savefig_world in E as [(e & -> & -> & He)|(-> & Hn & _)].
  - rewrite Hb in He. simpl in He. by destruct (is_Exception e).
  - by rewrite Hn in Hb.
Qed.

Lemma after_save_frame (prefix : string) (vis_dir : Path) (kwargs : gmap string pyval)
    (w : world) :
  let w1 := after_save prefix vis_dir kwargs w in
  os_name w1 = os_name w ∧ environ w1 = environ w ∧ clock w1 = clock w ∧
  gcf w1 = gcf w ∧ displayed w1 = displayed w ∧ plt_show w1 = plt_show w ∧
  (escapes (savefig_fault (gcf w)) = None → ∃ line, stdout w1 = stdout w ++ [line]).
Proof.
  unfold after_save.
  destruct (Plt.savefig _ _ _ _ w) as [r w'] eqn:E.
  apply savefig_world in E as [(e & -> & -> & He)|(-> & _ & f' & _ & ->)]; simpl.
  - rewrite <- He. simpl. destruct (is_Exception e); simpl; split_and!; eauto. done.
  - split_and!; eauto.
Qed.

(** C2, as the code has it.  The save step is guarded by
    [except Exception]: an exception of the save that is no [Exception]
    ([KeyboardInterrupt], [SystemExit]) leaves the closure at once, and the
    captured function is not called.  In every other call, with any
    arguments and in any world - the figure may or may not be writable -
    the closure gives what the captured function gives when called with the
    same positional arguments and the keyword arguments without
    [name_hint]: the same value or exception, in the world the save step
    leaves.  The save step then raises nothing: it prints one line and
    leaves everything but the file system and the output as it was.  When
    the captured function is the library's show, the call is recorded
    there with exactly those arguments and its result is returned. *)
Theorem C2_show_forwards (prefix : string) (vis_dir : Path) (orig : show_fn)
    (args : list pyval) (kwargs : gmap string pyval) (w : world) :
  let w1 := after_save prefix vis_dir kwargs w in
  let kwargs' := delete "name_hint" kwargs in
  call_show R (show_and_save prefix vis_dir orig) args kwargs w
    = match escapes (savefig_fault (gcf w)) with
      | Some b => (Raise b, w)
      | None => call_show R orig args kwargs' w1
      end
  ∧ (escapes (savefig_fault (gcf w)) = None →
     (displayed w1 = displayed w ∧ plt_show w1 = plt_show w ∧
      ∃ line, stdout w1 = stdout w ++ [line])
     ∧ call_show R (show_and_save prefix vis_dir pyplot_show) args kwargs w
       = (R args kwargs', set_displayed (displayed w ++ [(args, kwargs')]) w1)).
Proof.
  intros w1 kwargs'.
  destruct (after_save_frame prefix vis_dir kwargs w) as (_ & _ & _ & _ & Hd & Hs & Hout).
  split; [apply call_show_and_save|]. intros Hesc. split; [by auto|].
  rewrite (call_show_and_save prefix vis_dir pyplot_show args kwargs w), Hesc.
  rewrite call_pyplot_show. unfold w1 in *. simpl in Hd. by rewrite Hd.
Qed.

End ShowFacts.

(** ** The sequence index *)

Lemma checkpoint_next_index_dir (w : world) :
  Fs.is_dir (fs w) vis = true →
  Checkpoint.next_index w = (Ok (png_count_nocase w vis), w).
Proof.
  intros Hd. unfold Checkpoint.next_index, try_except_FileNotFoundError, bind, Os.listdir.
  fold vis. unfold Fs.listdir, png_count_nocase. rewrite Hd. reflexivity.
Qed.

Lemma checkpoint_next_index_missing (w : world) :
  Fs.exists_ (fs w) vis = false → Checkpoint.next_index w = (Ok 0, w).
Proof.
  intros Hex. unfold Checkpoint.next_index, try_except_FileNotFoundError, bind, Os.listdir.
  fold vis. unfold Fs.listdir, Fs.no_dir_error.
  destruct (Fs.is_dir (fs w) vis) eqn:Hd.
  { apply is_dir_exists in Hd. congruence. }
  change (Fs.under_file (fs w) (anchored vis) (rparts vis))
    with (Fs.exists_ (fs w) vis && negb (Fs.is_dir (fs w) vis) || false).
  by rewrite Hex.
Qed.

(** C4, as the code has it.  In [notebook_utils.py] the next index is the
    number of entries of the output directory whose name matches [*.png]
    by the platform's rule: letter case matters on POSIX and is ignored on
    Windows; when the directory is not there, or is not a directory, the
    index is 0 and nothing is raised.  The checkpoint copy ignores letter
    case on every platform, and answers 0 when its directory is missing. *)
Theorem C4_next_index (d : Path) (w : world) :
  next_index d w = (Ok (png_count w d), w)
  ∧ (Fs.is_dir (fs w) d = false → next_index d w = (Ok 0, w))
  ∧ (os_name w = "nt" → png_count w d = png_count_nocase w d)
  ∧ (os_name w = "posix" → Fs.is_dir (fs w) d = true →
     png_count w d =
       length (filter (λ name, Str.ends_with ".png" name = true) (Fs.scandir (fs w) d)))
  ∧ (Fs.is_dir (fs w) vis = true →
     Checkpoint.next_index w = (Ok (png_count_nocase w vis), w))
  ∧ (Fs.exists_ (fs w) vis = false → Checkpoint.next_index w = (Ok 0, w)).
Proof.
  split_and!.
  - apply next_index_eq.
  - intros Hd. rewrite next_index_eq. unfold png_count. by rewrite Hd.
  - intros Hnt. unfold png_count, png_count_nocase. by rewrite Hnt.
  - intros Hposix Hd. unfold png_count. by rewrite Hposix, Hd.
  - apply checkpoint_next_index_dir.
  - apply checkpoint_next_index_missing.
Qed.

Section IndexFacts.

Variable R : list pyval → gmap string pyval → result pyval.

Lemma invoke_eq (c : call) (w : world) :
  invoke R c w = call_show R (plt_show w) (call_args c) (call_kwargs c) (at_call c w).
Proof. reflexivity. Qed.

(** C10. When the figure could not be saved in a call of the wrapped
    show (a wrapper installed directly over the library's show), the
    call leaves the file system as it found it, and the next call
    computes the index that the failed call used.  The failure is reported
    by a warning when it is an [Exception], and by nothing when it is one
    that the closure lets pass. *)
Theorem C10_failed_save_keeps_index (prefix : string) (vis_dir : Path) (c c' : call)
    (w : world) (e : exn) :
  plt_show w = show_and_save prefix vis_dir pyplot_show →
  (Plt.savefig (call_figure c) (plot_path prefix vis_dir (call_kwargs c) (at_call c w))
               200 "tight" (at_call c w)).1 = Raise e →
  let w' := (invoke R c w).2 in
  fs w' = fs w
  ∧ stdout w' = stdout w ++ (if is_Exception e then [warn_line e] else [])
  ∧ (next_index vis_dir (at_call c' w')).1 = (next_index vis_dir (at_call c w)).1.
Proof.
  intros Hshow Hfail w'.
  assert (Hw' : fs w' = fs w
                ∧ stdout w' = stdout w ++ (if is_Exception e then [warn_line e] else [])
                ∧ os_name w' = os_name w).
  { unfold w'. rewrite invoke_eq, Hshow, call_show_and_save.
    unfold after_save.
    change (gcf (at_call c w)) with (call_figure c).
    destruct (Plt.savefig _ _ _ _ (at_call c w)) as [r w1] eqn:E. simpl in Hfail. subst r.
    apply savefig_world in E as [(e' & [= <-] & -> & He)|(? & _)]; [|done].
    rewrite <- He. simpl. destruct (is_Exception e); simpl; [done|].
    by rewrite app_nil_r. }
  destruct Hw' as (Hfs & Hout & Hos). split_and!; [done..|].
  rewrite !next_index_eq. simpl. unfold png_count. simpl. by rewrite Hfs, Hos.
Qed.

End IndexFacts.

(** ** Sessions *)

Lemma saved_line_is_saved (p : Path) : is_saved_line (saved_line p) = true.
Proof. reflexivity. Qed.

Lemma warn_line_not_saved (e : exn) : is_saved_line (warn_line e) = false.
Proof. reflexivity. Qed.

Lemma after_save_cases (prefix : string) (vis_dir : Path) (kwargs : gmap string pyval)
    (w : world) :
  let path := plot_path prefix vis_dir kwargs w in
  escapes (savefig_fault (gcf w)) = None →
  (∃ e, is_Exception e = true ∧
        (Plt.savefig (gcf w) path 200 "tight" w).1 = Raise e ∧
        after_save prefix vis_dir kwargs w = set_stdout (stdout w ++ [warn_line e]) w)
  ∨ (∃ f', savefig_fault (gcf w) = None ∧
           Fs.write_file (fs w) path (PNG (fig_label (gcf w)) 200 "tight") = Ok f' ∧
           after_save prefix vis_dir kwargs w =
             set_stdout (stdout w ++ [saved_line path]) (set_fs f' w)).
Proof.
  intros path Hesc. unfold after_save. fold path.
  destruct (Plt.savefig _ _ _ _ w) as [r w'] eqn:E.
  apply savefig_world in E as [(e & -> & -> & He)|(-> & Hn & f' & Hw & ->)];
    [left|right; by eauto].
  rewrite Hesc in He. simpl in He. exists e.
  destruct (is_Exception e); [done|done].
Qed.

Section SessionFacts.

Variable R : list pyval → gmap string pyval → result pyval.

(** A call prints at most one report per stacked closure and leaves
    [plt.show] alone; unless the save lets an exception pass, it prints
    exactly one per closure and reaches the library's show once. *)
Lemma call_show_frame (f : show_fn) (args : list pyval) (kwargs : gmap string pyval)
    (w : world) :
  let w' := (call_show R f args kwargs w).2 in
  plt_show w' = plt_show w ∧ os_name w' = os_name w ∧
  ∃ lines, stdout w' = stdout w ++ lines ∧ length lines ≤ depth f ∧
           Forall (λ l, is_report_line l = true) lines ∧
           (escapes (savefig_fault (gcf w)) = None →
            length lines = depth f ∧ ∃ kw, displayed w' = displayed w ++ [(args, kw)]).
Proof.
  revert kwargs w. induction f as [|prefix vis_dir orig IH]; intros kwargs w.
  - rewrite call_pyplot_show. simpl. split_and!; eauto.
    exists []. rewrite app_nil_r. split_and!; eauto.
  - rewrite call_show_and_save.
    destruct (escapes (savefig_fault (gcf w))) as [b|] eqn:Hesc.
    { simpl. split_and!; try done. exists []. rewrite app_nil_r.
      split_and!; [done|simpl; lia|done|done]. }
    destruct (IH (delete "name_hint" kwargs) (after_save prefix vis_dir kwargs w))
      as (Hs & Ho & lines & Hout & Hlen & Hall & Hfull).
    destruct (after_save_frame prefix vis_dir kwargs w)
      as (Ho1 & _ & _ & Hg1 & Hd1 & Hs1 & Hline).
    destruct (Hline Hesc) as [line Hout1].
    simpl in *. rewrite Hg1 in Hfull. destruct (Hfull Hesc) as [Hlen' [kw Hd]].
    split_and!; [congruence|congruence|].
    exists (line :: lines). split_and!.
    + by rewrite Hout, Hout1, <- app_assoc.
    + simpl. lia.
    + constructor; [|done].
      destruct (after_save_cases prefix vis_dir kwargs w Hesc)
        as [(e & _ & _ & He)|(f' & _ & _ & He)];
        rewrite He in Hout1; simpl in Hout1; apply app_inv_head in Hout1;
        injection Hout1 as <-; done.
    + intros _. split; [simpl; by rewrite Hlen'|]. exists kw. congruence.
Qed.

End SessionFacts.

(** ** Numbering the plots *)

Lemma png_count_all (w : world) (d : Path) (names : list string) :
  Fs.is_dir (fs w) d = true → Fs.scandir (fs w) d ≡ₚ names →
  Forall (λ n, ∃ u, n = u +:+ ".png") names →
  png_count w d = length names.
Proof.
  intros Hd Hperm Hall. unfold png_count. rewrite Hd, Hperm. f_equal.
  clear Hperm. induction Hall as [|n names [u ->] _ IH]; [done|].
  rewrite filter_cons_True, IH; [done|].
  destruct (String.eqb (os_name w) "nt"); [|apply ends_with_app].
  rewrite lower_app. apply (ends_with_app ".png").
Qed.

Lemma plots_dir_count (vis_dir : Path) (k : nat) (names : list string) (w : world) :
  plots_dir vis_dir k names w → png_count w vis_dir = k.
Proof.
  intros [? Hd ? Hn Hc Hi]. rewrite <- Hc. apply png_count_all; [done..|].
  eapply Forall_impl; [exact Hi|]. by intros n [_ ?].
Qed.

(** In such a directory a figure can only be written as a direct entry:
    a name with a separator would need a subdirectory. *)
Lemma plots_dir_join (vis_dir : Path) (k : nat) (names : list string) (w : world)
    (i : nat) (prefix : string) (hint : pyval) (ts : string) :
  plots_dir vis_dir k names w →
  Fs.is_dir (fs w) (PurePath.parent (vis_dir // plot_name i prefix hint ts)) = true →
  vis_dir // plot_name i prefix hint ts = child vis_dir (plot_name i prefix hint ts).
Proof.
  intros [Hwf Hd Hflat _ _ _].
  destruct (parse_plot_name i prefix hint ts) as (c1 & l & Hparse & Hone).
  unfold PurePath.joinpath. rewrite Hparse. simpl.
  destruct l as [|c l].
  - by rewrite <- (Hone eq_refl).
  - unfold PurePath.parent. simpl. rewrite <- app_assoc. intros Hpar.
    apply wf_ancestor in Hpar; [|done].
    apply is_dir_lookup in Hpar; [|done]. by apply Hflat in Hpar.
Qed.

Lemma plots_dir_fresh (vis_dir : Path) (k : nat) (names : list string) (w : world)
    (prefix : string) (hint : pyval) (ts : string) :
  plots_dir vis_dir k names w →
  fs w !! child vis_dir (plot_name k prefix hint ts) = None.
Proof.
  intros [_ _ _ Hn _ Hi].
  destruct (fs w !! child vis_dir (plot_name k prefix hint ts)) as [x|] eqn:E; [|done].
  assert (Hin : plot_name k prefix hint ts ∈ names).
  { rewrite <- Hn. apply elem_of_scandir. eauto. }
  rewrite Forall_forall in Hi. destruct (Hi _ Hin) as [Hlt _].
  rewrite index_of_plot_name in Hlt. lia.
Qed.

Lemma plots_dir_frame (vis_dir : Path) (k : nat) (names : list string) (w w' : world) :
  fs w' = fs w → plots_dir vis_dir k names w → plots_dir vis_dir k names w'.
Proof. intros E [? ? ? ? ? ?]. split; by rewrite ?E. Qed.

(** Writing the next plot keeps the directory in that state, one name on. *)
Lemma plots_dir_write (vis_dir : Path) (k : nat) (names : list string) (w : world)
    (prefix : string) (hint : pyval) (ts : string) (c : content) (f' : FS) :
  plots_dir vis_dir k names w →
  Fs.write_file (fs w) (vis_dir // plot_name k prefix hint ts) c = Ok f' →
  vis_dir // plot_name k prefix hint ts = child vis_dir (plot_name k prefix hint ts) ∧
  plots_dir vis_dir (S k) (plot_name k prefix hint ts :: names) (set_fs f' w).
Proof.
  intros Hpd Hw. pose proof Hpd as [Hwf Hd Hflat Hn Hc Hi].
  destruct (wf_write_file _ _ _ _ Hwf Hw) as (-> & Hpar & Hnd & Hwf').
  pose proof (plots_dir_join _ _ _ _ k prefix hint ts Hpd Hpar) as Hjoin.
  split; [done|]. rewrite Hjoin in *.
  pose proof (plots_dir_fresh _ _ _ _ prefix hint ts Hpd) as Hfresh.
  split; simpl.
  - done.
  - rewrite is_dir_insert_ne; [done|]. intros E.
    apply (f_equal (λ p, length (rparts p))) in E. simpl in E. lia.
  - intros name. destruct (decide (child vis_dir (plot_name k prefix hint ts) = child vis_dir name))
      as [<-|Hne].
    + by rewrite lookup_insert_eq.
    + rewrite lookup_insert_ne by done. apply Hflat.
  - by rewrite scandir_insert_fresh, Hn.
  - by rewrite Hc.
  - constructor.
    + rewrite index_of_plot_name. split; [lia|]. apply plot_name_png.
    + eapply Forall_impl; [exact Hi|]. intros n [? ?]. split; [lia|done].
Qed.

Section Numbering.

Variable R : list pyval → gmap string pyval → result pyval.

(** The calls of a session split into those whose save succeeded, which
    are numbered from the count [k] the directory had, and those whose save
    failed, which leave no trace but a warning, or not even that when the
    exception passed through the closure. *)
Lemma session_numbers (prefix : string) (vis_dir : Path) (cs : list call) :
  ∀ (w : world) (k : nat) (names : list string),
    plt_show w = show_and_save prefix vis_dir pyplot_show →
    plots_dir vis_dir k names w →
    ∃ (saved : list call) (lines : list string),
      saved `sublist_of` cs
      ∧ stdout (session R cs w) = stdout w ++ lines
      ∧ filter (λ l, is_saved_line l = true) lines
        = map (λ n, saved_line (child vis_dir n)) (expected_names prefix k saved)
      ∧ plots_dir vis_dir (k + length saved) (rev (expected_names prefix k saved) ++ names)
                  (session R cs w)
      ∧ length lines ≤ length cs
      ∧ (Forall (λ c, escapes (savefig_fault (call_figure c)) = None) cs →
         length lines = length cs)
      ∧ (length lines = length cs → Forall (λ l, is_saved_line l = true) lines →
         saved = cs).
Proof.
  induction cs as [|c cs IH]; intros w k names Hshow Hpd; simpl in *.
  - exists [], []. rewrite app_nil_r, Nat.add_0_r. by split_and!.
  - rewrite invoke_eq, Hshow, call_show_and_save.
    set (kw := call_kwargs c). set (w0 := at_call c w).
    assert (Hpd0 : plots_dir vis_dir k names w0) by by apply (plots_dir_frame _ _ _ w).
    pose proof (plots_dir_count _ _ _ _ Hpd0) as Hk.
    change (gcf w0) with (call_figure c).
    destruct (escapes (savefig_fault (call_figure c))) as [b|] eqn:Hesc.
    { simpl.
      destruct (IH w0 k names Hshow Hpd0)
        as (saved & lines & Hsub & Hout & Hfil & Hfinal & Hle & _ & _).
      exists saved, lines. split_and!; try done.
      - by apply sublist_cons.
      - lia.
      - intros [Hc _]%Forall_cons. simpl in Hc. congruence.
      - lia. }
    rewrite call_pyplot_show. simpl.
    set (w1 := set_displayed _ _).
    assert (Hshow1 : plt_show w1 = show_and_save prefix vis_dir pyplot_show).
    { unfold w1. simpl.
      destruct (after_save_frame prefix vis_dir kw w0) as (_ & _ & _ & _ & _ & -> & _).
      done. }
    destruct (after_save_cases prefix vis_dir kw w0 Hesc)
      as [(e & _ & _ & He)|(f' & _ & Hw & He)].
    + assert (Hpd1 : plots_dir vis_dir k names w1).
      { apply (plots_dir_frame _ _ _ w0); [|done]. unfold w1. by rewrite He. }
      assert (Hout1 : stdout w1 = stdout w ++ [warn_line e]).
      { unfold w1. by rewrite He. }
      destruct (IH w1 k names Hshow1 Hpd1)
        as (saved & lines & Hsub & Hout & Hfil & Hfinal & Hle & Hfull & _).
      exists saved, (warn_line e :: lines). split_and!.
      * by apply sublist_cons.
      * by rewrite Hout, Hout1, <- app_assoc.
      * rewrite filter_cons_False; [done|]. by rewrite warn_line_not_saved.
      * done.
      * simpl. lia.
      * intros [_ Hrest]%Forall_cons. simpl. by rewrite (Hfull Hrest).
      * intros _ [Hbad _]%Forall_cons. by rewrite warn_line_not_saved in Hbad.
    + unfold plot_path in Hw, He. rewrite Hk in Hw, He.
      change (default (VStr "plot") (kw !! "name_hint")) with (name_hint_of c) in Hw, He.
      change (clock w0) with (call_time c) in Hw, He.
      destruct (plots_dir_write _ _ _ _ _ _ _ _ _ Hpd0 Hw) as [Hjoin Hpd1].
      rewrite Hjoin in He.
      set (name := plot_name k prefix (name_hint_of c) (call_time c)) in *.
      assert (Hpd1' : plots_dir vis_dir (S k) (name :: names) w1).
      { eapply plots_dir_frame; [|exact Hpd1]. unfold w1. by rewrite He. }
      assert (Hout1 : stdout w1 = stdout w ++ [saved_line (child vis_dir name)]).
      { unfold w1. by rewrite He. }
      destruct (IH w1 (S k) _ Hshow1 Hpd1')
        as (saved & lines & Hsub & Hout & Hfil & Hfinal & Hle & Hfull & Hall).
      exists (c :: saved), (saved_line (child vis_dir name) :: lines). split_and!.
      * by apply sublist_skip.
      * by rewrite Hout, Hout1, <- app_assoc.
      * rewrite filter_cons_True by apply saved_line_is_saved. simpl. by rewrite Hfil.
      * simpl. rewrite <- app_assoc. simpl. by rewrite <- Nat.add_succ_comm.
      * simpl. lia.
      * intros [_ Hrest]%Forall_cons. simpl. by rewrite (Hfull Hrest).
      * intros Hlen [_ Hrest]%Forall_cons. simpl in Hlen.
        rewrite (Hall ltac:(lia) Hrest). done.
Qed.

End Numbering.

Lemma expected_names_lookup (prefix : string) (cs : list call) :
  ∀ (k i : nat) (c : call),
    cs !! i = Some c →
    expected_names prefix k cs !! i
      = Some (plot_name (k + i) prefix (name_hint_of c) (call_time c)).
Proof.
  induction cs as [|c0 cs IH]; intros k i c; [done|].
  destruct i as [|i]; simpl.
  - intros [= ->]. by rewrite Nat.add_0_r.
  - intros Hc. rewrite (IH (S k) i c Hc). by rewrite Nat.add_succ_comm.
Qed.

Lemma expected_names_length (prefix : string) (cs : list call) (k : nat) :
  length (expected_names prefix k cs) = length cs.
Proof. revert k. induction cs as [|c cs IH]; intros k; simpl; [done|]. by rewrite IH. Qed.

Lemma plots_dir_empty (vis_dir : Path) (w : world) :
  Fs.wf (fs w) → Fs.is_dir (fs w) vis_dir = true → Fs.scandir (fs w) vis_dir = [] →
  plots_dir vis_dir 0 [] w.
Proof.
  intros Hwf Hd Hempty. split; try done.
  - intros name Hsub.
    assert (Hin : name ∈ Fs.scandir (fs w) vis_dir) by (apply elem_of_scandir; eauto).
    rewrite Hempty in Hin. by apply not_elem_of_nil in Hin.
  - by rewrite Hempty.
Qed.

(** C1. The wrapper installed over the library's show, an output
    directory that is empty, and any calls of [plt.show], nothing else
    touching the directory.  Let [saved] be the calls whose save succeeded
    (each is reported by a [saved plot] line; a failed save prints a
    warning, or nothing when its exception is no [Exception] and passes
    through the closure).  Then the i-th of them (from 0) wrote the file
    named [{i:02d}_{prefix}_{name_hint}_{timestamp}.png] in the output
    directory, the reports name these files in call order, the index can be
    read back from each name, and in the end the directory holds exactly
    these files.  Every call leaves one line unless its exception passed
    through; when every call left a line and every line reports a saved
    plot, [saved] is all the calls. *)
Theorem C1_sequence_indices (R : list pyval → gmap string pyval → result pyval)
    (prefix : string) (vis_dir : Path) (cs : list call) (w : world) :
  plt_show w = show_and_save prefix vis_dir pyplot_show →
  Fs.wf (fs w) →
  Fs.is_dir (fs w) vis_dir = true →
  Fs.scandir (fs w) vis_dir = [] →
  ∃ (saved : list call) (lines : list string),
    let names := expected_names prefix 0 saved in
    let w' := session R cs w in
    saved `sublist_of` cs
    ∧ stdout w' = stdout w ++ lines
    ∧ filter (λ l, is_saved_line l = true) lines
      = map (λ n, saved_line (child vis_dir n)) names
    ∧ (Forall (λ c, escapes (savefig_fault (call_figure c)) = None) cs →
       length lines = length cs)
    ∧ (length lines = length cs → Forall (λ l, is_saved_line l = true) lines →
       saved = cs)
    ∧ Fs.scandir (fs w') vis_dir ≡ₚ names
    ∧ length names = length saved
    ∧ (∀ i c, saved !! i = Some c →
         names !! i = Some (fmt_02d i +:+ "_" +:+ prefix +:+ "_" +:+ py_str (name_hint_of c)
                            +:+ "_" +:+ call_time c +:+ ".png")
         ∧ is_Some (fs w' !! child vis_dir (plot_name i prefix (name_hint_of c) (call_time c))))
    ∧ (∀ i name, names !! i = Some name → index_of_name name = i).
Proof.
  intros Hshow Hwf Hd Hempty.
  destruct (session_numbers R prefix vis_dir cs w 0 [] Hshow
              (plots_dir_empty _ _ Hwf Hd Hempty))
    as (saved & lines & Hsub & Hout & Hfil & Hpd & _ & Hfull & Hall).
  exists saved, lines. intros names w'. fold names in Hfil, Hpd. fold w' in Hout, Hpd.
  rewrite app_nil_r in Hpd.
  pose proof (pd_names _ _ _ _ Hpd) as Hscan.
  assert (Hperm : Fs.scandir (fs w') vis_dir ≡ₚ names).
  { rewrite Hscan. symmetry. apply Permutation_rev. }
  split_and!; try done.
  - apply expected_names_length.
  - intros i c Hc. pose proof (expected_names_lookup prefix saved 0 i c Hc) as Hn.
    split; [exact Hn|].
    apply elem_of_scandir. rewrite Hperm. eapply list_elem_of_lookup_2. exact Hn.
  - intros i name Hn.
    destruct (lookup_lt_is_Some_2 saved i) as [c Hc].
    { rewrite <- (expected_names_length prefix saved 0). by eapply lookup_lt_Some. }
    pose proof (expected_names_lookup prefix saved 0 i c Hc) as Hn'. fold names in Hn'.
    rewrite Hn in Hn'. injection Hn' as ->. apply index_of_plot_name.
Qed.

(** ** The two public operations *)

Lemma ensure_dir_cases (v : pyval) (w : world) :
  (∃ e f', _ensure_dir v w = (Raise e, set_fs f' w) ∧ (Fs.wf (fs w) → f' = fs w))
  ∨ (∃ p f', Pathlib.Path_ v w = (Ok p, w) ∧
             Pathlib.mkdir_parents true (anchored p) (rparts p) (fs w) = (Ok tt, f') ∧
             _ensure_dir v w = (Ok p, set_fs f' w)).
Proof.
  destruct (Pathlib.Path_ v w) as [[p|e] w0] eqn:Hp.
  - destruct (Path_pure _ _ _ _ Hp) as [-> _].
    rewrite (ensure_dir_unfold v p w Hp).
    destruct (Pathlib.mkdir_parents _ _ _ _) as [[[]|e] f'] eqn:E; [right|left]; eauto.
    exists e, f'. split; [done|]. intros Hwf. by eapply mkdir_parents_Raise.
  - destruct (Path_pure _ _ _ _ Hp) as [-> _].
    left. exists e, (fs w). rewrite set_fs_id. split; [|done].
    unfold _ensure_dir, bind. by rewrite Hp.
Qed.

Lemma enable_unfold (m : globals) (prefix : string) (output_dir : pyval) (w : world) :
  enable_autosave_plots m prefix output_dir w =
    match _ensure_dir (py_or output_dir (VPath (DEFAULT_VIS_DIR m))) w with
    | (Ok vis_dir, w1) =>
        (Ok tt,
         set_stdout (stdout w1 ++ ["[autosave] matplotlib.pyplot.show patched -> "
                                   +:+ PurePath.str vis_dir])
                    (set_plt_show (show_and_save prefix vis_dir (plt_show w1)) w1))
    | (Raise e, w1) => (Raise e, w1)
    end.
Proof.
  unfold enable_autosave_plots, bind at 1.
  destruct (_ensure_dir _ w) as [[vis_dir|e] w1]; reflexivity.
Qed.

(** A successful call wraps whatever is bound to [plt.show] at that time,
    in a closure over the directory that was ensured. *)
Lemma enable_installs (m : globals) (prefix : string) (output_dir : pyval) (w w' : world) :
  enable_autosave_plots m prefix output_dir w = (Ok tt, w') →
  ∃ vis_dir, Pathlib.Path_ (py_or output_dir (VPath (DEFAULT_VIS_DIR m))) w = (Ok vis_dir, w)
             ∧ plt_show w' = show_and_save prefix vis_dir (plt_show w)
             ∧ displayed w' = displayed w.
Proof.
  rewrite enable_unfold.
  destruct (ensure_dir_cases (py_or output_dir (VPath (DEFAULT_VIS_DIR m))) w)
    as [(e & f' & -> & _)|(p & f' & Hp & _ & ->)]; [done|].
  intros [= <-]. exists p. done.
Qed.

Lemma save_preview_unfold (m : globals) (df : DataFrame) (name : string) (n : Z)
    (output_dir : pyval) (w : world) :
  save_dataframe_preview m df name n output_dir w =
    match _ensure_dir (py_or output_dir (VPath (DEFAULT_ARTIFACTS_DIR m))) w with
    | (Ok art_dir, w1) =>
        let out_csv := art_dir // (name +:+ "_preview.csv") in
        match Pandas.to_csv (Pandas.head n df) out_csv false w1 with
        | (Ok _, w2) =>
            (Ok (PurePath.str out_csv),
             set_stdout (stdout w2 ++ [saved_table_line out_csv]) w2)
        | (Raise e, w2) =>
            if is_Exception e
            then (Ok (PurePath.str out_csv),
                  set_stdout (stdout w2 ++ [warn_table_line e]) w2)
            else (Raise e, w2)
        end
    | (Raise e, w1) => (Raise e, w1)
    end.
Proof.
  unfold save_dataframe_preview, bind at 1.
  destruct (_ensure_dir _ w) as [[art_dir|e] w1]; [|reflexivity].
  unfold bind, try_except. simpl.
  destruct (Pandas.to_csv _ _ _ w1) as [[[]|e] w2]; [reflexivity|].
  by destruct (is_Exception e).
Qed.

Lemma to_csv_world (df : DataFrame) (path : Path) (index : bool) (w w' : world)
    (r : result unit) :
  Pandas.to_csv df path index w = (r, w') →
  (∃ e, r = Raise e ∧ w' = w ∧ escapes (Some e) = escapes (to_csv_fault df)) ∨
  (r = Ok tt ∧ to_csv_fault df = None ∧
   ∃ f', Fs.write_file (fs w) path (CSV (Pandas.csv_table df index)) = Ok f' ∧
         w' = set_fs f' w).
Proof.
  unfold Pandas.to_csv, raise, lift_fs.
  destruct (to_csv_fault df) as [e|]; [intros [= <- <-]; eauto|].
  destruct (Fs.write_file _ _ _) as [f'|e] eqn:E; intros [= <- <-]; [right|left]; eauto.
  exists e. split_and!; try done. simpl. by rewrite (write_file_Exception _ _ _ _ E).
Qed.

(** What the call answers once the directory is there: the path, unless
    the serialisation lets an exception pass. *)
Lemma save_preview_answer (m : globals) (df : DataFrame) (name : string) (n : Z)
    (output_dir : pyval) (w : world) (art_dir : Path) (w1 : world) :
  _ensure_dir (py_or output_dir (VPath (DEFAULT_ARTIFACTS_DIR m))) w = (Ok art_dir, w1) →
  (save_dataframe_preview m df name n output_dir w).1
  = match escapes (to_csv_fault df) with
    | Some b => Raise b
    | None => Ok (PurePath.str (art_dir // (name +:+ "_preview.csv")))
    end.
Proof.
  intros He. rewrite save_preview_unfold, He. simpl.
  destruct (Pandas.to_csv _ _ _ w1) as [r w2] eqn:E.
  apply to_csv_world in E as [(e & -> & -> & Hesc)|(-> & Hn & _)].
  - change (to_csv_fault (Pandas.head n df)) with (to_csv_fault df) in Hesc.
    rewrite <- Hesc. simpl. by destruct (is_Exception e).
  - change (to_csv_fault (Pandas.head n df)) with (to_csv_fault df) in Hn.
    by rewrite Hn.
Qed.

(** *** The string of the destination path *)

Lemma join_snoc (sep x : string) (l : list string) :
  l ≠ [] → Str.join sep (l ++ [x]) = Str.join sep l +:+ sep +:+ x.
Proof.
  induction l as [|y l IH]; [done|]. intros _. destruct l as [|z l]; [done|].
  change (Str.join sep (y :: z :: l)) with (y +:+ sep +:+ Str.join sep (z :: l)).
  change (Str.join sep ((y :: z :: l) ++ [x]))
    with (y +:+ sep +:+ Str.join sep ((z :: l) ++ [x])).
  rewrite IH by done. by rewrite !app_assoc_str.
Qed.

Lemma contains_app (c : ascii) (s t : string) :
  Str.contains c (s +:+ t) = Str.contains c s || Str.contains c t.
Proof.
  induction s as [|a s IH]; [done|]. rewrite app_String. simpl.
  by rewrite IH, orb_assoc.
Qed.

Lemma starts_with_no_sep (c : ascii) (s : string) :
  Str.contains c s = false → Str.starts_with (String c "") s = false.
Proof.
  destruct s as [|a s]; [done|]. simpl. intros [-> _]%orb_false_iff. done.
Qed.

Lemma parse_file_name (s : string) :
  Str.contains "/" s = false → PurePath.keep s = true →
  PurePath.parse s = MkPath false [s].
Proof.
  intros Hs Hk. unfold PurePath.parse.
  rewrite (starts_with_no_sep "/" s Hs), (split_on_no_sep _ _ Hs).
  by rewrite filter_cons_True.
Qed.

Lemma keep_preview (name : string) : PurePath.keep (name +:+ "_preview.csv") = true.
Proof.
  unfold PurePath.keep. destruct name as [|a u]; [done|].
  rewrite app_String. simpl. destruct (Ascii.eqb a "."); [|done].
  by destruct u.
Qed.

Lemma str_joinpath_name (d : Path) (s : string) :
  Str.contains "/" s = false → PurePath.keep s = true → rparts d ≠ [] →
  PurePath.str (d // s) = PurePath.str d +:+ "/" +:+ s.
Proof.
  intros Hs Hk Hd. unfold PurePath.joinpath. rewrite (parse_file_name s Hs Hk). simpl.
  destruct d as [a rp]. simpl in *. unfold PurePath.str. simpl.
  assert (Hrev : rev rp ≠ []).
  { intros E. apply (f_equal (@rev string)) in E. rewrite rev_involutive in E. done. }
  rewrite (join_snoc "/" s (rev rp) Hrev).
  destruct a.
  - by rewrite app_String.
  - by destruct rp.
Qed.

(** *** Where the files go *)

Lemma enable_dir (m : globals) (prefix : string) (output_dir : pyval) (d : Path)
    (w w' : world) :
  py_or output_dir (VPath (DEFAULT_VIS_DIR m)) = VPath d ∨
  (∃ s, py_or output_dir (VPath (DEFAULT_VIS_DIR m)) = VStr s ∧ d = PurePath.parse s) →
  enable_autosave_plots m prefix output_dir w = (Ok tt, w') →
  plt_show w' = show_and_save prefix d (plt_show w).
Proof.
  intros Hor He. destruct (enable_installs _ _ _ _ _ He) as (d' & Hp & -> & _).
  destruct Hor as [E|(s & E & ->)]; rewrite E in Hp; simpl in Hp; by injection Hp as <-.
Qed.

Lemma save_preview_dir (m : globals) (df : DataFrame) (name : string) (n : Z)
    (output_dir : pyval) (d : Path) (w : world) (r : string) :
  py_or output_dir (VPath (DEFAULT_ARTIFACTS_DIR m)) = VPath d ∨
  (∃ s, py_or output_dir (VPath (DEFAULT_ARTIFACTS_DIR m)) = VStr s ∧ d = PurePath.parse s) →
  (save_dataframe_preview m df name n output_dir w).1 = Ok r →
  r = PurePath.str (d // (name +:+ "_preview.csv")).
Proof.
  intros Hor.
  destruct (ensure_dir_cases (py_or output_dir (VPath (DEFAULT_ARTIFACTS_DIR m))) w)
    as [(e & f' & He & _)|(p & f' & Hp & _ & He)].
  { rewrite save_preview_unfold, He. done. }
  rewrite (save_preview_answer _ _ _ _ _ _ _ _ He).
  destruct (escapes (to_csv_fault df)); [done|]. intros [= <-].
  destruct Hor as [E|(s & E & ->)]; rewrite E in Hp; simpl in Hp; by injection Hp as <-.
Qed.

Lemma py_or_str (s : string) (v : pyval) : s ≠ "" → py_or (VStr s) v = VStr s.
Proof.
  intros Hs. unfold py_or. simpl. by destruct (String.eqb_spec s "").
Qed.

Lemma py_or_falsy (a v : pyval) : truthy a = false → py_or a v = v.
Proof. unfold py_or. by intros ->. Qed.

(** *** The environment is not consulted again *)

Lemma ensure_dir_environ (v : pyval) (env : gmap string string) (w : world) :
  _ensure_dir v (set_environ env w) =
    let '(r, w1) := _ensure_dir v w in (r, set_environ env w1).
Proof.
  destruct (Pathlib.Path_ v w) as [[p|e] w0] eqn:Hp;
    destruct (Path_pure _ _ _ _ Hp) as [-> Hpure].
  - rewrite (ensure_dir_unfold v p w Hp), (ensure_dir_unfold v p _ (Hpure _)). simpl.
    by destruct (Pathlib.mkdir_parents _ _ _ _) as [[[]|e] f'].
  - unfold _ensure_dir, bind. by rewrite Hp, (Hpure (set_environ env w)).
Qed.

Lemma enable_environ (m : globals) (prefix : string) (output_dir : pyval)
    (env : gmap string string) (w : world) :
  enable_autosave_plots m prefix output_dir (set_environ env w) =
    let '(r, w') := enable_autosave_plots m prefix output_dir w in (r, set_environ env w').
Proof.
  rewrite !enable_unfold, ensure_dir_environ.
  by destruct (_ensure_dir _ w) as [[d|e] w1].
Qed.

Lemma save_preview_environ (m : globals) (df : DataFrame) (name : string) (n : Z)
    (output_dir : pyval) (env : gmap string string) (w : world) :
  save_dataframe_preview m df name n output_dir (set_environ env w) =
    let '(r, w') := save_dataframe_preview m df name n output_dir w in
    (r, set_environ env w').
Proof.
  rewrite !save_preview_unfold, ensure_dir_environ.
  destruct (_ensure_dir _ w) as [[d|e] w1]; [|done]. simpl.
  unfold Pandas.to_csv, raise, lift_fs. simpl.
  destruct (to_csv_fault df) as [e|]; [by destruct (is_Exception e)|]. simpl.
  destruct (Fs.write_file _ _ _) as [f'|e]; [done|]. by destruct (is_Exception e).
Qed.

(** C7. The two default directories are taken from [NBX_VIS_DIR] and
    [NBX_ARTIFACTS_DIR] when the module is imported, and are
    [results/visualizations] and [results/artifacts] when these are unset;
    the operations work from the values captured then, whatever the
    environment holds later; and each operation uses its [output_dir]
    argument when one is given (a non-empty string or a path), else the
    captured default. *)
Theorem C7_default_dirs (m : globals) (prefix : string) (df : DataFrame) (name : string)
    (n : Z) (w : world) :
  (∀ w0, environ w0 !! "NBX_VIS_DIR" = None →
         DEFAULT_VIS_DIR (import_module w0) = PurePath.parse "results/visualizations")
  ∧ (∀ w0 s, environ w0 !! "NBX_VIS_DIR" = Some s →
             DEFAULT_VIS_DIR (import_module w0) = PurePath.parse s)
  ∧ (∀ w0, environ w0 !! "NBX_ARTIFACTS_DIR" = None →
           DEFAULT_ARTIFACTS_DIR (import_module w0) = PurePath.parse "results/artifacts")
  ∧ (∀ w0 s, environ w0 !! "NBX_ARTIFACTS_DIR" = Some s →
             DEFAULT_ARTIFACTS_DIR (import_module w0) = PurePath.parse s)
  ∧ (∀ env output_dir,
       enable_autosave_plots m prefix output_dir (set_environ env w) =
         let '(r, w') := enable_autosave_plots m prefix output_dir w in
         (r, set_environ env w'))
  ∧ (∀ env output_dir,
       save_dataframe_preview m df name n output_dir (set_environ env w) =
         let '(r, w') := save_dataframe_preview m df name n output_dir w in
         (r, set_environ env w'))
  ∧ (∀ w', enable_autosave_plots m prefix VNone w = (Ok tt, w') →
           plt_show w' = show_and_save prefix (DEFAULT_VIS_DIR m) (plt_show w))
  ∧ (∀ s w', s ≠ "" → enable_autosave_plots m prefix (VStr s) w = (Ok tt, w') →
             plt_show w' = show_and_save prefix (PurePath.parse s) (plt_show w))
  ∧ (∀ p w', enable_autosave_plots m prefix (VPath p) w = (Ok tt, w') →
             plt_show w' = show_and_save prefix p (plt_show w))
  ∧ (∀ r, (save_dataframe_preview m df name n VNone w).1 = Ok r →
          r = PurePath.str (DEFAULT_ARTIFACTS_DIR m // (name +:+ "_preview.csv")))
  ∧ (∀ s r, s ≠ "" → (save_dataframe_preview m df name n (VStr s) w).1 = Ok r →
            r = PurePath.str (PurePath.parse s // (name +:+ "_preview.csv")))
  ∧ (∀ p r, (save_dataframe_preview m df name n (VPath p) w).1 = Ok r →
            r = PurePath.str (p // (name +:+ "_preview.csv"))).
Proof.
  split_and!.
  - intros w0 E. unfold import_module, environ_get. simpl. by rewrite E.
  - intros w0 s E. unfold import_module, environ_get. simpl. by rewrite E.
  - intros w0 E. unfold import_module, environ_get. simpl. by rewrite E.
  - intros w0 s E. unfold import_module, environ_get. simpl. by rewrite E.
  - intros env od. apply enable_environ.
  - intros env od. apply save_preview_environ.
  - intros w'. apply enable_dir. by left.
  - intros s w' Hs. apply enable_dir. right. exists s. by rewrite py_or_str.
  - intros p w'. apply enable_dir. by left.
  - intros r. apply save_preview_dir. by left.
  - intros s r Hs. apply save_preview_dir. right. exists s. by rewrite py_or_str.
  - intros p r. apply save_preview_dir. by left.
Qed.

(** C9. An [output_dir] that is false as a truth value - the empty string
    in particular - is treated as if none had been passed: both operations
    do exactly what they do for [None], and so work in the captured default
    directory. *)
Theorem C9_falsy_output_dir (m : globals) (prefix : string) (df : DataFrame) (name : string)
    (n : Z) (output_dir : pyval) (w : world) :
  truthy output_dir = false →
  enable_autosave_plots m prefix output_dir w = enable_autosave_plots m prefix VNone w
  ∧ save_dataframe_preview m df name n output_dir w
    = save_dataframe_preview m df name n VNone w
  ∧ (∀ w', enable_autosave_plots m prefix output_dir w = (Ok tt, w') →
           plt_show w' = show_and_save prefix (DEFAULT_VIS_DIR m) (plt_show w))
  ∧ (∀ r, (save_dataframe_preview m df name n output_dir w).1 = Ok r →
          r = PurePath.str (DEFAULT_ARTIFACTS_DIR m // (name +:+ "_preview.csv")))
  ∧ truthy (VStr "") = false.
Proof.
  intros Hf. split_and!.
  - unfold enable_autosave_plots. by rewrite (py_or_falsy _ _ Hf).
  - unfold save_dataframe_preview. by rewrite (py_or_falsy _ _ Hf).
  - intros w'. apply enable_dir. left. by apply py_or_falsy.
  - intros r. apply save_preview_dir. left. by apply py_or_falsy.
  - done.
Qed.

Lemma warn_table_not_saved (e : exn) (p : Path) : warn_table_line e ≠ saved_table_line p.
Proof.
  intros E. apply (f_equal (Str.starts_with "[s")) in E. discriminate E.
Qed.

(** C3, as the code has it.  Once the output directory has been ensured
    (a failure there is raised to the caller), [save_dataframe_preview]
    returns the string of the path [<output_dir>/<name>_preview.csv]
    whether or not the CSV could be written, unless the write raises an
    exception that is no [Exception] ([KeyboardInterrupt], [SystemExit]),
    which is raised to the caller; when the write raises an [Exception], it
    is caught, a warning line is printed and nothing else changes.  For a
    name without a separator, in a directory other than [.] and [/], the
    string is the directory's, a [/], the name and [_preview.csv]. *)
Theorem C3_preview_returns_path (m : globals) (df : DataFrame) (name : string) (n : Z)
    (output_dir : pyval) (w : world) (art_dir : Path) (w1 : world) :
  _ensure_dir (py_or output_dir (VPath (DEFAULT_ARTIFACTS_DIR m))) w = (Ok art_dir, w1) →
  let out_csv := art_dir // (name +:+ "_preview.csv") in
  (save_dataframe_preview m df name n output_dir w).1
  = match escapes (to_csv_fault df) with
    | Some b => Raise b
    | None => Ok (PurePath.str out_csv)
    end
  ∧ (∀ e, (Pandas.to_csv (Pandas.head n df) out_csv false w1).1 = Raise e →
          save_dataframe_preview m df name n output_dir w
          = if is_Exception e
            then (Ok (PurePath.str out_csv),
                  set_stdout (stdout w1 ++ [warn_table_line e]) w1)
            else (Raise e, w1))
  ∧ (Str.contains "/" name = false → rparts art_dir ≠ [] →
     PurePath.str out_csv = PurePath.str art_dir +:+ "/" +:+ name +:+ "_preview.csv").
Proof.
  intros He out_csv. split_and!.
  - by apply (save_preview_answer _ _ _ _ _ _ _ w1).
  - intros e Hfail. rewrite save_preview_unfold, He. cbv zeta. fold out_csv.
    destruct (Pandas.to_csv _ _ _ w1) as [r w2] eqn:E. simpl in Hfail. subst r.
    by apply to_csv_world in E as [(e' & [= <-] & -> & _)|(? & _)].
  - intros Hname Hd. apply str_joinpath_name; [|apply keep_preview|done].
    by rewrite contains_app, Hname.
Qed.

Lemma ensure_dir_stdout (v : pyval) (w w1 : world) (r : result Path) :
  _ensure_dir v w = (r, w1) → ∃ f', w1 = set_fs f' w.
Proof.
  destruct (ensure_dir_cases v w) as [(e & f' & E & _)|(p & f' & _ & _ & E)];
    rewrite E; intros [= _ <-]; eauto.
Qed.


(** *** Stacked wrappers *)


Lemma depth_layers (f : show_fn) : length (layers f) = depth f.
Proof. induction f; simpl; congruence. Qed.


Section Stack.

Variable R : list pyval → gmap string pyval → result pyval.

Lemma forwarded_kwargs_delete (f : show_fn) (kwargs : gmap string pyval) :
  forwarded_kwargs f (delete "name_hint" kwargs) = delete "name_hint" kwargs.
Proof. destruct f; simpl; [done|]. apply delete_delete_eq. Qed.

Lemma save_attempts_cons (prefix : string) (vis_dir : Path) (orig : show_fn)
    (kwargs : gmap string pyval) (w : world) :
  save_attempts (show_and_save prefix vis_dir orig) kwargs w
  = let path := plot_path prefix vis_dir kwargs w in
    let rest := save_attempts orig (delete "name_hint" kwargs)
                              (after_save prefix vis_dir kwargs w) in
    ((path, (Plt.savefig (gcf w) path 200 "tight" w).1) :: rest.1, rest.2).
Proof. simpl. by destruct (save_attempts orig _ _). Qed.

(** What a figure has been saved as stays in place while the closures
    below save the same figure. *)
Lemma save_attempts_keep (f : show_fn) (kwargs : gmap string pyval) (w : world) (q : Path) :
  fs w !! q = Some (File (PNG (fig_label (gcf w)) 200 "tight")) →
  escapes (savefig_fault (gcf w)) = None →
  fs (save_attempts f kwargs w).2 !! q = Some (File (PNG (fig_label (gcf w)) 200 "tight")).
Proof.
  revert kwargs w. induction f as [|prefix vis_dir orig IH]; intros kwargs w Hq Hesc; [done|].
  rewrite save_attempts_cons. simpl.
  destruct (after_save_frame prefix vis_dir kwargs w) as (_ & _ & _ & Hg & _).
  simpl in Hg. rewrite <- Hg. apply IH; [|by rewrite Hg]. rewrite Hg.
  destruct (after_save_cases prefix vis_dir kwargs w Hesc)
    as [(e & _ & _ & ->)|(f' & _ & Hw & ->)]; simpl; [done|].
  unfold Fs.write_file in Hw.
  destruct (Fs.is_dir (fs w) _); [done|]. destruct (Fs.check_parent (fs w) _); [|done].
  injection Hw as <-.
  destruct (decide (plot_path prefix vis_dir kwargs w = q)) as [->|Hne].
  - by rewrite lookup_insert_eq.
  - by rewrite lookup_insert_ne.
Qed.

(** A call through a stack of closures whose saves let no exception pass:
    every closure makes its attempt and reports it, and the library's show
    is then reached with the positional arguments and the keyword arguments
    without the hint. *)
Lemma call_show_attempts (f : show_fn) (args : list pyval) (kwargs : gmap string pyval)
    (w : world) :
  escapes (savefig_fault (gcf w)) = None →
  let attempts := (save_attempts f kwargs w).1 in
  let ws := (save_attempts f kwargs w).2 in
  let kw := forwarded_kwargs f kwargs in
  call_show R f args kwargs w
  = (R args kw, set_displayed (displayed w ++ [(args, kw)]) ws)
  ∧ length attempts = depth f
  ∧ stdout ws = stdout w ++ map report_line attempts
  ∧ displayed ws = displayed w
  ∧ Forall (λ a, a.2 = Ok tt →
                 fs ws !! a.1 = Some (File (PNG (fig_label (gcf w)) 200 "tight"))) attempts
  ∧ Forall2 (λ a l, ∃ idx hint, a.1 = l.2 // plot_name idx l.1 hint (clock w))
            attempts (layers f).
Proof.
  revert kwargs w. induction f as [|prefix vis_dir orig IH]; intros kwargs w Hesc.
  - simpl. rewrite app_nil_r. split_and!; try done; constructor.
  - intros attempts ws kw. unfold attempts, ws, kw.
    rewrite save_attempts_cons, call_show_and_save, Hesc.
    cbn [fst snd forwarded_kwargs depth layers].
    set (path := plot_path prefix vis_dir kwargs w).
    set (w1 := after_save prefix vis_dir kwargs w).
    destruct (after_save_frame prefix vis_dir kwargs w)
      as (_ & _ & Hc1 & Hg1 & Hd1 & _ & _).
    fold w1 in Hc1, Hg1, Hd1.
    assert (Hesc1 : escapes (savefig_fault (gcf w1)) = None) by by rewrite Hg1.
    destruct (IH (delete "name_hint" kwargs) w1 Hesc1)
      as (Hcall & Hlen & Hout & Hdisp & Hfiles & Hpaths).
    rewrite forwarded_kwargs_delete in Hcall. rewrite Hg1 in Hfiles. rewrite Hc1 in Hpaths.
    assert (Hstep : stdout w1
                    = stdout w ++ [report_line (path, (Plt.savefig (gcf w) path 200 "tight" w).1)]
                    ∧ ((Plt.savefig (gcf w) path 200 "tight" w).1 = Ok tt →
                       fs w1 !! path = Some (File (PNG (fig_label (gcf w)) 200 "tight")))).
    { destruct (after_save_cases prefix vis_dir kwargs w Hesc)
        as [(e & _ & Hfail & He)|(f' & Hn & Hw & He)]; fold path in Hfail || fold path in Hw;
        fold w1 in He; rewrite He.
      - rewrite Hfail. done.
      - assert (Hans : (Plt.savefig (gcf w) path 200 "tight" w).1 = Ok tt).
        { unfold Plt.savefig, lift_fs. by rewrite Hn, Hw. }
        rewrite Hans. split; [done|]. intros _. simpl.
        unfold Fs.write_file in Hw.
        destruct (Fs.is_dir (fs w) path); [done|].
        destruct (Fs.check_parent (fs w) path); [|done].
        injection Hw as <-. by rewrite lookup_insert_eq. }
    destruct Hstep as [Hout1 Hfile1].
    split_and!.
    + rewrite Hcall. by rewrite Hd1.
    + simpl. by rewrite Hlen.
    + rewrite Hout, Hout1, <- app_assoc. done.
    + by rewrite Hdisp.
    + constructor; [|done]. simpl. intros Hans.
      rewrite <- Hg1. apply save_attempts_keep; rewrite Hg1; auto.
    + constructor; [|done]. simpl. unfold path, plot_path. eauto.
Qed.

End Stack.


(** ** The claims at concrete inputs *)

Lemma pair_of_fst {A B : Type} (x : A * B) (a : A) : x.1 = a → x = (a, x.2).
Proof. destruct x. simpl. by intros ->. Qed.

Lemma enable_wf (m : globals) (prefix : string) (output_dir : pyval) (w : world) :
  Fs.wf (fs w) → Fs.wf (fs (enable_autosave_plots m prefix output_dir w).2).
Proof.
  intros Hwf. rewrite enable_unfold.
  destruct (ensure_dir_cases (py_or output_dir (VPath (DEFAULT_VIS_DIR m))) w)
    as [(e & f' & -> & Hsame)|(p & f' & _ & Hmk & ->)].
  - simpl. by rewrite (Hsame Hwf).
  - simpl. by destruct (mkdir_parents_spec _ _ _ _ _ Hwf Hmk).
Qed.

Lemma eda_world_wf : Fs.wf (fs eda_world).
Proof. apply enable_wf, wf_empty. Qed.

Lemma C1_sequence_indices_witness :
  plt_show eda_world
    = show_and_save "eda" (PurePath.parse "results/visualizations") pyplot_show
  ∧ Fs.is_dir (fs eda_world) (PurePath.parse "results/visualizations") = true
  ∧ Fs.scandir (fs eda_world) (PurePath.parse "results/visualizations") = []
  ∧ stdout (session show_returns_None abc_calls eda_world)
    = stdout eda_world ++
      [ "[saved plot] results/visualizations/00_eda_a_20240101-120001.png";
        "[saved plot] results/visualizations/01_eda_b_20240101-120002.png";
        "[saved plot] results/visualizations/02_eda_c_20240101-120003.png" ]
  ∧ Fs.scandir (fs (session show_returns_None abc_calls eda_world))
               (PurePath.parse "results/visualizations")
    ≡ₚ [ "00_eda_a_20240101-120001.png"; "01_eda_b_20240101-120002.png";
         "02_eda_c_20240101-120003.png" ].
Proof.
  assert (H1 : plt_show eda_world
               = show_and_save "eda" (PurePath.parse "results/visualizations") pyplot_show)
    by (vm_compute; reflexivity).
  assert (H2 : Fs.is_dir (fs eda_world) (PurePath.parse "results/visualizations") = true)
    by (vm_compute; reflexivity).
  assert (H3 : Fs.scandir (fs eda_world) (PurePath.parse "results/visualizations") = [])
    by (vm_compute; reflexivity).
  assert (H4 : stdout (session show_returns_None abc_calls eda_world)
               = stdout eda_world ++
                 [ "[saved plot] results/visualizations/00_eda_a_20240101-120001.png";
                   "[saved plot] results/visualizations/01_eda_b_20240101-120002.png";
                   "[saved plot] results/visualizations/02_eda_c_20240101-120003.png" ])
    by (vm_compute; reflexivity).
  split; [exact H1|]. split; [exact H2|]. split; [exact H3|]. split; [exact H4|].
  destruct (C1_sequence_indices show_returns_None "eda"
              (PurePath.parse "results/visualizations") abc_calls eda_world
              H1 eda_world_wf H2 H3)
    as (saved & lines & _ & Hout & _ & _ & Hall & Hscan & _).
  rewrite H4 in Hout. apply app_inv_head in Hout. subst lines.
  rewrite (Hall eq_refl ltac:(repeat constructor)) in Hscan. exact Hscan.
Defined.

Lemma C3_preview_returns_path_witness :
  let m := import_module fresh_world in
  let r := _ensure_dir (py_or VNone (VPath (DEFAULT_ARTIFACTS_DIR m))) fresh_world in
  r = (Ok (PurePath.parse "results/artifacts"), r.2)
  ∧ (save_dataframe_preview m sample_df "sample" 20 VNone fresh_world).1
    = Ok (PurePath.str (PurePath.parse "results/artifacts" // "sample_preview.csv"))
  ∧ PurePath.str (PurePath.parse "results/artifacts" // "sample_preview.csv")
    = "results/artifacts" +:+ "/" +:+ "sample" +:+ "_preview.csv".
Proof.
  intros m r.
  assert (He : r = (Ok (PurePath.parse "results/artifacts"), r.2))
    by (apply (pair_of_fst r); vm_compute; reflexivity).
  split; [exact He|].
  destruct (C3_preview_returns_path m sample_df "sample" 20 VNone fresh_world _ _ He)
    as (Hret & _ & Hstr).
  split; [exact Hret|]. apply Hstr; [reflexivity|discriminate].
Defined.

Lemma C2_show_forwards_witness :
  let d := PurePath.parse "results/visualizations" in
  let w := set_gcf (MkFigure "B" (Some (RuntimeError "boom"))) eda_world in
  let kwargs : gmap string pyval := {[ "name_hint" := VStr "a"; "block" := VBool true ]} in
  escapes (savefig_fault (gcf w)) = None
  ∧ call_show show_returns_None (show_and_save "eda" d pyplot_show) [VInt 1] kwargs w
    = (Ok VNone,
       set_displayed (displayed w ++ [([VInt 1], delete "name_hint" kwargs)])
                     (after_save "eda" d kwargs w)).
Proof.
  intros d w kwargs. split; [reflexivity|].
  apply (C2_show_forwards show_returns_None "eda" d pyplot_show [VInt 1] kwargs w).
  reflexivity.
Defined.

Lemma C2_counterexample :
  let w := set_gcf interrupted_figure eda_world in
  plt_show w = show_and_save "eda" (PurePath.parse "results/visualizations") pyplot_show
  ∧ (call_show show_returns_None pyplot_show [VInt 1] ∅ w).1 = Ok VNone
  ∧ (show show_returns_None [VInt 1] ∅ w).1 = Raise KeyboardInterrupt
  ∧ displayed (show show_returns_None [VInt 1] ∅ w).2 = []
  ∧ stdout (show show_returns_None [VInt 1] ∅ w).2 = stdout w.
Proof. vm_compute. split_and!; reflexivity. Qed.

Lemma C3_counterexample :
  ((save_dataframe_preview (import_module blocked_world) sample_df "sample" 20 (VStr "out")
                           blocked_world).1 = Raise FileExistsError
   ∧ ¬ ∃ s, (save_dataframe_preview (import_module blocked_world) sample_df "sample" 20
                                    (VStr "out") blocked_world).1 = Ok s)
  ∧ ((save_dataframe_preview (import_module fresh_world) interrupted_df "sample" 20 VNone
                             fresh_world).1 = Raise KeyboardInterrupt
     ∧ stdout (save_dataframe_preview (import_module fresh_world) interrupted_df "sample" 20
                                      VNone fresh_world).2 = []).
Proof.
  assert (H : (save_dataframe_preview (import_module blocked_world) sample_df "sample" 20
                 (VStr "out") blocked_world).1 = Raise FileExistsError)
    by (vm_compute; reflexivity).
  split; [split; [exact H|]|].
  - intros [s Hs]. rewrite H in Hs. discriminate Hs.
  - vm_compute. split; reflexivity.
Qed.

Lemma C4_counterexample :
  "X.PNG" ∈ Fs.scandir (fs capitals_world) vis
  ∧ png_count_nocase capitals_world vis = 1
  ∧ (next_index vis capitals_world).1 = Ok 0
  ∧ (next_index vis capitals_world).1 ≠ Ok (png_count_nocase capitals_world vis).
Proof.
  split_and!.
  - apply elem_of_scandir. vm_compute. eauto.
  - vm_compute. reflexivity.
  - vm_compute. reflexivity.
  - vm_compute. discriminate.
Qed.

Lemma C4_next_index_witness :
  (Fs.is_dir (fs fresh_world) vis = false ∧ next_index vis fresh_world = (Ok 0, fresh_world))
  ∧ (os_name capitals_world = "posix" ∧ Fs.is_dir (fs capitals_world) vis = true ∧
     next_index vis capitals_world = (Ok 0, capitals_world))
  ∧ Checkpoint.next_index capitals_world = (Ok 1, capitals_world)
  ∧ Checkpoint.next_index fresh_world = (Ok 0, fresh_world).
Proof.
  destruct (C4_next_index vis fresh_world) as (_ & Hmissing & _ & _ & _ & Hcp0).
  destruct (C4_next_index vis capitals_world) as (Hidx & _ & _ & Hposix & Hcp & _).
  split_and!.
  - reflexivity.
  - apply Hmissing. reflexivity.
  - reflexivity.
  - reflexivity.
  - by rewrite Hidx, (Hposix eq_refl eq_refl).
  - by rewrite (Hcp eq_refl).
  - apply Hcp0. reflexivity.
Defined.



Lemma C6_ensure_dir_witness :
  let v := VStr "results/visualizations" in
  let p := PurePath.parse "results/visualizations" in
  Fs.wf (fs fresh_world)
  ∧ Pathlib.Path_ v fresh_world = (Ok p, fresh_world)
  ∧ ∃ w', _ensure_dir v fresh_world = (Ok p, w')
          ∧ Fs.is_dir (fs w') p = true
          ∧ Fs.is_dir (fs w') (PurePath.parse "results") = true
          ∧ _ensure_dir v w' = (Ok p, w').
Proof.
  intros v p.
  destruct (C6_ensure_dir v p fresh_world wf_empty eq_refl) as (Hret & _ & Hfree).
  split_and!; [exact wf_empty|reflexivity|].
  destruct Hfree as [w' Hw'].
  { reflexivity. }
  { intros l r _ Hex. unfold Fs.exists_, Fs.is_dir in *. simpl in *.
    rewrite lookup_empty in *. by rewrite orb_false_r in *. }
  destruct (Hret p w' Hw') as (_ & Hd & Hanc & _ & _ & Hagain).
  exists w'. split_and!; [exact Hw'|exact Hd| |exact Hagain].
  apply (Hanc ["visualizations"] ["results"]). reflexivity.
Defined.

Lemma C7_default_dirs_witness :
  let m := import_module fresh_world in
  let w_env := set_environ {[ "NBX_VIS_DIR" := "/tmp/plots" ]} fresh_world in
  DEFAULT_VIS_DIR m = PurePath.parse "results/visualizations"
  ∧ DEFAULT_ARTIFACTS_DIR m = PurePath.parse "results/artifacts"
  ∧ DEFAULT_VIS_DIR (import_module w_env) = PurePath.parse "/tmp/plots"
  ∧ plt_show (enable_autosave_plots m "fig" VNone w_env).2
    = show_and_save "fig" (PurePath.parse "results/visualizations") pyplot_show
  ∧ plt_show (enable_autosave_plots m "fig" (VStr "plots") fresh_world).2
    = show_and_save "fig" (PurePath.parse "plots") pyplot_show.
Proof.
  intros m w_env.
  destruct (C7_default_dirs m "fig" sample_df "sample" 20 fresh_world)
    as (Hvis & Hvis' & Hart & _ & _ & _ & _ & Hstr & _).
  destruct (C7_default_dirs m "fig" sample_df "sample" 20 w_env)
    as (_ & _ & _ & _ & _ & _ & Hnone & _).
  split_and!.
  - apply Hvis. reflexivity.
  - apply Hart. reflexivity.
  - apply Hvis'. reflexivity.
  - apply Hnone. vm_compute. reflexivity.
  - apply Hstr; [discriminate|]. vm_compute. reflexivity.
Defined.


Lemma C9_falsy_output_dir_witness :
  let m := import_module fresh_world in
  truthy (VStr "") = false
  ∧ enable_autosave_plots m "fig" (VStr "") fresh_world
    = enable_autosave_plots m "fig" VNone fresh_world
  ∧ (save_dataframe_preview m sample_df "sample" 20 (VStr "") fresh_world).1
    = Ok "results/artifacts/sample_preview.csv".
Proof.
  intros m.
  destruct (C9_falsy_output_dir m "fig" sample_df "sample" 20 (VStr "") fresh_world eq_refl)
    as (Henable & Hsave & _).
  split_and!; [reflexivity|exact Henable|].
  rewrite Hsave. vm_compute. reflexivity.
Defined.

Lemma C10_failed_save_keeps_index_witness :
  let broken := MkCall [] ∅ "20240101-120001" (MkFigure "B" (Some (RuntimeError "boom"))) in
  let next := MkCall [] ∅ "20240101-120002" (MkFigure "C" None) in
  let w' := (invoke show_returns_None broken eda_world).2 in
  plt_show eda_world
    = show_and_save "eda" (PurePath.parse "results/visualizations") pyplot_show
  ∧ (Plt.savefig (call_figure broken)
       (plot_path "eda" (PurePath.parse "results/visualizations") (call_kwargs broken)
                  (at_call broken eda_world))
       200 "tight" (at_call broken eda_world)).1 = Raise (RuntimeError "boom")
  ∧ fs w' = fs eda_world
  ∧ (next_index (PurePath.parse "results/visualizations") (at_call next w')).1 = Ok 0.
Proof.
  intros broken next w'.
  assert (H1 : plt_show eda_world
               = show_and_save "eda" (PurePath.parse "results/visualizations") pyplot_show)
    by (vm_compute; reflexivity).
  assert (H2 : (Plt.savefig (call_figure broken)
                  (plot_path "eda" (PurePath.parse "results/visualizations")
                             (call_kwargs broken) (at_call broken eda_world))
                  200 "tight" (at_call broken eda_world)).1 = Raise (RuntimeError "boom"))
    by reflexivity.
  destruct (C10_failed_save_keeps_index show_returns_None "eda"
              (PurePath.parse "results/visualizations") broken next eda_world
              (RuntimeError "boom") H1 H2) as (Hfs & _ & Hidx).
  split_and!; [exact H1|exact H2|exact Hfs|].
  fold w' in Hidx. rewrite Hidx. vm_compute. reflexivity.
Defined.
(** ** Further properties: directories *)

Lemma wf_exists_ancestor (f : FS) (a : bool) (c : string) (l r : list string) :
  Fs.wf f → Fs.exists_ f (MkPath a (c :: l ++ r)) = true →
  Fs.is_dir f (MkPath a r) = true.
Proof.
  intros Hwf Hex. unfold Fs.exists_ in Hex. simpl in Hex.
  destruct (f !! MkPath a (c :: l ++ r)) as [x|] eqn:E; [|done].
  destruct (Hwf _ (mk_is_Some _ _ E)) as [_ Hpar].
  by apply (wf_ancestor f a l r Hwf).
Qed.

(** The first system call already fails on a blocked path. *)
Lemma mkdir_parents_blocked (a : bool) (l r : list string) (f : FS) :
  Fs.wf f →
  Fs.exists_ f (MkPath a r) = true → Fs.is_dir f (MkPath a r) = false →
  Pathlib.mkdir_parents true a (l ++ r) f
    = (Raise (match l with [] => FileExistsError | _ => NotADirectoryError end), f).
Proof.
  intros Hwf Hex Hnd. destruct l as [|c l].
  - assert (E : Fs.os_mkdir f (MkPath a r) = Raise FileExistsError).
    { unfold Fs.os_mkdir. by rewrite Hex. }
    destruct r; simpl; rewrite ?E, ?Hnd; [|done].
    unfold Fs.is_dir in Hnd. done.
  - assert (Hnex : Fs.exists_ f (MkPath a (c :: l ++ r)) = false).
    { destruct (Fs.exists_ f (MkPath a (c :: l ++ r))) eqn:E; [|done].
      apply wf_exists_ancestor in E; [|done]. congruence. }
    assert (Hnd' : Fs.is_dir f (MkPath a (c :: l ++ r)) = false).
    { destruct (Fs.is_dir f (MkPath a (c :: l ++ r))) eqn:E; [|done].
      apply is_dir_exists in E. congruence. }
    assert (Hpd : Fs.is_dir f (MkPath a (l ++ r)) = false).
    { destruct (Fs.is_dir f (MkPath a (l ++ r))) eqn:E; [|done].
      apply (wf_ancestor f a l r Hwf) in E. congruence. }
    change ((c :: l) ++ r) with (c :: l ++ r). simpl.
    unfold Fs.os_mkdir at 1. rewrite Hnex. unfold Fs.check_parent, Fs.no_dir_error.
    change (PurePath.parent (MkPath a (c :: l ++ r))) with (MkPath a (l ++ r)).
    rewrite Hpd. simpl. rewrite (under_file_app f a l r Hex Hnd). by rewrite Hnd'.
Qed.

(** X1. [_ensure_dir] on a path that is blocked: when the path itself is
    there as something other than a directory it raises
    [FileExistsError]; when a proper ancestor is, it raises
    [NotADirectoryError]; in both cases nothing is created. *)
Theorem X1_ensure_dir_blocked (v : pyval) (p : Path) (l r : list string) (w : world) :
  Fs.wf (fs w) →
  Pathlib.Path_ v w = (Ok p, w) →
  rparts p = l ++ r →
  Fs.exists_ (fs w) (MkPath (anchored p) r) = true →
  Fs.is_dir (fs w) (MkPath (anchored p) r) = false →
  _ensure_dir v w
    = (Raise (match l with [] => FileExistsError | _ => NotADirectoryError end), w).
Proof.
  intros Hwf Hp Hlr Hex Hnd. rewrite (ensure_dir_unfold v p w Hp), Hlr.
  by rewrite (mkdir_parents_blocked _ l r _ Hwf Hex Hnd), set_fs_id.
Qed.



(** ** Further properties: the closure *)

Lemma write_file_Ok (f f' : FS) (p : Path) (c : content) :
  Fs.write_file f p c = Ok f' → f' = <[p := File c]> f.
Proof.
  unfold Fs.write_file. destruct (Fs.is_dir f p); [done|].
  destruct (Fs.check_parent f p); [|done]. by intros [= <-].
Qed.

Lemma warn_line_ne_saved_line (e : exn) (p : Path) : warn_line e ≠ saved_line p.
Proof.
  intros E. apply (f_equal is_saved_line) in E.
  by rewrite warn_line_not_saved, saved_line_is_saved in E.
Qed.

(** The plot path keeps the output directory as a proper ancestor. *)
Lemma joinpath_plot_name (vis_dir : Path) (idx : nat) (prefix : string) (hint : pyval)
    (ts : string) :
  ∃ c l, vis_dir // plot_name idx prefix hint ts
         = MkPath (anchored vis_dir) (c :: l ++ rparts vis_dir).
Proof.
  destruct (parse_plot_name idx prefix hint ts) as (c1 & l & Hparse & _).
  unfold PurePath.joinpath. rewrite Hparse. simpl.
  destruct l as [|c l].
  - by exists c1, [].
  - exists c, (l ++ [c1]). by rewrite <- !app_assoc.
Qed.

Section ClosureFacts.

Variable R : list pyval → gmap string pyval → result pyval.

(** X3. One call of the wrapper (installed over the library's show) either
    writes exactly one file - the current figure, at 200 dpi with a tight
    bounding box, under the path it reports - or writes nothing and prints a
    warning, or, when the save raises an exception that is no [Exception],
    writes nothing, prints nothing and raises it; no other entry of the file
    system is touched. *)
Theorem X3_save_writes_one_file (prefix : string) (vis_dir : Path) (args : list pyval)
    (kwargs : gmap string pyval) (w : world) :
  let r := call_show R (show_and_save prefix vis_dir pyplot_show) args kwargs w in
  let path := plot_path prefix vis_dir kwargs w in
  (savefig_fault (gcf w) = None
   ∧ stdout r.2 = stdout w ++ [saved_line path]
   ∧ fs r.2 = <[path := File (PNG (fig_label (gcf w)) 200 "tight")]> (fs w))
  ∨ (∃ e, is_Exception e = true
          ∧ (Plt.savefig (gcf w) path 200 "tight" w).1 = Raise e
          ∧ stdout r.2 = stdout w ++ [warn_line e] ∧ fs r.2 = fs w)
  ∨ (∃ b, is_Exception b = false ∧ savefig_fault (gcf w) = Some b ∧ r = (Raise b, w)).
Proof.
  intros r path. unfold r. rewrite call_show_and_save.
  destruct (escapes (savefig_fault (gcf w))) as [b|] eqn:Hesc.
  { right. right. exists b. by destruct (escapes_Some _ _ Hesc). }
  rewrite call_pyplot_show. simpl.
  destruct (after_save_cases prefix vis_dir kwargs w Hesc)
    as [(e & He & Hfail & ->)|(f' & Hn & Hw & ->)].
  - right. left. by exists e.
  - left. apply write_file_Ok in Hw. by subst f'.
Qed.

(** X8. Whatever the prefix, the hint and the time stamp, the path of a
    plot is the output directory followed by at least one component: the
    file name cannot turn the path into an absolute one or into the
    directory itself. *)
Theorem X8_plot_path_below_vis_dir (prefix : string) (vis_dir : Path)
    (kwargs : gmap string pyval) (w : world) :
  ∃ c l, plot_path prefix vis_dir kwargs w
         = MkPath (anchored vis_dir) (c :: l ++ rparts vis_dir).
Proof. apply joinpath_plot_name. Qed.

Lemma under_file_missing (f : FS) (a : bool) (l rp : list string) :
  Fs.wf f → Fs.exists_ f (MkPath a rp) = false →
  Fs.under_file f a (l ++ rp) = Fs.under_file f a rp.
Proof.
  intros Hwf Hex. induction l as [|c l IH]; [done|]. simpl. rewrite IH.
  destruct (Fs.exists_ f (MkPath a (c :: l ++ rp))) eqn:E; [|done].
  apply wf_exists_ancestor, is_dir_exists in E; [|done]. congruence.
Qed.

(** X9. When the output directory is no longer there at the time of a
    call (and the path of the plot is one of plain names), the index is 0
    and the save fails: with the figure's own error, else with
    [NotADirectoryError] when the path leads through a regular file and
    [FileNotFoundError] when it does not.  The directory is not made
    again.  A failure that is an [Exception] is reported by a warning and
    the library's show is still called; any other is raised. *)
Theorem X9_missing_directory (prefix : string) (vis_dir : Path) (args : list pyval)
    (kwargs : gmap string pyval) (w : world) :
  Fs.wf (fs w) →
  Fs.exists_ (fs w) vis_dir = false →
  Fs.plain_path (plot_path prefix vis_dir kwargs w) = true →
  let kwargs' := delete "name_hint" kwargs in
  let e := default (Fs.no_dir_error (fs w) vis_dir) (savefig_fault (gcf w)) in
  next_index vis_dir w = (Ok 0, w)
  ∧ (Plt.savefig (gcf w) (plot_path prefix vis_dir kwargs w) 200 "tight" w).1 = Raise e
  ∧ call_show R (show_and_save prefix vis_dir pyplot_show) args kwargs w
    = if is_Exception e
      then (R args kwargs',
            set_displayed (displayed w ++ [(args, kwargs')])
                          (set_stdout (stdout w ++ [warn_line e]) w))
      else (Raise e, w).
Proof.
  intros Hwf Hex _ kwargs' e.
  assert (Hnd : Fs.is_dir (fs w) vis_dir = false).
  { destruct (Fs.is_dir (fs w) vis_dir) eqn:E; [|done]. apply is_dir_exists in E. congruence. }
  assert (Hcount : png_count w vis_dir = 0) by (unfold png_count; by rewrite Hnd).
  split; [by rewrite next_index_eq, Hcount|].
  assert (Hfail : Plt.savefig (gcf w) (plot_path prefix vis_dir kwargs w) 200 "tight" w
                  = (Raise e, w)).
  { unfold Plt.savefig, raise, lift_fs, e.
    destruct (savefig_fault (gcf w)) as [e'|]; [done|]. simpl.
    destruct (joinpath_plot_name vis_dir (png_count w vis_dir) prefix
                (default (VStr "plot") (kwargs !! "name_hint")) (clock w)) as (c & l & Hpath).
    unfold plot_path. rewrite Hpath.
    destruct vis_dir as [a rp]. simpl in *.
    assert (Hself : Fs.is_dir (fs w) (MkPath a (c :: l ++ rp)) = false).
    { destruct (Fs.is_dir (fs w) (MkPath a (c :: l ++ rp))) eqn:E; [|done].
      apply is_dir_exists, wf_exists_ancestor in E; [|done].
      apply is_dir_exists in E. congruence. }
    unfold Fs.write_file, Fs.check_parent. rewrite Hself.
    change (PurePath.parent (MkPath a (c :: l ++ rp))) with (MkPath a (l ++ rp)).
    assert (Hpd : Fs.is_dir (fs w) (MkPath a (l ++ rp)) = false).
    { destruct (Fs.is_dir (fs w) (MkPath a (l ++ rp))) eqn:E; [|done].
      apply (wf_ancestor _ a l rp Hwf) in E. congruence. }
    rewrite Hpd. unfold Fs.no_dir_error. simpl.
    by rewrite (under_file_missing _ a l rp Hwf Hex). }
  split; [by rewrite Hfail|].
  rewrite call_show_and_save. unfold after_save. rewrite Hfail.
  destruct (savefig_fault (gcf w)) as [e'|] eqn:Hf; simpl.
  - unfold e. simpl. by destruct (is_Exception e').
  - assert (He : is_Exception e = true).
    { unfold e. simpl. by destruct (no_dir_error_cases (fs w) vis_dir) as [-> | ->]. }
    by rewrite He.
Qed.

Lemma call_show_displayed (prefix : string) (vis_dir : Path) (orig : show_fn)
    (args : list pyval) (kwargs : gmap string pyval) (w : world) :
  displayed (call_show R (show_and_save prefix vis_dir orig) args kwargs w).2
  = displayed w ++ match escapes (savefig_fault (gcf w)) with
                   | None => [(args, delete "name_hint" kwargs)]
                   | Some _ => []
                   end.
Proof.
  destruct (escapes (savefig_fault (gcf w))) as [b|] eqn:Hesc.
  { rewrite call_show_and_save, Hesc. simpl. by rewrite app_nil_r. }
  destruct (call_show_attempts R (show_and_save prefix vis_dir orig) args kwargs w Hesc)
    as (Hcall & _). rewrite Hcall. reflexivity.
Qed.

(** X12. With a wrapper installed (or several, stacked), the library's
    show receives the calls of a session that get past the save - all but
    those whose save raises an exception that is no [Exception] - one for
    one and in order, each with its positional arguments and its keyword
    arguments without [name_hint]; and after the session [plt.show] is
    still the same wrapper. *)
Theorem X12_display_history (prefix : string) (vis_dir : Path) (orig : show_fn)
    (cs : list call) (w : world) :
  plt_show w = show_and_save prefix vis_dir orig →
  displayed (session R cs w)
  = displayed w ++ map (λ c, (call_args c, delete "name_hint" (call_kwargs c)))
                       (filter (λ c, reaches_show c = true) cs)
  ∧ plt_show (session R cs w) = plt_show w.
Proof.
  revert w. induction cs as [|c cs IH]; intros w Hshow; simpl.
  - by rewrite app_nil_r.
  - pose proof (call_show_frame R (plt_show w) (call_args c) (call_kwargs c) (at_call c w))
      as (Hs & _). simpl in Hs.
    pose proof (call_show_displayed prefix vis_dir orig (call_args c) (call_kwargs c)
                                    (at_call c w)) as Hd.
    rewrite <- Hshow in Hd. simpl in Hd.
    rewrite <- invoke_eq in Hs, Hd.
    destruct (IH (invoke R c w).2) as [Hd' Hs']; [by rewrite Hs|].
    rewrite Hd', Hs', Hd, Hs, <- app_assoc. split; [|done]. f_equal.
    destruct (escapes (savefig_fault (call_figure c))) as [b|] eqn:Hesc.
    + rewrite filter_cons_False; [done|]. unfold reaches_show. by rewrite Hesc.
    + rewrite filter_cons_True; [done|]. unfold reaches_show. by rewrite Hesc.
Qed.

(** X4. In a stack of two wrappers only the outer one sees the hint: the
    inner wrapper is called without [name_hint], so the file it saves is
    always named with the default hint [plot].  (A save that raises an
    exception that is no [Exception] ends the call in the outer wrapper.) *)
Theorem X4_inner_wrapper_default_hint (prefix1 prefix2 : string) (dir1 dir2 : Path)
    (orig : show_fn) (args : list pyval) (kwargs : gmap string pyval) (w : world) :
  let w1 := after_save prefix1 dir1 kwargs w in
  let kwargs' := delete "name_hint" kwargs in
  call_show R (show_and_save prefix1 dir1 (show_and_save prefix2 dir2 orig)) args kwargs w
  = match escapes (savefig_fault (gcf w)) with
    | Some b => (Raise b, w)
    | None => call_show R orig args kwargs' (after_save prefix2 dir2 kwargs' w1)
    end
  ∧ plot_path prefix2 dir2 kwargs' w1
    = dir2 // plot_name (png_count w1 dir2) prefix2 (VStr "plot") (clock w).
Proof.
  intros w1 kwargs'.
  destruct (after_save_frame prefix1 dir1 kwargs w) as (_ & _ & Hc & Hg & _).
  fold w1 in Hc, Hg. split.
  - rewrite call_show_and_save.
    destruct (escapes (savefig_fault (gcf w))) as [b|] eqn:Hesc; [done|].
    fold w1. rewrite call_show_and_save, Hg, Hesc. by rewrite delete_delete_eq.
  - unfold plot_path, kwargs'. rewrite lookup_delete_eq. simpl. by rewrite Hc.
Qed.

End ClosureFacts.

(** ** Further properties: table previews and defaults *)

Lemma ensure_dir_Ok (v : pyval) (p : Path) (w w1 : world) :
  Fs.wf (fs w) → _ensure_dir v w = (Ok p, w1) →
  Pathlib.Path_ v w = (Ok p, w) ∧ Fs.wf (fs w1) ∧ Fs.is_dir (fs w1) p = true ∧
  ∃ f', w1 = set_fs f' w.
Proof.
  intros Hwf He.
  destruct (ensure_dir_cases v w) as [(e & f1 & E & _)|(q & f' & Hq & Hmk & E)];
    rewrite E in He; [done|]. injection He as <- <-.
  destruct (mkdir_parents_spec _ _ _ _ _ Hwf Hmk) as (Hwf' & Hd & _).
  split_and!; [done|done| |by exists f']. by destruct q.
Qed.

Lemma ensure_dir_again (v : pyval) (p : Path) (w : world) :
  (∀ w0, Pathlib.Path_ v w0 = (Ok p, w0)) → Fs.is_dir (fs w) p = true →
  _ensure_dir v w = (Ok p, w).
Proof.
  intros Hp Hd. rewrite (ensure_dir_unfold v p w (Hp w)).
  rewrite mkdir_parents_is_dir by by destruct p. by rewrite set_fs_id.
Qed.

(** X5. A second preview under the same name replaces the first: when the
    first call has written its file (which its report line says), a second
    call for a table that can be serialised returns the same path, reports
    the save and leaves the file system as if only the second table had ever
    been written. *)
Theorem X5_preview_overwrites (m : globals) (df1 df2 : DataFrame) (name : string)
    (n1 n2 : Z) (output_dir : pyval) (w w0 : world) (art_dir : Path) :
  Fs.wf (fs w) →
  _ensure_dir (py_or output_dir (VPath (DEFAULT_ARTIFACTS_DIR m))) w = (Ok art_dir, w0) →
  let out_csv := art_dir // (name +:+ "_preview.csv") in
  let w1 := (save_dataframe_preview m df1 name n1 output_dir w).2 in
  let r2 := save_dataframe_preview m df2 name n2 output_dir w1 in
  stdout w1 = stdout w ++ [saved_table_line out_csv] →
  to_csv_fault df2 = None →
  r2.1 = Ok (PurePath.str out_csv)
  ∧ stdout r2.2 = stdout w1 ++ [saved_table_line out_csv]
  ∧ last (stdout r2.2) = Some (saved_table_line out_csv)
  ∧ fs r2.2 = <[out_csv := File (CSV (Pandas.csv_table (Pandas.head n2 df2) false))]> (fs w0).
Proof.
  intros Hwf He out_csv w1 r2 Hsaved Hfault.
  destruct (ensure_dir_Ok _ _ _ _ Hwf He) as (Hp & Hwf0 & Hd0 & f0 & Hw0).
  assert (Hout0 : stdout w0 = stdout w) by by rewrite Hw0.
  destruct (Path_pure _ _ _ _ Hp) as [_ Hpure].
  assert (E1 : ∃ f', Fs.write_file (fs w0) out_csv
                       (CSV (Pandas.csv_table (Pandas.head n1 df1) false)) = Ok f'
                     ∧ w1 = set_stdout (stdout w0 ++ [saved_table_line out_csv])
                                       (set_fs f' w0)).
  { unfold w1 in *. rewrite save_preview_unfold, He in *. cbv zeta in *.
    fold out_csv in Hsaved |- *.
    destruct (Pandas.to_csv (Pandas.head n1 df1) out_csv false w0) as [r w'] eqn:E.
    apply to_csv_world in E as [(e & -> & -> & _)|(-> & _ & f' & Hw & ->)].
    - exfalso. destruct (is_Exception e); simpl in Hsaved; rewrite Hout0 in Hsaved.
      + apply app_inv_head in Hsaved. apply (warn_table_not_saved e out_csv). congruence.
      + apply (f_equal length) in Hsaved. rewrite length_app in Hsaved. simpl in Hsaved. lia.
    - by exists f'. }
  destruct E1 as (f' & Hw & E1). unfold r2. clear r2 Hsaved. rewrite E1. clear E1 w1.
  destruct (wf_write_file _ _ _ _ Hwf0 Hw) as (-> & Hpar & Hnd & Hwf').
  assert (Hne : out_csv ≠ art_dir) by (intros E; congruence).
  assert (Hroot : Fs.is_root out_csv = false).
  { unfold Fs.is_dir in Hnd. by apply orb_false_iff in Hnd as [? _]. }
  set (f1 := <[out_csv := File _]> (fs w0)).
  set (w1 := set_stdout _ (set_fs f1 w0)).
  assert (Hd1 : Fs.is_dir (fs w1) art_dir = true).
  { simpl. unfold f1. by rewrite is_dir_insert_ne. }
  rewrite save_preview_unfold, (ensure_dir_again _ art_dir w1 Hpure Hd1). fold out_csv.
  cbv zeta. unfold Pandas.to_csv.
  change (to_csv_fault (Pandas.head n2 df2)) with (to_csv_fault df2).
  rewrite Hfault. unfold lift_fs, Fs.write_file, Fs.check_parent.
  assert (Fs.is_dir (fs w1) out_csv = false) as ->.
  { simpl. unfold f1, Fs.is_dir. by rewrite Hroot, lookup_insert_eq. }
  assert (Fs.is_dir (fs w1) (PurePath.parent out_csv) = true) as ->.
  { simpl. unfold f1. rewrite is_dir_insert_ne; [done|].
    intros E. by apply (parent_ne out_csv). }
  simpl. split_and!; [done|done|by rewrite last_snoc|].
  unfold f1. by rewrite insert_insert_eq.
Qed.

(** X6. For [n >= 0] a preview that is written holds the header and the
    first [n] rows of the table, in order - all of them when there are
    fewer, none but the header when [n = 0] - and never the index labels. *)
Theorem X6_preview_first_rows (m : globals) (df : DataFrame) (name : string) (n : Z)
    (output_dir : pyval) (w w0 : world) (art_dir : Path) :
  (0 ≤ n)%Z →
  _ensure_dir (py_or output_dir (VPath (DEFAULT_ARTIFACTS_DIR m))) w = (Ok art_dir, w0) →
  let out_csv := art_dir // (name +:+ "_preview.csv") in
  let w' := (save_dataframe_preview m df name n output_dir w).2 in
  stdout w' = stdout w ++ [saved_table_line out_csv] →
  ∃ rows, fs w' !! out_csv = Some (File (CSV (columns df :: rows)))
          ∧ rows = map snd (take (Z.to_nat n) (records df))
          ∧ length rows = Nat.min (Z.to_nat n) (length (records df)).
Proof.
  intros Hn He out_csv w'. unfold w'. rewrite save_preview_unfold, He. cbv zeta.
  fold out_csv.
  destruct (ensure_dir_stdout _ _ _ _ He) as [f0 Hw0].
  assert (Hout0 : stdout w0 = stdout w) by by rewrite Hw0.
  destruct (Pandas.to_csv (Pandas.head n df) out_csv false w0) as [r w1] eqn:E.
  apply to_csv_world in E as [(e & -> & -> & _)|(-> & _ & f' & Hw & ->)]; simpl.
  { intros Hsaved. exfalso.
    destruct (is_Exception e); simpl in Hsaved; rewrite Hout0 in Hsaved.
    - apply app_inv_head in Hsaved. apply (warn_table_not_saved e out_csv). congruence.
    - apply (f_equal length) in Hsaved. rewrite length_app in Hsaved. simpl in Hsaved. lia. }
  intros _. apply write_file_Ok in Hw. subst f'. rewrite lookup_insert_eq.
  unfold Pandas.head, Pandas.csv_table. simpl.
  destruct (Z.leb_spec 0 n); [|lia].
  eexists. split_and!; [done..|]. by rewrite length_map, length_take.
Qed.

Lemma starts_with_app (p s t : string) :
  Str.starts_with p s = true → Str.starts_with p (s +:+ t) = true.
Proof.
  revert s. induction p as [|a p IH]; intros s; [done|].
  destruct s as [|b s]; [done|]. rewrite app_String. simpl.
  intros [-> Hs]%andb_true_iff. by rewrite (IH s Hs).
Qed.

(** X7. The name of a preview is not checked: a name that starts with [/]
    makes the destination an absolute path, whatever the output directory,
    and that path is what the call returns (what it raises instead, if
    anything, is an exception of the write that is no [Exception]). *)
Theorem X7_preview_name_absolute (m : globals) (df : DataFrame) (name : string) (n : Z)
    (output_dir : pyval) (w w0 : world) (art_dir : Path) :
  Str.starts_with "/" name = true →
  _ensure_dir (py_or output_dir (VPath (DEFAULT_ARTIFACTS_DIR m))) w = (Ok art_dir, w0) →
  let out_csv := PurePath.parse (name +:+ "_preview.csv") in
  art_dir // (name +:+ "_preview.csv") = out_csv
  ∧ anchored out_csv = true
  ∧ (save_dataframe_preview m df name n output_dir w).1
    = match escapes (to_csv_fault df) with
      | Some b => Raise b
      | None => Ok (PurePath.str out_csv)
      end.
Proof.
  intros Hname He out_csv.
  assert (Ha : anchored out_csv = true).
  { unfold out_csv, PurePath.parse.
    change (Str.starts_with "/" (name +:+ "_preview.csv") = true).
    by apply starts_with_app. }
  assert (Hj : art_dir // (name +:+ "_preview.csv") = out_csv).
  { unfold PurePath.joinpath. fold out_csv. by rewrite Ha. }
  split_and!; [done..|]. rewrite (save_preview_answer _ _ _ _ _ _ _ _ He). by rewrite Hj.
Qed.

(** X11. A variable that is set but empty is not the same as an unset
    one: with [NBX_VIS_DIR] empty the default directory is the working
    directory [.], so that enabling autosave without [output_dir] succeeds,
    creates nothing and makes the wrapper save there; likewise
    [NBX_ARTIFACTS_DIR]. *)
Theorem X11_empty_environment_variable (w0 : world) (prefix : string) (w : world) :
  (environ w0 !! "NBX_VIS_DIR" = Some "" →
   DEFAULT_VIS_DIR (import_module w0) = MkPath false []
   ∧ enable_autosave_plots (import_module w0) prefix VNone w
     = (Ok tt,
        set_stdout (stdout w ++ ["[autosave] matplotlib.pyplot.show patched -> ."])
                   (set_plt_show (show_and_save prefix (MkPath false []) (plt_show w)) w)))
  ∧ (environ w0 !! "NBX_ARTIFACTS_DIR" = Some "" →
     DEFAULT_ARTIFACTS_DIR (import_module w0) = MkPath false []).
Proof.
  split.
  - intros Henv.
    assert (Hd : DEFAULT_VIS_DIR (import_module w0) = MkPath false []).
    { unfold import_module, environ_get. simpl. by rewrite Henv. }
    split; [done|]. rewrite enable_unfold, Hd.
    change (py_or VNone (VPath (MkPath false []))) with (VPath (MkPath false [])).
    by rewrite (ensure_dir_again _ (MkPath false []) w).
  - intros Henv. unfold import_module, environ_get. simpl. by rewrite Henv.
Qed.

(** ** Further properties: the checkpoint copy against the module *)

Lemma makedirs_from_cons (eo a : bool) (c : string) (rp : list string) (f : FS) :
  Makedirs.makedirs_from eo a (c :: rp) f
  = match (if negb (Fs.exists_ f (MkPath a rp)) then
             match Makedirs.makedirs_from eo a rp f with
             | (Raise FileExistsError, f1) => (Ok tt, f1)
             | r => r
             end
           else (Ok tt, f)) with
    | (Raise e, f1) => (Raise e, f1)
    | (Ok _, f1) =>
        match Fs.os_mkdir f1 (MkPath a (c :: rp)) with
        | Ok f2 => (Ok tt, f2)
        | Raise e =>
            if eo && Fs.is_dir f1 (MkPath a (c :: rp)) then (Ok tt, f1) else (Raise e, f1)
        end
    end.
Proof. reflexivity. Qed.

Lemma exists_false_is_dir (f : FS) (p : Path) :
  Fs.exists_ f p = false → Fs.is_dir f p = false.
Proof.
  intros Hex. destruct (Fs.is_dir f p) eqn:E; [|done].
  apply is_dir_exists in E. congruence.
Qed.

Lemma wf_child_missing (f : FS) (a : bool) (c : string) (rp : list string) :
  Fs.wf f → Fs.exists_ f (MkPath a rp) = false →
  Fs.exists_ f (MkPath a (c :: rp)) = false.
Proof.
  intros Hwf Hex. destruct (Fs.exists_ f (MkPath a (c :: rp))) eqn:E; [|done].
  apply (wf_exists_ancestor f a c [] rp Hwf) in E. apply is_dir_exists in E. congruence.
Qed.

Lemma under_file_blocker (f : FS) (a : bool) (rp : list string) :
  Fs.under_file f a rp = true →
  ∃ l r, rp = l ++ r ∧ Fs.exists_ f (MkPath a r) = true ∧ Fs.is_dir f (MkPath a r) = false.
Proof.
  induction rp as [|c rp IH]; [done|]. simpl.
  intros [[Hex Hnd]%andb_true_iff|Hrest]%orb_true_iff.
  - exists [], (c :: rp). split_and!; [done|done|]. by destruct (Fs.is_dir f _).
  - destruct (IH Hrest) as (l & r & -> & Hex & Hnd). by exists (c :: l), r.
Qed.

(** Making a path that is not there never fails for its being there. *)
Lemma mkdir_parents_not_FileExists (a : bool) (rp : list string) (f f' : FS) :
  Fs.wf f → Fs.exists_ f (MkPath a rp) = false →
  Pathlib.mkdir_parents true a rp f ≠ (Raise FileExistsError, f').
Proof.
  intros Hwf. revert f'. induction rp as [|c rp IH]; intros f' Hex; [done|]. simpl.
  unfold Fs.os_mkdir at 1. rewrite Hex. unfold Fs.check_parent.
  change (PurePath.parent (MkPath a (c :: rp))) with (MkPath a rp).
  destruct (Fs.is_dir f (MkPath a rp)) eqn:Hpd; [done|].
  unfold Fs.no_dir_error. simpl.
  destruct (Fs.under_file f a rp) eqn:Hu.
  - by rewrite (exists_false_is_dir _ _ Hex).
  - assert (Hpex : Fs.exists_ f (MkPath a rp) = false).
    { destruct rp as [|c' rp]; [done|]. simpl in Hu.
      apply orb_false_iff in Hu as [Hu _]. rewrite Hpd in Hu.
      by destruct (Fs.exists_ f (MkPath a (c' :: rp))). }
    destruct (Pathlib.mkdir_parents true a rp f) as [[[]|e] f1] eqn:E1.
    + destruct (mkdir_parents_spec _ _ _ _ _ Hwf E1) as (_ & Hd1 & _ & Hsame).
      by rewrite (mkdir_once_after_parent true a c rp f f1).
    + intros [= -> ->]. by apply (IH f' Hpex).
Qed.

(** On a well-formed tree [os.makedirs(.., exist_ok=True)] and
    [Path.mkdir(parents=True, exist_ok=True)] do the same. *)
Lemma makedirs_mkdir_parents (a : bool) (rp : list string) (f : FS) :
  Fs.wf f →
  Makedirs.makedirs_from true a rp f = Pathlib.mkdir_parents true a rp f.
Proof.
  intros Hwf. induction rp as [|c rp IH].
  - done.
  - rewrite makedirs_from_cons. simpl.
    destruct (Fs.exists_ f (MkPath a rp)) eqn:Hpex; simpl.
    + destruct (Fs.os_mkdir f (MkPath a (c :: rp))) as [f1|e] eqn:E; [done|].
      assert (e ≠ FileNotFoundError) as Hne.
      { intros ->. unfold Fs.os_mkdir, Fs.check_parent in E.
        change (PurePath.parent (MkPath a (c :: rp))) with (MkPath a rp) in E.
        destruct (Fs.exists_ f (MkPath a (c :: rp))); [done|].
        destruct (Fs.is_dir f (MkPath a rp)) eqn:Hpd; [done|].
        by rewrite (no_dir_error_file _ _ Hpex Hpd) in E. }
      by destruct e.
    + pose proof (wf_child_missing f a c rp Hwf Hpex) as Hex.
      pose proof (exists_false_is_dir _ _ Hpex) as Hpd.
      pose proof (exists_false_is_dir _ _ Hex) as Hnd.
      assert (E : Fs.os_mkdir f (MkPath a (c :: rp))
                  = Raise (if Fs.under_file f a rp then NotADirectoryError
                           else FileNotFoundError)).
      { unfold Fs.os_mkdir, Fs.check_parent. rewrite Hex.
        change (PurePath.parent (MkPath a (c :: rp))) with (MkPath a rp).
        by rewrite Hpd. }
      rewrite E, IH. clear E.
      destruct (Fs.under_file f a rp) eqn:Hu.
      * rewrite Hnd. simpl.
        destruct (under_file_blocker _ _ _ Hu) as (l & r & -> & Hrex & Hrnd).
        rewrite (mkdir_parents_blocked a l r f Hwf Hrex Hrnd).
        destruct l as [|c' l]; [|done]. simpl in Hpex. congruence.
      * pose proof (mkdir_parents_not_FileExists a rp f) as Hnfe.
        destruct (Pathlib.mkdir_parents true a rp f) as [[[]|e] f1] eqn:E1.
        -- destruct (mkdir_parents_spec _ _ _ _ _ Hwf E1) as (_ & Hd1 & _ & Hsame).
           rewrite (mkdir_once_after_parent true a c rp f f1) by done.
           unfold Fs.os_mkdir, Fs.check_parent.
           change (PurePath.parent (MkPath a (c :: rp))) with (MkPath a rp).
           assert (Fs.exists_ f1 (MkPath a (c :: rp)) = false) as ->.
           { unfold Fs.exists_ in *. rewrite Hsame; [done|simpl; lia]. }
           by rewrite Hd1.
        -- destruct e; try done. by destruct (Hnfe f1 Hwf Hpex).
Qed.

Lemma ensure_dir_copy_eq (d : string) (w : world) :
  Fs.wf (fs w) → d ≠ "" →
  CheckpointCopy._ensure_dir d w
  = match _ensure_dir (VStr d) w with
    | (Ok _, w') => (Ok tt, w')
    | (Raise e, w') => (Raise e, w')
    end.
Proof.
  intros Hwf Hd. unfold CheckpointCopy._ensure_dir, Makedirs.makedirs.
  destruct (String.eqb_spec d ""); [done|].
  rewrite (ensure_dir_unfold (VStr d) (PurePath.parse d) w eq_refl).
  rewrite (makedirs_mkdir_parents _ _ _ Hwf).
  by destruct (Pathlib.mkdir_parents _ _ _ _) as [[[]|e] f'].
Qed.

(** X14. The two versions of [_ensure_dir] agree in what they achieve:
    for a non-empty string that names a path of plain names the checkpoint
    copy ([os.makedirs]) and the module ([Path.mkdir]) leave the same file
    system, and the one returns exactly when the other does.  For the empty
    string they differ: the checkpoint copy raises [FileNotFoundError], the
    module takes it as the working directory. *)
Theorem X14_ensure_dir_versions_agree (d : string) (w : world) :
  Fs.wf (fs w) →
  (d ≠ "" → Fs.plain_path (PurePath.parse d) = true →
   (CheckpointCopy._ensure_dir d w).2 = (_ensure_dir (VStr d) w).2
   ∧ ((CheckpointCopy._ensure_dir d w).1 = Ok tt
      ↔ (_ensure_dir (VStr d) w).1 = Ok (PurePath.parse d)))
  ∧ CheckpointCopy._ensure_dir "" w = (Raise FileNotFoundError, w)
  ∧ _ensure_dir (VStr "") w = (Ok (MkPath false []), w).
Proof.
  intros Hwf. split_and!.
  - intros Hd _. rewrite (ensure_dir_copy_eq d w Hwf Hd).
    rewrite (ensure_dir_unfold (VStr d) (PurePath.parse d) w eq_refl).
    destruct (Pathlib.mkdir_parents _ _ _ _) as [[[]|e] f']; simpl; [done|].
    split; [done|]. split; intros [=].
  - done.
  - by rewrite (ensure_dir_again (VStr "") (MkPath false []) w).
Qed.

Lemma split_on_app_sep (c : ascii) (a s : string) :
  Str.contains c a = false →
  Str.split_on c (a +:+ String c s) = a :: Str.split_on c s.
Proof.
  induction a as [|b a IH].
  - intros _. change ("" +:+ String c s) with (String c s). simpl.
    by rewrite Ascii.eqb_refl.
  - simpl. intros [Hb Ha]%orb_false_iff.
    change (String b a +:+ String c s) with (String b (a +:+ String c s)).
    simpl. by rewrite Hb, (IH Ha).
Qed.

Lemma parse_dir_file (d s : string) :
  Str.contains "/" d = false → PurePath.keep d = true →
  Str.contains "/" s = false → PurePath.keep s = true →
  PurePath.parse (d +:+ "/" +:+ s) = MkPath false [s; d].
Proof.
  intros Hd Hkd Hs Hks. unfold PurePath.parse.
  change (d +:+ "/" +:+ s) with (d +:+ String "/" s).
  rewrite (split_on_app_sep _ _ _ Hd), (split_on_no_sep _ _ Hs).
  rewrite !filter_cons_True by done.
  assert (Str.starts_with "/" (d +:+ String "/" s) = false) as ->; [|done].
  destruct d as [|b d]; [done|].
  change (String b d +:+ String "/" s) with (String b (d +:+ String "/" s)).
  simpl in *. apply orb_false_iff in Hd as [-> _]. done.
Qed.

(** X16. For a name without a separator the two versions of
    [save_dataframe_preview] agree: the checkpoint copy does what the
    module does when called with [output_dir = "artifacts"] - the same
    file, the same output, the same returned string. *)
Theorem X16_preview_versions_agree (m : globals) (df : DataFrame) (name : string) (n : Z)
    (w : world) :
  Fs.wf (fs w) →
  Str.contains "/" name = false →
  CheckpointCopy.save_dataframe_preview df name n w
  = save_dataframe_preview m df name n (VStr "artifacts") w.
Proof.
  intros Hwf Hname.
  pose proof (ensure_dir_copy_eq "artifacts" w Hwf ltac:(done)) as He.
  rewrite save_preview_unfold.
  change (py_or (VStr "artifacts") (VPath (DEFAULT_ARTIFACTS_DIR m))) with (VStr "artifacts").
  unfold CheckpointCopy.save_dataframe_preview, bind at 1. rewrite He.
  destruct (ensure_dir_cases (VStr "artifacts") w)
    as [(e & f1 & -> & _)|(p & f' & Hp & _ & ->)]; [done|].
  injection Hp as <-.
  assert (Hs : Str.contains "/" (name +:+ "_preview.csv") = false)
    by by rewrite contains_app, Hname.
  assert (Hpath : PurePath.parse ("artifacts/" +:+ name +:+ "_preview.csv")
                  = PurePath.parse "artifacts" // (name +:+ "_preview.csv")).
  { change ("artifacts/" +:+ name +:+ "_preview.csv")
      with ("artifacts" +:+ "/" +:+ (name +:+ "_preview.csv")).
    rewrite (parse_dir_file "artifacts" _ eq_refl eq_refl Hs (keep_preview name)).
    unfold PurePath.joinpath. by rewrite (parse_file_name _ Hs (keep_preview name)). }
  assert (Hstr : "artifacts/" +:+ name +:+ "_preview.csv"
                 = PurePath.str (PurePath.parse "artifacts" // (name +:+ "_preview.csv"))).
  { by rewrite (str_joinpath_name _ _ Hs (keep_preview name)). }
  unfold bind, try_except. rewrite Hpath. simpl.
  destruct (Pandas.to_csv _ _ _ _) as [[[]|e] w2]; [|destruct (is_Exception e)];
    unfold print, update, ret; unfold saved_table_line, warn_table_line;
    by rewrite <- ?Hstr.
Qed.

(** X13. The checkpoint copy catches only [FileNotFoundError] when it
    lists its directory: when [visualizations] is there but is not a
    directory, a call of its wrapper raises [NotADirectoryError] before
    anything is printed and without calling the function it captured.  The
    module computes index 0 in the same situation. *)
Theorem X13_checkpoint_listing_error (prefix : string)
    (orig_show : list pyval → gmap string pyval → M pyval)
    (args : list pyval) (kwargs : gmap string pyval) (w : world) :
  Fs.exists_ (fs w) vis = true →
  Fs.is_dir (fs w) vis = false →
  CheckpointCopy.show_and_save prefix orig_show args kwargs w = (Raise NotADirectoryError, w)
  ∧ next_index vis w = (Ok 0, w).
Proof.
  intros Hex Hnd. split.
  - unfold CheckpointCopy.show_and_save, bind at 1. unfold Plt.gcf_, get.
    unfold bind at 1. unfold Time.strftime, get. unfold bind at 1.
    unfold Checkpoint.next_index, try_except_FileNotFoundError, bind, Os.listdir.
    fold vis. unfold Fs.listdir. by rewrite Hnd, (no_dir_error_file _ _ Hex Hnd).
  - rewrite next_index_eq. unfold png_count. by rewrite Hnd.
Qed.

(** ** Further properties: order of the names, stacked wrappers *)

Lemma compare_app_Lt (a b x y : string) :
  String.length a = String.length b → String.compare a b = Lt →
  String.compare (a +:+ x) (b +:+ y) = Lt.
Proof.
  revert b. induction a as [|c a IH]; intros [|d b]; try done.
  intros [= Hlen]. rewrite !app_String. simpl.
  destruct (Ascii.compare c d); try done. by apply IH.
Qed.

Lemma fmt_02d_ordered (i j : nat) :
  i < j → j < 100 →
  String.length (fmt_02d i) = String.length (fmt_02d j)
  ∧ String.compare (fmt_02d i) (fmt_02d j) = Lt.
Proof.
  intros Hij Hj.
  assert (H : fmt_02d_ordered_below 100 = true) by (vm_compute; reflexivity).
  unfold fmt_02d_ordered_below in H. rewrite forallb_forall in H.
  specialize (H j). rewrite forallb_forall in H.
  assert (Hi : In i (seq 0 j)) by (apply in_seq; lia).
  assert (Hj' : In j (seq 0 100)) by (apply in_seq; lia).
  specialize (H Hj' i Hi). apply andb_true_iff in H as [Hlen Hcmp].
  split; [by apply Nat.eqb_eq|]. by destruct (String.compare _ _).
Qed.

(** X10. The names of the first hundred plots sort in call order: for
    indices [i < j < 100] the name made for [i] comes before the name made
    for [j] in the order of strings, whatever prefixes, hints and time
    stamps they carry. *)
Theorem X10_names_sort_in_call_order (i j : nat) (prefix prefix' : string)
    (hint hint' : pyval) (ts ts' : string) :
  i < j → j < 100 →
  String.compare (plot_name i prefix hint ts) (plot_name j prefix' hint' ts') = Lt.
Proof.
  intros Hij Hj. destruct (fmt_02d_ordered i j Hij Hj) as [Hlen Hcmp].
  unfold plot_name. by apply compare_app_Lt.
Qed.

Section Stacked.

Variable R : list pyval → gmap string pyval → result pyval.

(** X15. Two wrappers stacked over the same output directory (autosave
    enabled twice), the directory holding [k] plots: when both saves of one
    call succeed, the outer wrapper writes the plot numbered [k] under the
    hint of the call and the inner one writes the same figure again,
    numbered [k + 1] and named with the default hint [plot]. *)
Theorem X15_stacked_wrappers_save_twice (prefix1 prefix2 : string) (vis_dir : Path)
    (k : nat) (names : list string) (args : list pyval) (kwargs : gmap string pyval)
    (w : world) (line1 line2 : string) :
  plots_dir vis_dir k names w →
  let f := show_and_save prefix1 vis_dir (show_and_save prefix2 vis_dir pyplot_show) in
  let w' := (call_show R f args kwargs w).2 in
  let name1 := plot_name k prefix1 (default (VStr "plot") (kwargs !! "name_hint")) (clock w) in
  let name2 := plot_name (S k) prefix2 (VStr "plot") (clock w) in
  stdout w' = stdout w ++ [line1; line2] →
  is_saved_line line1 = true → is_saved_line line2 = true →
  line1 = saved_line (child vis_dir name1)
  ∧ line2 = saved_line (child vis_dir name2)
  ∧ fs w' = <[child vis_dir name2 := File (PNG (fig_label (gcf w)) 200 "tight")]>
              (<[child vis_dir name1 := File (PNG (fig_label (gcf w)) 200 "tight")]> (fs w))
  ∧ plots_dir vis_dir (S (S k)) (name2 :: name1 :: names) w'.
Proof.
  intros Hpd f w' name1 name2. unfold w', f.
  rewrite call_show_and_save.
  destruct (escapes (savefig_fault (gcf w))) as [b|] eqn:Hesc.
  { simpl. intros E. apply (f_equal length) in E. rewrite length_app in E.
    simpl in E. lia. }
  destruct (after_save_frame prefix1 vis_dir kwargs w) as (_ & _ & _ & Hg1 & _).
  rewrite call_show_and_save, Hg1, Hesc, call_pyplot_show. simpl.
  set (kw' := delete "name_hint" kwargs).
  pose proof (plots_dir_count _ _ _ _ Hpd) as Hk.
  destruct (after_save_cases prefix1 vis_dir kwargs w Hesc)
    as [(e & _ & _ & He)|(f1 & _ & Hw1 & He)]; rewrite He in Hg1 |- *; clear He.
  { set (w1 := set_stdout _ w).
    assert (Hesc1 : escapes (savefig_fault (gcf w1)) = None) by done.
    destruct (after_save_frame prefix2 vis_dir kw' w1) as (_ & _ & _ & _ & _ & _ & Hl).
    destruct (Hl Hesc1) as [l ->]. simpl. rewrite <- app_assoc.
    intros E%app_inv_head. injection E as <- _.
    by rewrite warn_line_not_saved. }
  unfold plot_path in *. rewrite Hk in *. fold name1 in Hw1 |- *.
  destruct (plots_dir_write _ _ _ _ _ _ _ _ _ Hpd Hw1) as [Hjoin Hpd1].
  fold name1 in Hjoin, Hpd1.
  pose proof (write_file_Ok _ _ _ _ Hw1) as Hf1. rewrite Hjoin in Hf1 |- *.
  set (w1 := set_stdout _ (set_fs f1 w)).
  assert (Hesc1 : escapes (savefig_fault (gcf w1)) = None) by done.
  assert (Hpd1' : plots_dir vis_dir (S k) (name1 :: names) w1)
    by (by apply (plots_dir_frame _ _ _ (set_fs f1 w))).
  pose proof (plots_dir_count _ _ _ _ Hpd1') as Hk1.
  destruct (after_save_cases prefix2 vis_dir kw' w1 Hesc1)
    as [(e & _ & _ & ->)|(f2 & _ & Hw2 & ->)].
  { simpl. rewrite <- app_assoc. intros E%app_inv_head. injection E as _ <-.
    by rewrite warn_line_not_saved. }
  unfold plot_path in *. rewrite Hk1 in *. unfold kw' in Hw2 |- *.
  rewrite lookup_delete_eq in *. simpl in Hw2 |- *. fold name2 in Hw2 |- *.
  destruct (plots_dir_write _ _ _ _ _ _ _ _ _ Hpd1' Hw2) as [Hjoin2 Hpd2].
  fold name2 in Hjoin2, Hpd2.
  pose proof (write_file_Ok _ _ _ _ Hw2) as Hf2. rewrite Hjoin2 in Hf2 |- *.
  rewrite <- app_assoc. intros E%app_inv_head. injection E as <- <-. intros _ _.
  split_and!; [done|done|by rewrite Hf2, Hf1|].
  eapply plots_dir_frame; [|exact Hpd2]. done.
Qed.

End Stacked.

(** ** The further properties at concrete inputs *)

Lemma blocked_world_wf : Fs.wf (fs blocked_world).
Proof.
  change (Fs.wf (<[PurePath.parse "out" := File (CSV [])]> ∅)).
  apply wf_insert; [apply wf_empty|reflexivity|reflexivity|by left].
Qed.

Lemma X1_ensure_dir_blocked_witness :
  Pathlib.Path_ (VStr "out/plots") blocked_world
    = (Ok (PurePath.parse "out/plots"), blocked_world)
  ∧ Fs.exists_ (fs blocked_world) (MkPath false ["out"]) = true
  ∧ Fs.is_dir (fs blocked_world) (MkPath false ["out"]) = false
  ∧ _ensure_dir (VStr "out/plots") blocked_world = (Raise NotADirectoryError, blocked_world)
  ∧ _ensure_dir (VStr "out") blocked_world = (Raise FileExistsError, blocked_world).
Proof.
  assert (H1 : Fs.exists_ (fs blocked_world) (MkPath false ["out"]) = true)
    by (vm_compute; reflexivity).
  assert (H2 : Fs.is_dir (fs blocked_world) (MkPath false ["out"]) = false)
    by (vm_compute; reflexivity).
  split; [reflexivity|]. split; [exact H1|]. split; [exact H2|]. split.
  - exact (X1_ensure_dir_blocked (VStr "out/plots") (PurePath.parse "out/plots")
             ["plots"] ["out"] blocked_world blocked_world_wf eq_refl eq_refl H1 H2).
  - exact (X1_ensure_dir_blocked (VStr "out") (PurePath.parse "out")
             [] ["out"] blocked_world blocked_world_wf eq_refl eq_refl H1 H2).
Defined.


Lemma X5_preview_overwrites_witness :
  let m := import_module fresh_world in
  let r := _ensure_dir (py_or VNone (VPath (DEFAULT_ARTIFACTS_DIR m))) fresh_world in
  let out_csv := PurePath.parse "results/artifacts" // "sample_preview.csv" in
  let w1 := (save_dataframe_preview m sample_df "sample" 20 VNone fresh_world).2 in
  let r2 := save_dataframe_preview m second_df "sample" 20 VNone w1 in
  r = (Ok (PurePath.parse "results/artifacts"), r.2)
  ∧ stdout w1 = stdout fresh_world ++ [saved_table_line out_csv]
  ∧ to_csv_fault second_df = None
  ∧ fs r2.2 !! out_csv = Some (File (CSV [ ["id"; "label"]; ["21"; "fake"] ])).
Proof.
  intros m r out_csv w1 r2.
  assert (H0 : r.1 = Ok (PurePath.parse "results/artifacts")) by (vm_compute; reflexivity).
  pose proof (pair_of_fst r _ H0) as He.
  assert (H1 : stdout w1 = stdout fresh_world ++ [saved_table_line out_csv])
    by (vm_compute; reflexivity).
  split; [exact He|]. split; [exact H1|]. split; [reflexivity|].
  destruct (X5_preview_overwrites m sample_df second_df "sample" 20 20 VNone fresh_world
              r.2 (PurePath.parse "results/artifacts") wf_empty He H1 eq_refl)
    as (_ & _ & _ & Hfs).
  subst r2 w1 out_csv. rewrite Hfs. apply lookup_insert_eq.
Defined.

Lemma X6_preview_first_rows_witness :
  let m := import_module fresh_world in
  let r := _ensure_dir (py_or VNone (VPath (DEFAULT_ARTIFACTS_DIR m))) fresh_world in
  let out_csv := PurePath.parse "results/artifacts" // "sample_preview.csv" in
  let w' := (save_dataframe_preview m sample_df "sample" 2 VNone fresh_world).2 in
  (0 ≤ 2)%Z
  ∧ r = (Ok (PurePath.parse "results/artifacts"), r.2)
  ∧ stdout w' = stdout fresh_world ++ [saved_table_line out_csv]
  ∧ fs w' !! out_csv
    = Some (File (CSV [ ["id"; "label"]; ["11"; "real"]; ["12"; "fake"] ])).
Proof.
  intros m r out_csv w'.
  assert (H0 : r.1 = Ok (PurePath.parse "results/artifacts")) by (vm_compute; reflexivity).
  pose proof (pair_of_fst r _ H0) as He.
  assert (H1 : stdout w' = stdout fresh_world ++ [saved_table_line out_csv])
    by (vm_compute; reflexivity).
  split; [lia|]. split; [exact He|]. split; [exact H1|].
  destruct (X6_preview_first_rows m sample_df "sample" 2 VNone fresh_world r.2
              (PurePath.parse "results/artifacts") ltac:(lia) He H1)
    as (rows & Hfile & -> & _).
  exact Hfile.
Defined.

Lemma X7_preview_name_absolute_witness :
  let m := import_module fresh_world in
  let r := _ensure_dir (py_or VNone (VPath (DEFAULT_ARTIFACTS_DIR m))) fresh_world in
  Str.starts_with "/" "/tmp/x" = true
  ∧ r = (Ok (PurePath.parse "results/artifacts"), r.2)
  ∧ (save_dataframe_preview m sample_df "/tmp/x" 20 VNone fresh_world).1
    = Ok (PurePath.str (MkPath true ["x_preview.csv"; "tmp"])).
Proof.
  intros m r.
  assert (H0 : r.1 = Ok (PurePath.parse "results/artifacts")) by (vm_compute; reflexivity).
  pose proof (pair_of_fst r _ H0) as He.
  split; [reflexivity|]. split; [exact He|].
  exact (proj2 (proj2 (X7_preview_name_absolute m sample_df "/tmp/x" 20 VNone fresh_world
                         r.2 (PurePath.parse "results/artifacts") eq_refl He))).
Defined.

Lemma X9_missing_directory_witness :
  let d := PurePath.parse "results/visualizations" in
  let blocked := PurePath.parse "out/plots" in
  (Fs.wf (fs removed_world)
   ∧ Fs.exists_ (fs removed_world) d = false
   ∧ Fs.plain_path (plot_path "eda" d ∅ removed_world) = true
   ∧ next_index d removed_world = (Ok 0, removed_world)
   ∧ (Plt.savefig (gcf removed_world) (plot_path "eda" d ∅ removed_world) 200 "tight"
                  removed_world).1 = Raise FileNotFoundError
   ∧ (call_show show_returns_None (show_and_save "eda" d pyplot_show) [] ∅
                removed_world).1 = Ok VNone)
  ∧ (Fs.wf (fs blocked_world)
     ∧ Fs.exists_ (fs blocked_world) blocked = false
     ∧ Fs.plain_path (plot_path "eda" blocked ∅ blocked_world) = true
     ∧ (Plt.savefig (gcf blocked_world) (plot_path "eda" blocked ∅ blocked_world) 200
                    "tight" blocked_world).1 = Raise NotADirectoryError).
Proof.
  intros d blocked.
  assert (H1 : Fs.wf (fs removed_world)) by exact wf_empty.
  assert (H2 : Fs.exists_ (fs removed_world) d = false) by reflexivity.
  assert (H3 : Fs.exists_ (fs blocked_world) blocked = false) by (vm_compute; reflexivity).
  assert (P1 : Fs.plain_path (plot_path "eda" d ∅ removed_world) = true)
    by (vm_compute; reflexivity).
  assert (P2 : Fs.plain_path (plot_path "eda" blocked ∅ blocked_world) = true)
    by (vm_compute; reflexivity).
  destruct (X9_missing_directory show_returns_None "eda" d [] ∅ removed_world H1 H2 P1)
    as (Hidx & Hfail & Hcall).
  destruct (X9_missing_directory show_returns_None "eda" blocked [] ∅ blocked_world
              blocked_world_wf H3 P2) as (_ & Hfail' & _).
  split.
  - split; [exact H1|]. split; [exact H2|]. split; [exact P1|]. split; [exact Hidx|].
    split; [exact Hfail|]. exact (f_equal fst Hcall).
  - split; [exact blocked_world_wf|]. split; [exact H3|]. split; [exact P2|]. exact Hfail'.
Defined.

Lemma X10_names_sort_in_call_order_witness :
  9 < 10 ∧ 10 < 100
  ∧ String.compare (plot_name 9 "zz" (VStr "z") "20240101-120000")
                   (plot_name 10 "aa" (VStr "a") "20230101-120000") = Lt.
Proof.
  split; [lia|]. split; [lia|].
  apply X10_names_sort_in_call_order; lia.
Defined.

Lemma X12_display_history_witness :
  plt_show eda_world
    = show_and_save "eda" (PurePath.parse "results/visualizations") pyplot_show
  ∧ length (displayed (session show_returns_None mixed_calls eda_world)) = 4
  ∧ plt_show (session show_returns_None mixed_calls eda_world) = plt_show eda_world.
Proof.
  assert (H1 : plt_show eda_world
               = show_and_save "eda" (PurePath.parse "results/visualizations") pyplot_show)
    by (vm_compute; reflexivity).
  destruct (X12_display_history show_returns_None "eda"
              (PurePath.parse "results/visualizations") pyplot_show mixed_calls eda_world H1)
    as [Hd Hs].
  split; [exact H1|]. split; [|exact Hs].
  rewrite Hd. rewrite length_app. reflexivity.
Defined.

Lemma X13_checkpoint_listing_error_witness :
  Fs.exists_ (fs vis_file_world) vis = true
  ∧ Fs.is_dir (fs vis_file_world) vis = false
  ∧ CheckpointCopy.show_and_save "fig" (call_show show_returns_None pyplot_show) [] ∅
                                 vis_file_world
    = (Raise NotADirectoryError, vis_file_world).
Proof.
  assert (H1 : Fs.exists_ (fs vis_file_world) vis = true) by (vm_compute; reflexivity).
  assert (H2 : Fs.is_dir (fs vis_file_world) vis = false) by (vm_compute; reflexivity).
  split; [exact H1|]. split; [exact H2|].
  exact (proj1 (X13_checkpoint_listing_error "fig" (call_show show_returns_None pyplot_show)
                  [] ∅ vis_file_world H1 H2)).
Defined.

Lemma X14_ensure_dir_versions_agree_witness :
  Fs.wf (fs fresh_world)
  ∧ "visualizations" ≠ ""
  ∧ Fs.plain_path (PurePath.parse "visualizations") = true
  ∧ (CheckpointCopy._ensure_dir "visualizations" fresh_world).2
    = (_ensure_dir (VStr "visualizations") fresh_world).2
  ∧ (CheckpointCopy._ensure_dir "visualizations" fresh_world).1 = Ok tt.
Proof.
  assert (Hne : "visualizations" ≠ "") by discriminate.
  split; [exact wf_empty|]. split; [exact Hne|]. split; [reflexivity|].
  destruct (proj1 (X14_ensure_dir_versions_agree "visualizations" fresh_world wf_empty)
                  Hne eq_refl) as [Hw Hr].
  split; [exact Hw|]. apply Hr. vm_compute. reflexivity.
Defined.

Lemma X15_stacked_wrappers_save_twice_witness :
  let d := PurePath.parse "results/visualizations" in
  let f := show_and_save "first" d (show_and_save "second" d pyplot_show) in
  let w' := (call_show show_returns_None f [] {[ "name_hint" := VStr "a" ]} eda_world).2 in
  plots_dir d 0 [] eda_world
  ∧ stdout w' = stdout eda_world ++
      [ "[saved plot] results/visualizations/00_first_a_20240101-120000.png";
        "[saved plot] results/visualizations/01_second_plot_20240101-120000.png" ]
  ∧ plots_dir d 2 [ "01_second_plot_20240101-120000.png"; "00_first_a_20240101-120000.png" ]
              w'.
Proof.
  intros d f w'.
  assert (Hpd : plots_dir d 0 [] eda_world).
  { apply plots_dir_empty; [exact eda_world_wf|vm_compute; reflexivity..]. }
  assert (Hout : stdout w' = stdout eda_world ++
      [ "[saved plot] results/visualizations/00_first_a_20240101-120000.png";
        "[saved plot] results/visualizations/01_second_plot_20240101-120000.png" ])
    by (vm_compute; reflexivity).
  split; [exact Hpd|]. split; [exact Hout|].
  exact (proj2 (proj2 (proj2 (X15_stacked_wrappers_save_twice show_returns_None
           "first" "second" d 0 [] [] {[ "name_hint" := VStr "a" ]} eda_world _ _
           Hpd Hout eq_refl eq_refl)))).
Defined.

Lemma X16_preview_versions_agree_witness :
  Fs.wf (fs fresh_world)
  ∧ Str.contains "/" "sample" = false
  ∧ CheckpointCopy.save_dataframe_preview sample_df "sample" 20 fresh_world
    = save_dataframe_preview (import_module fresh_world) sample_df "sample" 20
                             (VStr "artifacts") fresh_world.
Proof.
  split; [exact wf_empty|]. split; [reflexivity|].
  exact (X16_preview_versions_agree (import_module fresh_world) sample_df "sample" 20
           fresh_world wf_empty eq_refl).
Defined.

Lemma X11_empty_environment_variable_witness :
  let w0 := set_environ {[ "NBX_VIS_DIR" := "" ]} fresh_world in
  environ w0 !! "NBX_VIS_DIR" = Some ""
  ∧ DEFAULT_VIS_DIR (import_module w0) = MkPath false []
  ∧ (enable_autosave_plots (import_module w0) "fig" VNone fresh_world).1 = Ok tt.
Proof.
  intros w0.
  assert (H1 : environ w0 !! "NBX_VIS_DIR" = Some "") by (vm_compute; reflexivity).
  destruct (proj1 (X11_empty_environment_variable w0 "fig" fresh_world) H1) as [Hd He].
  split; [exact H1|]. split; [exact Hd|]. exact (f_equal fst He).
Defined.
